(** * twoapi: the cross-protocol chat translator of the worker script

    A shallow embedding of the converter functions of the worker
    ([toStandardFormat], [fromStandardFormat], the [cache_control]
    helpers, the response and stream-chunk adapters, [processStreamLine]
    and [processStreamData]) and the properties its specification states
    about them; then the glue around them ([applyModelMapping],
    [extractAuthToken], [buildTargetUrl], [buildTargetHeaders], and the
    path checks and the forwarded body of [handleRequest]) and further
    properties read off the code.

    The worker is dynamically typed JavaScript over parsed JSON, so the
    embedding keeps that shape: one type [value] of JavaScript values,
    property reads that throw on [undefined] and [null], truthiness, [||],
    optional chaining, and an exception monad.  What the script takes from
    its runtime ([JSON.parse], [JSON.stringify], the case mappings, the
    number/string conversions, [Date.now] and [TextDecoder]) is gathered in
    the class [Platform].  The theorems hold for every platform; the
    concrete runs use the instance [Reference.platform]. *)

From Stdlib Require Import String Ascii List Bool Arith Floats Uint63
  DecimalString ZArith NArith.
From Stdlib.Strings Require Import Byte.
Import ListNotations.
Local Open Scope string_scope.
Set Warnings "-register-all".

(** ** JavaScript values *)

(** Numbers are IEEE binary64, as in JavaScript.  A string is a sequence of
    code units; the model keeps the code units below 256 (one [ascii]
    each).  An object is its list of own properties in insertion order,
    which is the order [JSON.stringify] prints. *)
Inductive value : Type :=
| VUndefined
| VNull
| VBool (b : bool)
| VNum (n : float)
| VStr (s : string)
| VArr (elems : list value)
| VObj (fields : list (string * value)).

Definition props := list (string * value).

(** The line feed, ['\n']. *)
Definition LF : ascii := "010"%char.
Definition nl : string := String LF EmptyString.

(** The double quote. *)
Definition DQ : ascii := "034"%char.
Definition dq : string := String DQ EmptyString.

(** ** Exceptions *)

Inductive result (A : Type) : Type :=
| Ok (a : A)
| Throw (e : string).
Arguments Ok {A} a.
Arguments Throw {A} e.

Definition bindR {A B : Type} (r : result A) (k : A -> result B) : result B :=
  match r with
  | Ok a => k a
  | Throw e => Throw e
  end.

Declare Scope result_scope.
Delimit Scope result_scope with result.
Notation "x <- e ;; k" := (bindR e (fun x => k))
  (at level 61, e at next level, right associativity) : result_scope.
Local Open Scope result_scope.

(** [xs.map(f)] where [f] may throw: left to right, the first exception
    wins. *)
Fixpoint mapR {A B : Type} (f : A -> result B) (xs : list A) : result (list B) :=
  match xs with
  | [] => Ok []
  | x :: r =>
      match f x with
      | Ok y => match mapR f r with Ok ys => Ok (y :: ys) | Throw e => Throw e end
      | Throw e => Throw e
      end
  end.

Definition TypeError : string := "TypeError".

(** ** The runtime *)

(** What the script calls but does not define.  [JSON_parse] is [None]
    where [JSON.parse] throws its [SyntaxError].  [Date_now k] is what the
    [k]-th call of [Date.now()] in a run returns.  A [TextDecoder] is a
    state and a step (the [{stream: true}] mode keeps the bytes of an
    unfinished character for the next call). *)
Class Platform : Type := {
  JSON_parse : string -> option value;
  JSON_stringify : value -> string;
  String_toLowerCase : string -> string;
  String_toUpperCase : string -> string;
  Number_toString : float -> string;
  String_toNumber : string -> float;
  Date_now : nat -> float;
  decoder : Type;
  TextDecoder_new : decoder;
  TextDecoder_decode : decoder -> list byte -> decoder * string
}.

(** ** Operators of the language *)

Definition truthy (v : value) : bool :=
  match v with
  | VUndefined | VNull => false
  | VBool b => b
  | VNum n => negb (PrimFloat.eqb n 0 || PrimFloat.is_nan n)
  | VStr s => negb (s =? "")
  | VArr _ | VObj _ => true
  end.

(** [a || b] *)
Definition js_or (a b : value) : value := if truthy a then a else b.

Definition nullish (v : value) : bool :=
  match v with VUndefined | VNull => true | _ => false end.

(** [v === 'lit'] *)
Definition is_str (v : value) (lit : string) : bool :=
  match v with VStr s => s =? lit | _ => false end.

(** [typeof v === 'string'] and [Array.isArray(v)] *)
Definition typeof_string (v : value) : bool :=
  match v with VStr _ => true | _ => false end.
Definition Array_isArray (v : value) : bool :=
  match v with VArr _ => true | _ => false end.

Fixpoint lookup (k : string) (fs : props) : option value :=
  match fs with
  | [] => None
  | (k', v) :: r => if k' =? k then Some v else lookup k r
  end.

(** [o.k = v] on the properties of [o]: an existing property keeps its
    place, a new one goes last. *)
Fixpoint assign (k : string) (v : value) (fs : props) : props :=
  match fs with
  | [] => [(k, v)]
  | (k', v') :: r => if k' =? k then (k', v) :: r else (k', v') :: assign k v r
  end.

Definition remove (k : string) (fs : props) : props :=
  filter (fun kv => negb (fst kv =? k)) fs.

Definition nat_key (i : nat) : string := NilEmpty.string_of_uint (Nat.to_uint i).
Definition float_of_nat (n : nat) : float := PrimFloat.of_uint63 (Uint63.of_nat n).

Definition char_string (c : ascii) : value := VStr (String c EmptyString).

Fixpoint indexed (i : nat) (xs : list value) : props :=
  match xs with
  | [] => []
  | x :: r => (nat_key i, x) :: indexed (S i) r
  end.

(** The own enumerable properties of a value, as an object spread
    [{...v}] copies them. *)
Definition own_props (v : value) : props :=
  match v with
  | VObj fs => fs
  | VArr xs => indexed 0 xs
  | VStr s => indexed 0 (map char_string (list_ascii_of_string s))
  | _ => []
  end.

(** [v.k] once [v] is known not to be [undefined] or [null]. *)
Definition field (v : value) (k : string) : value :=
  match v with
  | VObj fs => match lookup k fs with Some x => x | None => VUndefined end
  | VArr xs => if k =? "length" then VNum (float_of_nat (List.length xs)) else VUndefined
  | VStr s => if k =? "length" then VNum (float_of_nat (String.length s)) else VUndefined
  | _ => VUndefined
  end.

(** [v.k]: a [TypeError] on [undefined] and [null]. *)
Definition prop (v : value) (k : string) : result value :=
  if nullish v then Throw TypeError else Ok (field v k).

(** [v?.k] *)
Definition opt_prop (v : value) (k : string) : value :=
  if nullish v then VUndefined else field v k.

(** [v[i]] once [v] is known not to be [undefined] or [null]. *)
Definition item (v : value) (i : nat) : value :=
  match v with
  | VArr xs => nth i xs VUndefined
  | VStr s => match String.get i s with Some c => char_string c | None => VUndefined end
  | VObj fs => match lookup (nat_key i) fs with Some x => x | None => VUndefined end
  | _ => VUndefined
  end.

(** [v[i]] and [v?.[i]] *)
Definition index (v : value) (i : nat) : result value :=
  if nullish v then Throw TypeError else Ok (item v i).
Definition opt_index (v : value) (i : nat) : value :=
  if nullish v then VUndefined else item v i.

(** [s.includes(pat)] on strings *)
Fixpoint includes (s pat : string) : bool :=
  String.prefix pat s
  || match s with
     | EmptyString => false
     | String _ r => includes r pat
     end.

Section Coercions.
Context {P : Platform}.

Definition join_with (sep : string) (parts : list string) : string :=
  String.concat sep parts.

(** The abstract operation ToString, and [xs.join(sep)], which prints
    [undefined] and [null] elements as nothing. *)
Fixpoint ToString (v : value) : string :=
  match v with
  | VUndefined => "undefined"
  | VNull => "null"
  | VBool b => if b then "true" else "false"
  | VNum n => Number_toString n
  | VStr s => s
  | VArr xs =>
      join_with ","
        (map (fun x => match x with
                       | VUndefined | VNull => ""
                       | _ => ToString x
                       end) xs)
  | VObj _ => "[object Object]"
  end.

Definition Array_join (sep : string) (xs : list value) : string :=
  join_with sep
    (map (fun x => match x with
                   | VUndefined | VNull => ""
                   | _ => ToString x
                   end) xs).

(** The abstract operation ToNumber. *)
Definition ToNumber (v : value) : float :=
  match v with
  | VUndefined => PrimFloat.nan
  | VNull => 0%float
  | VBool b => if b then 1%float else 0%float
  | VNum n => n
  | VStr s => String_toNumber s
  | VArr _ | VObj _ => String_toNumber (ToString v)
  end.

(** [a + b]: concatenation when an operand is a string (or becomes one:
    arrays and objects), addition of numbers otherwise. *)
Definition stringy (v : value) : bool :=
  match v with VStr _ | VArr _ | VObj _ => true | _ => false end.

Definition js_add (a b : value) : value :=
  if stringy a || stringy b
  then VStr (ToString a ++ ToString b)
  else VNum (ToNumber a + ToNumber b)%float.

(** [a > b] and [a === 0] for the comparisons with a number literal the
    script makes. *)
Definition js_gt_num (a : value) (b : float) : bool :=
  PrimFloat.ltb b (ToNumber a).

Definition is_num (v : value) (lit : float) : bool :=
  match v with VNum n => PrimFloat.eqb n lit | _ => false end.

(** [v.length === 0] and [v.length > 0] for a [v] that is not [undefined]
    or [null]: an array and a string have their length, an object may have
    a property of that name, nothing else has one. *)
Definition length_is_zero (v : value) : bool :=
  match v with
  | VArr xs => match xs with [] => true | _ :: _ => false end
  | VStr s => s =? ""
  | VObj _ => is_num (field v "length") 0
  | _ => false
  end.

Definition length_positive (v : value) : bool :=
  match v with
  | VArr xs => match xs with [] => false | _ :: _ => true end
  | VStr s => negb (s =? "")
  | VObj _ => js_gt_num (field v "length") 0
  | _ => false
  end.

(** [Math.min(a, b)] *)
Definition Math_min (a b : value) : float :=
  let x := ToNumber a in
  let y := ToNumber b in
  if PrimFloat.is_nan x || PrimFloat.is_nan y then PrimFloat.nan
  else if PrimFloat.ltb x y then x
  else if PrimFloat.ltb y x then y
  else if PrimFloat.ltb (1 / x) 0 then x else y.

(** [Math.floor(x)]: below 2^52 in magnitude, rounding [x + 2^52] to the
    nearest integer and stepping down when that went up; at or above it
    every double is an integer. *)
Definition two52 : float := 4503599627370496%float.

Definition Math_floor (x : float) : float :=
  if PrimFloat.is_nan x || PrimFloat.eqb x 0 then x
  else if PrimFloat.ltb (PrimFloat.abs x) two52 then
    let r := if PrimFloat.ltb 0 x
             then ((x + two52) - two52)%float
             else ((x - two52) + two52)%float in
    if PrimFloat.ltb x r then (r - 1)%float else r
  else x.

(** [v.toLowerCase()], [v?.toLowerCase()] and the upper-case twins: only
    a string has the method. *)
Definition toLowerCase (v : value) : result string :=
  match v with
  | VStr s => Ok (String_toLowerCase s)
  | _ => Throw TypeError
  end.

Definition opt_toLowerCase (v : value) : result value :=
  if nullish v then Ok VUndefined
  else match v with
       | VStr s => Ok (VStr (String_toLowerCase s))
       | _ => Throw TypeError
       end.

Definition opt_toUpperCase (v : value) : result value :=
  if nullish v then Ok VUndefined
  else match v with
       | VStr s => Ok (VStr (String_toUpperCase s))
       | _ => Throw TypeError
       end.
End Coercions.

(** Literals of the script. *)
Definition seven_tenths : float := 0x1.6666666666666p-1%float.
Definition obj (fs : props) : value := VObj fs.
Definition str (s : string) : value := VStr s.
Definition num (n : float) : value := VNum n.

(** ** Request adapters *)

(** The incoming [Request], as far as the adapters read it: its headers,
    names in lower case as [Headers] keeps them.  [headers.get(name)] is
    [null] for a header that is not there. *)
Record Request : Type := { headers : list (string * string) }.

Fixpoint headers_get (hs : list (string * string)) (name : string) : option string :=
  match hs with
  | [] => None
  | (k, v) :: r => if k =? name then Some v else headers_get r name
  end.

(** [platform === 'lit'], for the [platform] argument that defaults to
    [null]. *)
Definition platform_is (platform : option string) (lit : string) : bool :=
  match platform with Some p => p =? lit | None => false end.

(** [xs.find(p)] and [xs.filter(p)] for a predicate that may throw. *)
Fixpoint findR (p : value -> result bool) (xs : list value) : result value :=
  match xs with
  | [] => Ok VUndefined
  | x :: r =>
      match p x with
      | Ok true => Ok x
      | Ok false => findR p r
      | Throw e => Throw e
      end
  end.

Fixpoint filterR (p : value -> result bool) (xs : list value) : result (list value) :=
  match xs with
  | [] => Ok []
  | x :: r =>
      match p x with
      | Ok b =>
          match filterR p r with
          | Ok ys => Ok (if b then x :: ys else ys)
          | Throw e => Throw e
          end
      | Throw e => Throw e
      end
  end.

(** [v.map(f)]: only an array has the method. *)
Definition Array_map (f : value -> result value) (v : value) : result value :=
  match v with
  | VArr xs => ys <- mapR f xs ;; Ok (VArr ys)
  | _ => Throw TypeError
  end.

Definition ephemeral : value := obj [("type", str "ephemeral")].

Section Requests.
Context {P : Platform}.

Definition toStandardFormat (request : value) (sourceFormat : string) : result value :=
  model <- prop request "model" ;;
  let standard :=
    [ ("messages", VArr []);
      ("model", js_or model (str ""));
      ("max_tokens", js_or (field request "max_tokens") (num 2048));
      ("temperature", js_or (field request "temperature") (num seven_tenths));
      ("stream", js_or (field request "stream") (VBool false)) ] in
  if (sourceFormat =? "openai") || (sourceFormat =? "openrouter") then
    let standard := assign "messages" (js_or (field request "messages") (VArr [])) standard in
    let standard := assign "model" (js_or (field request "model") (str "")) standard in
    let standard := assign "max_tokens" (js_or (field request "max_tokens") (num 2048)) standard in
    let standard :=
      assign "temperature" (js_or (field request "temperature") (num seven_tenths)) standard in
    let standard := assign "stream" (js_or (field request "stream") (VBool false)) standard in
    Ok (obj standard)
  else if sourceFormat =? "anthropic" then
    let standard := assign "messages" (js_or (field request "messages") (VArr [])) standard in
    let standard := assign "model" (js_or (field request "model") (str "")) standard in
    let standard := assign "max_tokens" (js_or (field request "max_tokens") (num 2048)) standard in
    let standard :=
      assign "temperature" (js_or (field request "temperature") (num seven_tenths)) standard in
    let standard := assign "stream" (js_or (field request "stream") (VBool false)) standard in
    let standard :=
      if truthy (field request "system")
      then assign "system" (field request "system") standard
      else standard in
    Ok (obj standard)
  else if sourceFormat =? "gemini" then
    standard <-
      (if truthy (field request "contents") then
         messages <-
           Array_map
             (fun content =>
                role <- prop content "role" ;;
                parts <- prop content "parts" ;;
                texts <- Array_map (fun part => prop part "text") parts ;;
                Ok (obj [ ("role", str (if is_str role "user" then "user" else "assistant"));
                          ("content",
                           str (Array_join "" (match texts with VArr ts => ts | _ => [] end))) ]))
             (field request "contents") ;;
         Ok (assign "messages" messages standard)
       else Ok standard) ;;
    let standard :=
      if truthy (field request "generationConfig") then
        let generationConfig := field request "generationConfig" in
        let standard :=
          assign "max_tokens"
            (js_or (field generationConfig "maxOutputTokens") (num 2048)) standard in
        assign "temperature"
          (js_or (field generationConfig "temperature") (num seven_tenths)) standard
      else standard in
    let standard :=
      if negb (truthy (field (obj standard) "model"))
      then assign "model" (str "gemini-pro") standard
      else standard in
    Ok (obj standard)
  else Ok (obj standard).

Definition isClaudeModel (model : value) : result bool :=
  if negb (truthy model) then Ok false
  else
    modelLower <- toLowerCase model ;;
    Ok (includes modelLower "claude" || includes modelLower "anthropic").

Definition removeCacheControlFromMessages (messages : value) : result value :=
  if negb (truthy messages) || length_is_zero messages then Ok messages
  else
    Array_map
      (fun message =>
         content <- prop message "content" ;;
         if typeof_string content then Ok message
         else
           match content with
           | VArr _ =>
               cleanContent <-
                 Array_map
                   (fun part =>
                      if nullish part then Throw TypeError
                      else Ok (obj (remove "cache_control" (own_props part))))
                   content ;;
               Ok (obj (assign "content" cleanContent (own_props message)))
           | _ => Ok message
           end)
      messages.

(** The body of the loop of [addCacheControlToMessages] once it stands on
    a message whose role is ['user']. *)
Definition annotate (message : value) : result value :=
  let content := field message "content" in
  if typeof_string content then
    Ok (obj (assign "content"
               (VArr [ obj [ ("type", str "text");
                             ("text", content);
                             ("cache_control", ephemeral) ] ])
               (own_props message)))
  else
    match content with
    | VArr parts =>
        content' <-
          match rev parts with
          | [] => Ok parts
          | last :: front =>
              type <- prop last "type" ;;
              if is_str type "text"
              then Ok (rev front ++ [obj (assign "cache_control" ephemeral (own_props last))])%list
              else Ok parts
          end ;;
        Ok (obj (assign "content" (VArr content') (own_props message)))
    | _ => Ok message
    end.

(** The loop [for (let i = length - 1; i >= 0; i--)], on the messages from
    the last to the first; it stops ([break]) at the first user message it
    meets. *)
Fixpoint annotate_last_user (backwards : list value) : result (list value) :=
  match backwards with
  | [] => Ok []
  | message :: earlier =>
      role <- prop message "role" ;;
      if is_str role "user" then
        message' <- annotate message ;;
        Ok (message' :: earlier)
      else
        earlier' <- annotate_last_user earlier ;;
        Ok (message :: earlier')
  end.

(** [[...messages]]: an array is copied, a string spreads into its
    characters, nothing else the script can hold is iterable. *)
Definition spread_array (v : value) : result (list value) :=
  match v with
  | VArr xs => Ok xs
  | VStr s => Ok (map char_string (list_ascii_of_string s))
  | _ => Throw TypeError
  end.

Definition addCacheControlToMessages (messages : value) : result value :=
  if negb (truthy messages) || length_is_zero messages then Ok messages
  else
    modifiedMessages <- spread_array messages ;;
    backwards <- annotate_last_user (rev modifiedMessages) ;;
    Ok (VArr (rev backwards)).

Definition fromStandardFormat (standard : value) (targetFormat : string)
    (originalRequest : option Request) (platform : option string) : result value :=
  if (targetFormat =? "openai") || (targetFormat =? "openrouter") then
    model <- prop standard "model" ;;
    let openaiRequest :=
      [ ("model", model);
        ("messages", field standard "messages");
        ("max_tokens", field standard "max_tokens");
        ("temperature", field standard "temperature");
        ("stream", field standard "stream") ] in
    let openaiRequest :=
      if platform_is platform "groq" then
        assign "max_tokens"
          (num (Math_min (field (obj openaiRequest) "max_tokens") (num 16384)))
          openaiRequest
      else openaiRequest in
    openaiRequest <-
      (if platform_is platform "openrouter" then
         messages <- removeCacheControlFromMessages (field (obj openaiRequest) "messages") ;;
         let openaiRequest := assign "messages" messages openaiRequest in
         match originalRequest with
         | Some request =>
             match headers_get (headers request) "anthropic-beta" with
             | Some anthropicBeta =>
                 if negb (anthropicBeta =? "") && includes anthropicBeta "prompt-caching" then
                   claude <- isClaudeModel (field standard "model") ;;
                   if claude then
                     messages <- addCacheControlToMessages (field (obj openaiRequest) "messages") ;;
                     Ok (assign "messages" messages openaiRequest)
                   else Ok openaiRequest
                 else Ok openaiRequest
             | None => Ok openaiRequest
             end
         | None => Ok openaiRequest
         end
       else Ok openaiRequest) ;;
    Ok (obj openaiRequest)
  else if targetFormat =? "anthropic" then
    model <- prop standard "model" ;;
    let anthropicRequest :=
      [ ("model", model);
        ("messages", field standard "messages");
        ("max_tokens", field standard "max_tokens");
        ("temperature", field standard "temperature");
        ("stream", field standard "stream") ] in
    if truthy (field standard "system") then
      Ok (obj (assign "system" (field standard "system") anthropicRequest))
    else
      match field standard "messages" with
      | VArr messages =>
          systemMessage <-
            findR (fun msg => role <- prop msg "role" ;; Ok (is_str role "system"))
              messages ;;
          if truthy systemMessage then
            let anthropicRequest :=
              assign "system" (field systemMessage "content") anthropicRequest in
            kept <-
              filterR (fun msg => role <- prop msg "role" ;; Ok (negb (is_str role "system")))
                messages ;;
            Ok (obj (assign "messages" (VArr kept) anthropicRequest))
          else Ok (obj anthropicRequest)
      | _ => Throw TypeError
      end
  else if targetFormat =? "gemini" then
    messages <- prop standard "messages" ;;
    contents <-
      Array_map
        (fun msg =>
           role <- prop msg "role" ;;
           Ok (obj [ ("role", str (if is_str role "user" then "user" else "model"));
                     ("parts", VArr [obj [("text", field msg "content")]]) ]))
        messages ;;
    Ok (obj [ ("contents", contents);
              ("generationConfig",
               obj [ ("maxOutputTokens", field standard "max_tokens");
                     ("temperature", field standard "temperature") ]) ])
  else Ok standard.

Definition convertRequest (requestBody : value) (sourceFormat targetFormat : string)
    (originalRequest : option Request) (platform : option string) : result value :=
  standardRequest <- toStandardFormat requestBody sourceFormat ;;
  fromStandardFormat standardRequest targetFormat originalRequest platform.

End Requests.

(** ** Effects: the clock and the output writer *)

(** A run reads the clock and writes to the [WritableStream] writer.  The
    state keeps how many times [Date.now()] was called, the chunks written
    so far (each as the text that was encoded), and whether the writer was
    closed.  An exception leaves the state as it was when it was thrown.
    Writing always succeeds in this model. *)
Record world : Type := {
  now_calls : nat;
  written : list string;
  closed : bool
}.

Definition IO (A : Type) : Type := world -> world * result A.

Definition retIO {A : Type} (a : A) : IO A := fun w => (w, Ok a).

Definition bindIO {A B : Type} (c : IO A) (k : A -> IO B) : IO B :=
  fun w =>
    match c w with
    | (w', Ok a) => k a w'
    | (w', Throw e) => (w', Throw e)
    end.

Declare Scope io_scope.
Delimit Scope io_scope with io.
Notation "x <- e ;; k" := (bindIO e (fun x => k))
  (at level 61, e at next level, right associativity) : io_scope.
Notation "e ;;; k" := (bindIO e (fun _ => k))
  (at level 61, right associativity) : io_scope.

Definition lift {A : Type} (r : result A) : IO A := fun w => (w, r).

(** [try { body } catch (error) { handler(error.message) }] *)
Definition try_catch {A : Type} (body : IO A) (handler : string -> IO A) : IO A :=
  fun w =>
    match body w with
    | (w', Throw e) => handler e w'
    | done => done
    end.

(** [try { body } finally { final }] *)
Definition try_finally {A : Type} (body : IO A) (final : IO unit) : IO A :=
  fun w =>
    match body w with
    | (w', r) =>
        match final w' with
        | (w'', Ok _) => (w'', r)
        | (w'', Throw e) => (w'', Throw e)
        end
    end.

(** [writer.write(new TextEncoder().encode(text))] and [writer.close()] *)
Definition writer_write (text : string) : IO unit :=
  fun w =>
    ({| now_calls := now_calls w;
        written := written w ++ [text];
        closed := closed w |}, Ok tt).

Definition writer_close : IO unit :=
  fun w =>
    ({| now_calls := now_calls w; written := written w; closed := true |}, Ok tt).

(** [for (const x of xs) await f(x)] *)
Fixpoint for_of {A : Type} (f : A -> IO unit) (xs : list A) : IO unit :=
  match xs with
  | [] => retIO tt
  | x :: r => (f x ;;; for_of f r)%io
  end.

Definition start : world := {| now_calls := 0; written := []; closed := false |}.

Section Responses.
Context {P : Platform}.

(** [Date.now()] *)
Definition Date_now_call : IO float :=
  fun w =>
    ({| now_calls := S (now_calls w); written := written w; closed := closed w |},
     Ok (Date_now (now_calls w))).

Definition responseToStandardFormat (response : value) (sourceFormat : string) : IO value :=
  (now <- Date_now_call ;;
   let standard :=
     [ ("id", str "");
       ("object", str "chat.completion");
       ("created", num (Math_floor (now / 1000)));
       ("model", str "");
       ("choices", VArr []);
       ("usage", obj [ ("prompt_tokens", num 0);
                       ("completion_tokens", num 0);
                       ("total_tokens", num 0) ]) ] in
   if (sourceFormat =? "openai") || (sourceFormat =? "openrouter") then
     retIO response
   else if sourceFormat =? "anthropic" then
     id <- lift (prop response "id") ;;
     let standard := assign "id" (js_or id (str "")) standard in
     let standard := assign "model" (js_or (field response "model") (str "")) standard in
     let standard :=
       assign "choices"
         (VArr [ obj [ ("index", num 0);
                       ("message",
                        obj [ ("role", str "assistant");
                              ("content",
                               js_or (opt_prop (opt_index (field response "content") 0) "text")
                                     (str "")) ]);
                       ("finish_reason", js_or (field response "stop_reason") (str "stop")) ] ])
         standard in
     let standard :=
       assign "usage"
         (obj [ ("prompt_tokens",
                 js_or (opt_prop (field response "usage") "input_tokens") (num 0));
                ("completion_tokens",
                 js_or (opt_prop (field response "usage") "output_tokens") (num 0));
                ("total_tokens",
                 js_add (js_or (opt_prop (field response "usage") "input_tokens") (num 0))
                        (js_or (opt_prop (field response "usage") "output_tokens") (num 0))) ])
         standard in
     retIO (obj standard)
   else if sourceFormat =? "gemini" then
     now' <- Date_now_call ;;
     let standard := assign "id" (js_add (str "gemini-") (num now')) standard in
     let standard := assign "model" (str "gemini") standard in
     candidates <- lift (prop response "candidates") ;;
     standard <-
       (if truthy candidates && length_positive candidates then
          let candidate := item candidates 0 in
          content <- lift (prop candidate "content") ;;
          finishReason <- lift (opt_toLowerCase (field candidate "finishReason")) ;;
          retIO
            (assign "choices"
               (VArr [ obj [ ("index", num 0);
                             ("message",
                              obj [ ("role", str "assistant");
                                    ("content",
                                     js_or (opt_prop (opt_index (opt_prop content "parts") 0) "text")
                                           (str "")) ]);
                             ("finish_reason", js_or finishReason (str "stop")) ] ])
               standard)
        else retIO standard) ;;
     retIO (obj standard)
   else retIO (obj standard))%io.

Definition responseFromStandardFormat (standard : value) (targetFormat : string) : result value :=
  if (targetFormat =? "openai") || (targetFormat =? "openrouter") then Ok standard
  else if targetFormat =? "anthropic" then
    choices <- prop standard "choices" ;;
    choice <- index choices 0 ;;
    usage_prompt <- prop (field standard "usage") "prompt_tokens" ;;
    Ok (obj [ ("id", field standard "id");
              ("type", str "message");
              ("role", str "assistant");
              ("content",
               VArr [ obj [ ("type", str "text");
                            ("text", js_or (opt_prop (opt_prop choice "message") "content")
                                           (str "")) ] ]);
              ("model", field standard "model");
              ("stop_reason", js_or (opt_prop choice "finish_reason") (str "end_turn"));
              ("usage", obj [ ("input_tokens", usage_prompt);
                              ("output_tokens",
                               field (field standard "usage") "completion_tokens") ]) ])
  else if targetFormat =? "gemini" then
    choices <- prop standard "choices" ;;
    geminiChoice <- index choices 0 ;;
    finishReason <- opt_toUpperCase (opt_prop geminiChoice "finish_reason") ;;
    Ok (obj [ ("candidates",
               VArr [ obj [ ("content",
                             obj [ ("parts",
                                    VArr [ obj [ ("text",
                                                  js_or (opt_prop (opt_prop geminiChoice "message")
                                                                  "content")
                                                        (str "")) ] ]);
                                   ("role", str "model") ]);
                            ("finishReason", js_or finishReason (str "STOP"));
                            ("index", num 0) ] ]) ])
  else Ok standard.

Definition convertResponse (response : value) (sourceFormat targetFormat : string) : IO value :=
  (standardResponse <- responseToStandardFormat response sourceFormat ;;
   lift (responseFromStandardFormat standardResponse targetFormat))%io.

End Responses.

(** ** Stream-chunk adapters *)

Section Chunks.
Context {P : Platform}.

Definition streamChunkToStandardFormat (chunk : value) (sourceFormat : string) : IO value :=
  (id <- lift (prop chunk "id") ;;
   created <-
     (if truthy (field chunk "created") then retIO (field chunk "created")
      else now <- Date_now_call ;; retIO (num (Math_floor (now / 1000)))) ;;
   let standard :=
     [ ("id", js_or id (str ""));
       ("object", str "chat.completion.chunk");
       ("created", created);
       ("model", js_or (field chunk "model") (str ""));
       ("choices", VArr []) ] in
   if (sourceFormat =? "openai") || (sourceFormat =? "openrouter") then
     retIO chunk
   else if sourceFormat =? "anthropic" then
     if is_str (field chunk "type") "content_block_delta" then
       retIO
         (obj (assign "choices"
                 (VArr [ obj [ ("index", num 0);
                               ("delta",
                                obj [ ("content",
                                       js_or (opt_prop (field chunk "delta") "text") (str "")) ]);
                               ("finish_reason", VNull) ] ])
                 standard))
     else if is_str (field chunk "type") "message_stop" then
       retIO
         (obj (assign "choices"
                 (VArr [ obj [ ("index", num 0);
                               ("delta", obj []);
                               ("finish_reason", str "stop") ] ])
                 standard))
     else retIO (obj standard)
   else if sourceFormat =? "gemini" then
     let candidates := field chunk "candidates" in
     if truthy candidates && length_positive candidates then
       let candidate := item candidates 0 in
       content <- lift (prop candidate "content") ;;
       finishReason <- lift (opt_toLowerCase (field candidate "finishReason")) ;;
       retIO
         (obj (assign "choices"
                 (VArr [ obj [ ("index", num 0);
                               ("delta",
                                obj [ ("content",
                                       js_or (opt_prop (opt_index (opt_prop content "parts") 0) "text")
                                             (str "")) ]);
                               ("finish_reason", js_or finishReason VNull) ] ])
                 standard))
     else retIO (obj standard)
   else retIO (obj standard))%io.

Definition streamChunkFromStandardFormat (standard : value) (targetFormat : string)
    : result value :=
  if (targetFormat =? "openai") || (targetFormat =? "openrouter") then Ok standard
  else if targetFormat =? "anthropic" then
    choices <- prop standard "choices" ;;
    choice <- index choices 0 ;;
    if truthy (opt_prop (opt_prop choice "delta") "content") then
      Ok (obj [ ("type", str "content_block_delta");
                ("index", num 0);
                ("delta", obj [ ("type", str "text_delta");
                                ("text", field (field choice "delta") "content") ]) ])
    else if truthy (opt_prop choice "finish_reason") then
      Ok (obj [ ("type", str "message_stop") ])
    else Ok standard
  else if targetFormat =? "gemini" then
    choices <- prop standard "choices" ;;
    geminiChoice <- index choices 0 ;;
    if truthy (opt_prop (opt_prop geminiChoice "delta") "content") then
      finishReason <- opt_toUpperCase (field geminiChoice "finish_reason") ;;
      Ok (obj [ ("candidates",
                 VArr [ obj [ ("content",
                               obj [ ("parts",
                                      VArr [ obj [ ("text",
                                                    field (field geminiChoice "delta") "content") ] ]);
                                     ("role", str "model") ]);
                              ("finishReason", js_or finishReason VNull);
                              ("index", num 0) ] ]) ])
    else Ok standard
  else Ok standard.

Definition convertStreamChunk (chunk : value) (sourceFormat targetFormat : string) : IO value :=
  if sourceFormat =? targetFormat then retIO chunk
  else
    (standardChunk <- streamChunkToStandardFormat chunk sourceFormat ;;
     lift (streamChunkFromStandardFormat standardChunk targetFormat))%io.

End Chunks.

(** ** The event-stream reframer *)

(** White space of [trim] among the code units below 256: tab, line feed,
    vertical tab, form feed, carriage return, space, no-break space. *)
Definition is_white (c : ascii) : bool :=
  match nat_of_ascii c with
  | 9 | 10 | 11 | 12 | 13 | 32 | 160 => true
  | _ => false
  end.

Fixpoint trimStart (s : string) : string :=
  match s with
  | EmptyString => EmptyString
  | String c r => if is_white c then trimStart r else s
  end.

Fixpoint trimEnd (s : string) : string :=
  match s with
  | EmptyString => EmptyString
  | String c r =>
      match trimEnd r with
      | EmptyString => if is_white c then EmptyString else String c EmptyString
      | r' => String c r'
      end
  end.

Definition trim (s : string) : string := trimEnd (trimStart s).

(** [s.substring(n)] *)
Fixpoint substring_from (n : nat) (s : string) : string :=
  match n, s with
  | O, _ => s
  | S m, EmptyString => EmptyString
  | S m, String _ r => substring_from m r
  end.

(** [s.split('\n')]: the pieces between line feeds, at least one. *)
Fixpoint split_lines (s : string) : list string :=
  match s with
  | EmptyString => [EmptyString]
  | String c r =>
      if Ascii.eqb c LF then EmptyString :: split_lines r
      else
        match split_lines r with
        | [] => [String c EmptyString]
        | l :: ls => String c l :: ls
        end
  end.

(** What a [ReadableStream] delivers to its reader: chunks of bytes, then
    either the end of the stream or an error. *)
Record source : Type := {
  reads : list (list byte);
  failure : option string
}.

Section Reframer.
Context {P : Platform}.

Definition processStreamLine (line : string) (sourceFormat targetFormat : string) : IO unit :=
  try_catch
    (if trim line =? "" then writer_write nl
     else if String.prefix "data: " line then
       let dataStr := substring_from 6 line in
       if (dataStr =? "[DONE]") || (trim dataStr =? "") then
         writer_write (line ++ nl ++ nl)
       else
         try_catch
           (data <- lift (match JSON_parse dataStr with
                          | Some data => Ok data
                          | None => Throw "SyntaxError"
                          end) ;;
            convertedData <- convertStreamChunk data sourceFormat targetFormat ;;
            let outputLine := "data: " ++ JSON_stringify convertedData ++ nl ++ nl in
            writer_write outputLine)%io
           (fun parseError => writer_write (line ++ nl ++ nl))
     else writer_write (line ++ nl))
    (fun message =>
       writer_write
         ("data: {" ++ dq ++ "error" ++ dq ++ ": " ++ dq
            ++ "Line processing error: " ++ message ++ dq ++ "}" ++ nl ++ nl)).

(** The [while (true)] loop over the reads that arrive.  [buffer] is the
    line buffer, [decoder] the state of the [TextDecoder]; the loop returns
    the buffer it ends with. *)
Fixpoint read_loop (chunks : list (list byte)) (failure : option string)
    (dec : decoder) (buffer : string) (sourceFormat targetFormat : string) : IO string :=
  match chunks with
  | [] =>
      match failure with
      | None => retIO buffer
      | Some message => lift (Throw message)
      end
  | value :: rest =>
      let (dec', text) := TextDecoder_decode dec value in
      let buffer := buffer ++ text in
      let lines := split_lines buffer in
      let buffer := last lines "" in
      let lines := removelast lines in
      (for_of (fun line => processStreamLine line sourceFormat targetFormat) lines ;;;
       read_loop rest failure dec' buffer sourceFormat targetFormat)%io
  end.

Definition processStreamData (inputStream : source) (sourceFormat targetFormat : string)
    : IO unit :=
  try_finally
    (try_catch
       (buffer <- read_loop (reads inputStream) (failure inputStream)
                    TextDecoder_new "" sourceFormat targetFormat ;;
        if negb (buffer =? "")
        then processStreamLine buffer sourceFormat targetFormat
        else retIO tt)%io
       (fun message =>
          writer_write
            ("data: {" ++ dq ++ "error" ++ dq ++ ": " ++ dq
               ++ "Stream processing error: " ++ message ++ dq ++ "}" ++ nl ++ nl)))
    writer_close.

End Reframer.

(** ** A reference runtime *)

(** A small, executable instance of [Platform], used to run the model on
    concrete inputs.  It covers the JSON texts without exponents and
    without [\u] escapes, numbers of at most 15 digits, the case mappings
    of the ASCII letters, single-byte text, and a clock that advances by
    one millisecond per reading.  Numbers are printed exactly (every finite
    double has a finite decimal expansion). *)
Module Reference.

Definition is_digit (c : ascii) : bool :=
  ((48 <=? nat_of_ascii c) && (nat_of_ascii c <=? 57))%nat.

Definition digit_of (c : ascii) : N := N.of_nat (nat_of_ascii c - 48).

Definition decimal (n : N) : string := NilZero.string_of_uint (N.to_uint n).

Fixpoint repeat_zero (n : nat) : string :=
  match n with
  | O => EmptyString
  | S m => String "0" (repeat_zero m)
  end.

Fixpoint strip_zeros (s : string) : string :=
  match s with
  | EmptyString => EmptyString
  | String c r =>
      match strip_zeros r with
      | EmptyString => if Ascii.eqb c "0" then EmptyString else String c EmptyString
      | r' => String c r'
      end
  end.

(** The decimal expansion of [m * 2^e]. *)
Definition expansion (m : positive) (e : Z) : string :=
  match e with
  | Zneg k =>
      let k := Pos.to_nat k in
      let digits := decimal (Npos m * 5 ^ N.of_nat k) in
      let digits := repeat_zero (S k - String.length digits) ++ digits in
      let whole := String.length digits - k in
      let fraction := strip_zeros (substring_from whole digits) in
      if fraction =? "" then String.substring 0 whole digits
      else String.substring 0 whole digits ++ "." ++ fraction
  | _ => decimal (Npos m * 2 ^ Z.to_N e)
  end.

Definition print_number (not_finite : bool -> bool -> string) (x : float) : string :=
  match Prim2SF x with
  | S754_zero _ => "0"
  | S754_infinity negative => not_finite false negative
  | S754_nan => not_finite true false
  | S754_finite negative m e => (if negative then "-" else "") ++ expansion m e
  end.

Definition number_to_string (x : float) : string :=
  print_number
    (fun nan negative =>
       if nan then "NaN" else if negative then "-Infinity" else "Infinity")
    x.

Definition float_of_N (n : N) : float := PrimFloat.of_uint63 (Uint63.of_Z (Z.of_N n)).

Fixpoint take_digits (s : string) (acc : N) (count : nat) : N * nat * string :=
  match s with
  | String c r =>
      if is_digit c then take_digits r (acc * 10 + digit_of c) (S count)
      else (acc, count, s)
  | EmptyString => (acc, count, s)
  end.

(** An unsigned decimal numeral [digits] or [digits.digits] at the head of
    [s]: its value and what follows it.  A numeral of up to 15 digits is a
    quotient of two integers that are doubles, so the rounded quotient is
    the double nearest to it. *)
Definition exponent_follows (s : string) : bool :=
  String.prefix "e" s || String.prefix "E" s.

Definition scan_number (s : string) : option (float * string) :=
  let '(whole, count, rest) := take_digits s 0 0 in
  if (count =? 0)%nat || (String.prefix "0" s && (1 <? count)%nat) then None
  else
    match rest with
    | String "." r =>
        let '(numerator, places, rest') := take_digits r whole 0 in
        if (places =? 0)%nat || (15 <? count + places)%nat || exponent_follows rest'
        then None
        else Some ((float_of_N numerator / float_of_N (10 ^ N.of_nat places))%float, rest')
    | _ =>
        if (15 <? count)%nat || exponent_follows rest then None
        else Some (float_of_N whole, rest)
    end.

Definition string_to_number (s : string) : float :=
  let s := trim s in
  if s =? "" then 0%float
  else
    let negative := String.prefix "-" s in
    match scan_number (if negative then substring_from 1 s else s) with
    | Some (x, EmptyString) => if negative then (- x)%float else x
    | _ => PrimFloat.nan
    end.

Definition to_lower (c : ascii) : ascii :=
  let n := nat_of_ascii c in
  if ((65 <=? n) && (n <=? 90))%nat then ascii_of_nat (n + 32) else c.

Definition to_upper (c : ascii) : ascii :=
  let n := nat_of_ascii c in
  if ((97 <=? n) && (n <=? 122))%nat then ascii_of_nat (n - 32) else c.

Fixpoint map_string (f : ascii -> ascii) (s : string) : string :=
  match s with
  | EmptyString => EmptyString
  | String c r => String (f c) (map_string f r)
  end.

(** *** Printing JSON *)

Definition hex_digit (n : nat) : ascii :=
  if (n <? 10)%nat then ascii_of_nat (48 + n) else ascii_of_nat (87 + n).

Definition escape (c : ascii) : string :=
  let n := nat_of_ascii c in
  if Ascii.eqb c DQ then String "\" dq
  else if Ascii.eqb c "\" then "\\"
  else if (n =? 8)%nat then "\b"
  else if (n =? 9)%nat then "\t"
  else if (n =? 10)%nat then "\n"
  else if (n =? 12)%nat then "\f"
  else if (n =? 13)%nat then "\r"
  else if (n <? 32)%nat then
    "\u00" ++ String (hex_digit (n / 16)) (String (hex_digit (n mod 16)) "")
  else String c EmptyString.

Fixpoint escape_all (s : string) : string :=
  match s with
  | EmptyString => EmptyString
  | String c r => escape c ++ escape_all r
  end.

Definition quote (s : string) : string := dq ++ escape_all s ++ dq.

Fixpoint stringify (v : value) : string :=
  match v with
  | VUndefined => "undefined"
  | VNull => "null"
  | VBool b => if b then "true" else "false"
  | VNum x => print_number (fun _ _ => "null") x
  | VStr s => quote s
  | VArr xs =>
      "[" ++ String.concat ","
               (map (fun x => match x with
                              | VUndefined => "null"
                              | _ => stringify x
                              end) xs)
          ++ "]"
  | VObj fs =>
      "{" ++ String.concat ","
               ((fix members (fs : props) : list string :=
                   match fs with
                   | [] => []
                   | (k, x) :: r =>
                       match x with
                       | VUndefined => members r
                       | _ => (quote k ++ ":" ++ stringify x) :: members r
                       end
                   end) fs)
          ++ "}"
  end.

(** *** Reading JSON *)

Definition json_white (c : ascii) : bool :=
  match nat_of_ascii c with
  | 9 | 10 | 13 | 32 => true
  | _ => false
  end.

Fixpoint skip_white (s : string) : string :=
  match s with
  | EmptyString => EmptyString
  | String c r => if json_white c then skip_white r else s
  end.

Definition unescape (c : ascii) : option ascii :=
  if Ascii.eqb c DQ then Some DQ
  else if Ascii.eqb c "\" then Some "\"%char
  else if Ascii.eqb c "/" then Some "/"%char
  else if Ascii.eqb c "b" then Some (ascii_of_nat 8)
  else if Ascii.eqb c "t" then Some (ascii_of_nat 9)
  else if Ascii.eqb c "n" then Some (ascii_of_nat 10)
  else if Ascii.eqb c "f" then Some (ascii_of_nat 12)
  else if Ascii.eqb c "r" then Some (ascii_of_nat 13)
  else None.

Definition push (c : ascii) (r : option (string * string)) : option (string * string) :=
  match r with
  | Some (s, rest) => Some (String c s, rest)
  | None => None
  end.

(** The text of a string literal after its opening quote, and what follows
    its closing quote. *)
Fixpoint scan_string (s : string) : option (string * string) :=
  match s with
  | EmptyString => None
  | String c r =>
      if Ascii.eqb c DQ then Some (EmptyString, r)
      else if Ascii.eqb c "\" then
        match r with
        | String e r' =>
            match unescape e with
            | Some c' => push c' (scan_string r')
            | None => None
            end
        | EmptyString => None
        end
      else if (nat_of_ascii c <? 32)%nat then None
      else push c (scan_string r)
  end.

Fixpoint scan_value (fuel : nat) (s : string) {struct fuel} : option (value * string) :=
  match fuel with
  | O => None
  | S fuel =>
      match skip_white s with
      | String c r =>
          if Ascii.eqb c "{" then
            match skip_white r with
            | String "}" r' => Some (VObj [], r')
            | r' => scan_members fuel r' []
            end
          else if Ascii.eqb c "[" then
            match skip_white r with
            | String "]" r' => Some (VArr [], r')
            | r' => scan_elements fuel r' []
            end
          else if Ascii.eqb c DQ then
            match scan_string r with
            | Some (text, r') => Some (VStr text, r')
            | None => None
            end
          else if Ascii.eqb c "-" then
            match scan_number r with
            | Some (x, r') => Some (VNum (- x)%float, r')
            | None => None
            end
          else if is_digit c then
            match scan_number (String c r) with
            | Some (x, r') => Some (VNum x, r')
            | None => None
            end
          else if String.prefix "true" (String c r) then
            Some (VBool true, substring_from 4 (String c r))
          else if String.prefix "false" (String c r) then
            Some (VBool false, substring_from 5 (String c r))
          else if String.prefix "null" (String c r) then Some (VNull, substring_from 4 (String c r))
          else None
      | EmptyString => None
      end
  end
with scan_elements (fuel : nat) (s : string) (seen : list value) {struct fuel}
    : option (value * string) :=
  match fuel with
  | O => None
  | S fuel =>
      match scan_value fuel s with
      | Some (v, r) =>
          match skip_white r with
          | String "," r' => scan_elements fuel r' (v :: seen)
          | String "]" r' => Some (VArr (rev (v :: seen)), r')
          | _ => None
          end
      | None => None
      end
  end
with scan_members (fuel : nat) (s : string) (seen : props) {struct fuel}
    : option (value * string) :=
  match fuel with
  | O => None
  | S fuel =>
      match skip_white s with
      | String c r =>
          if Ascii.eqb c DQ then
            match scan_string r with
            | Some (key, r') =>
                match skip_white r' with
                | String ":" r'' =>
                    match scan_value fuel r'' with
                    | Some (v, r3) =>
                        match skip_white r3 with
                        | String "," r4 => scan_members fuel r4 (assign key v seen)
                        | String "}" r4 => Some (VObj (assign key v seen), r4)
                        | _ => None
                        end
                    | None => None
                    end
                | _ => None
                end
            | None => None
            end
          else None
      | EmptyString => None
      end
  end.

Definition parse (s : string) : option value :=
  match scan_value (2 * String.length s + 2) s with
  | Some (v, rest) => if skip_white rest =? "" then Some v else None
  | None => None
  end.

Definition platform : Platform := {|
  JSON_parse := parse;
  JSON_stringify := stringify;
  String_toLowerCase := map_string to_lower;
  String_toUpperCase := map_string to_upper;
  Number_toString := number_to_string;
  String_toNumber := string_to_number;
  Date_now := fun k => (1700000000000 + float_of_nat k)%float;
  decoder := unit;
  TextDecoder_new := tt;
  TextDecoder_decode := fun d bytes => (d, string_of_list_byte bytes)
|}.

End Reference.

(** * Routing glue: the platform table, tokens, URLs and headers *)

(** [API_FORMATS], the table of the platforms. *)
Definition API_FORMATS : props :=
  [ ("openai",
     obj [ ("baseUrl", str "https://api.openai.com");
           ("headers", obj [ ("Authorization", str "Bearer {token}");
                             ("Content-Type", str "application/json") ]);
           ("endpoint", str "/v1/chat/completions");
           ("format", str "openai") ]);
    ("anthropic",
     obj [ ("baseUrl", str "https://api.anthropic.com");
           ("headers", obj [ ("x-api-key", str "{token}");
                             ("anthropic-version", str "2023-06-01");
                             ("Content-Type", str "application/json") ]);
           ("endpoint", str "/v1/messages");
           ("format", str "anthropic") ]);
    ("gemini",
     obj [ ("baseUrl", str "https://generativelanguage.googleapis.com");
           ("headers", obj [ ("Content-Type", str "application/json") ]);
           ("endpoint", str "/v1beta/models/{model}:generateContent");
           ("format", str "gemini") ]);
    ("openrouter",
     obj [ ("baseUrl", str "https://openrouter.ai/api");
           ("headers", obj [ ("Authorization", str "Bearer {token}");
                             ("Content-Type", str "application/json") ]);
           ("endpoint", str "/v1/chat/completions");
           ("modelMappings",
            obj [ ("claude-sonnet-4", str "moonshotai/kimi-k2:free");
                  ("claude-opus-4-20250514", str "moonshotai/kimi-k2:free") ]);
           ("format", str "openai") ]);
    ("groq",
     obj [ ("baseUrl", str "https://api.groq.com");
           ("headers", obj [ ("Authorization", str "Bearer {token}");
                             ("Content-Type", str "application/json") ]);
           ("endpoint", str "/openai/v1/chat/completions");
           ("modelMappings",
            obj [ ("claude-sonnet-4", str "moonshotai/kimi-k2-instruct");
                  ("claude-opus-4-20250514", str "moonshotai/kimi-k2-instruct") ]);
           ("format", str "openai") ]) ].

(** The names every object inherits from [Object.prototype].  Read with
    such a name, an object that has no property of its own by that name
    yields a function ([Object.prototype] itself for ["__proto__"]), a value
    that [value] does not hold. *)
Definition Object_prototype : list string :=
  [ "constructor"; "__defineGetter__"; "__defineSetter__"; "hasOwnProperty";
    "__lookupGetter__"; "__lookupSetter__"; "isPrototypeOf"; "propertyIsEnumerable";
    "toString"; "valueOf"; "__proto__"; "toLocaleString" ].

Definition inherited (k : string) : bool := existsb (String.eqb k) Object_prototype.

(** [o[k] = v] for a key known only at run time: ["__proto__"] names the
    prototype, not a property, and a string assigned to it changes
    nothing. *)
Definition assign_key (k : string) (v : value) (fs : props) : props :=
  if k =? "__proto__" then fs else assign k v fs.

(** [s.split(sep)] for a separator of one character. *)
Fixpoint split_on (sep : ascii) (s : string) : list string :=
  match s with
  | EmptyString => [EmptyString]
  | String c r =>
      if Ascii.eqb c sep then EmptyString :: split_on sep r
      else
        match split_on sep r with
        | [] => [String c EmptyString]
        | l :: ls => String c l :: ls
        end
  end.

(** The first occurrence of [pat] in [s]: what stands before it and what
    stands after it. *)
Fixpoint cut_at (pat s : string) : option (string * string) :=
  if String.prefix pat s then Some (EmptyString, substring_from (String.length pat) s)
  else
    match s with
    | EmptyString => None
    | String c r =>
        match cut_at pat r with
        | Some (before, after) => Some (String c before, after)
        | None => None
        end
    end.

(** The replacement text of [replace] for a string pattern: [$$] is a
    dollar, [$&] the match, [$`] what precedes it, [$'] what follows it;
    any other dollar stands for itself (there are no captures). *)
Fixpoint substitution (matched before after template : string) : string :=
  match template with
  | EmptyString => EmptyString
  | String c rest =>
      if Ascii.eqb c "$" then
        match rest with
        | String d r =>
            if Ascii.eqb d "$" then String "$" (substitution matched before after r)
            else if Ascii.eqb d "&" then matched ++ substitution matched before after r
            else if Ascii.eqb d "`" then before ++ substitution matched before after r
            else if Ascii.eqb d "'" then after ++ substitution matched before after r
            else String c (substitution matched before after rest)
        | EmptyString => String c EmptyString
        end
      else String c (substitution matched before after rest)
  end.

(** [s.replace(pat, replacement)] for strings: the first occurrence only. *)
Definition String_replace (s pat replacement : string) : string :=
  match cut_at pat s with
  | Some (before, after) => before ++ substitution pat before after replacement ++ after
  | None => s
  end.

(** Whether a header or a query parameter is there: [null] and the empty
    string are falsy. *)
Definition present (o : option string) : bool :=
  match o with
  | Some s => negb (s =? "")
  | None => false
  end.


Section Routing.
Context {P : Platform}.

(** [applyModelMapping].  [API_FORMATS[platform]] for a name that is not
    in the table is [undefined], or an inherited function, which has no
    [modelMappings] either.  The result is [None] where the mapped model
    would be such a function: the model of the request names a property
    that the mapping table inherits and does not have. *)
Definition applyModelMapping (request : value) (platform : string) : result (option value) :=
  let mappedRequest := own_props request in
  match lookup platform API_FORMATS with
  | Some platformConfig =>
      if truthy platformConfig && truthy (field platformConfig "modelMappings") then
        model <- prop request "model" ;;
        if truthy model then
          match lookup (ToString model) (own_props (field platformConfig "modelMappings")) with
          | Some mappedModel =>
              Ok (Some (obj (if truthy mappedModel
                             then assign "model" mappedModel mappedRequest
                             else mappedRequest)))
          | None =>
              if inherited (ToString model) then Ok None else Ok (Some (obj mappedRequest))
          end
        else Ok (Some (obj mappedRequest))
      else Ok (Some (obj mappedRequest))
  | None => Ok (Some (obj mappedRequest))
  end.

(** [buildTargetUrl].  Only a string and an array have [includes], and
    only a string has [split] and [replace]. *)
Definition buildTargetUrl (config model : value) (format : string) : result string :=
  if format =? "gemini" then
    actualModel <-
      match model with
      | VStr s => Ok (if includes s "/" then VStr (nth 1 (split_on "/" s) "") else model)
      | VArr xs => if existsb (fun x => is_str x "/") xs then Throw TypeError else Ok model
      | _ => Throw TypeError
      end ;;
    baseUrl <- prop config "baseUrl" ;;
    match field config "endpoint" with
    | VStr endpoint =>
        Ok (ToString baseUrl ++ String_replace endpoint "{model}" (ToString actualModel))
    | _ => Throw TypeError
    end
  else
    baseUrl <- prop config "baseUrl" ;;
    Ok (ToString baseUrl ++ ToString (field config "endpoint")).

(** [Object.entries(v)]: a [TypeError] on [undefined] and [null]. *)
Definition Object_entries (v : value) : result props :=
  if nullish v then Throw TypeError else Ok (own_props v).

(** One turn of the loop of [buildTargetHeaders]. *)
Definition target_header (token format key : string) (v : value) : result value :=
  if is_str v "{token}" then
    Ok (str (if key =? "Authorization" then "Bearer " ++ token else token))
  else
    holds <-
      match v with
      | VStr s => Ok (includes s "{token}")
      | VArr xs => Ok (existsb (fun x => is_str x "{token}") xs)
      | _ => Throw TypeError
      end ;;
    if holds then
      match v with
      | VStr s => Ok (str (String_replace s "{token}" token))
      | _ => Throw TypeError
      end
    else if (format =? "gemini") && (key =? "x-goog-api-key") then Ok (str token)
    else Ok v.

(** The loop over the entries of [config.headers]; [built] is the object
    [headers] under construction. *)
Fixpoint target_headers (token format : string) (entries built : props) : result props :=
  match entries with
  | [] => Ok built
  | (key, v) :: rest =>
      header <- target_header token format key v ;;
      target_headers token format rest (assign_key key header built)
  end.

Definition buildTargetHeaders (config : value) (token format : string)
    (originalRequest : option Request) : result value :=
  configured <- prop config "headers" ;;
  entries <- Object_entries configured ;;
  built <- target_headers token format entries [] ;;
  match originalRequest with
  | Some request =>
      if format =? "anthropic" then
        let built :=
          match headers_get (headers request) "anthropic-beta" with
          | Some anthropicBeta =>
              if negb (anthropicBeta =? "")
              then assign "anthropic-beta" (str anthropicBeta) built
              else built
          | None => built
          end in
        let built :=
          match headers_get (headers request) "cache-control" with
          | Some cacheControl =>
              if negb (cacheControl =? "")
              then assign "cache-control" (str cacheControl) built
              else built
          | None => built
          end in
        Ok (obj built)
      else Ok (obj built)
  | None => Ok (obj built)
  end.

(** The body [handleRequest] forwards when the format of the platform is
    the format of the client, so that nothing is converted: the variable
    [finalRequestBody]. *)
Definition finalRequestBody (requestBody : value) (platform : string) (request : Request)
    : result value :=
  let final := requestBody in
  let final :=
    if platform =? "groq" then
      let copy := own_props requestBody in
      if truthy (field (obj copy) "max_tokens") && js_gt_num (field (obj copy) "max_tokens") 16384
      then obj (assign "max_tokens" (num 16384) copy)
      else obj copy
    else final in
  if platform =? "openrouter" then
    let copy := own_props requestBody in
    messages <- removeCacheControlFromMessages (field (obj copy) "messages") ;;
    let copy := assign "messages" messages copy in
    match headers_get (headers request) "anthropic-beta" with
    | Some anthropicBeta =>
        if negb (anthropicBeta =? "") && includes anthropicBeta "prompt-caching" then
          model <- prop requestBody "model" ;;
          claude <- isClaudeModel model ;;
          if claude then
            messages <- addCacheControlToMessages (field (obj copy) "messages") ;;
            Ok (obj (assign "messages" messages copy))
          else Ok (obj copy)
        else Ok (obj copy)
    | None => Ok (obj copy)
    end
  else Ok final.

End Routing.

(** ** The routing of a request *)

(** What the routing of a POST request ends with: a response that turns
    the request away, with its status and its text, or the platform and
    the format of the client. *)
Inductive routing : Type :=
| Answered (status : nat) (text : string)
| Routed (platform clientFormat : string).

(** [API_FORMATS[platform]] as a condition: the table has the platform,
    or the name is one that every object inherits, whose value is a
    function. *)
Definition known_platform (platform : string) : bool :=
  match lookup platform API_FORMATS with
  | Some config => truthy config
  | None => inherited platform
  end.

Section Route.
Context {P : Platform}.

(** The path checks of [handleRequest]; [pathname] is
    [new URL(request.url).pathname]. *)
Definition route (pathname : string) : routing :=
  let pathParts := filter (fun part => negb (part =? "")) (split_on "/" pathname) in
  if (List.length pathParts <? 2)%nat then
    Answered 400 "Invalid path format. Expected: /{platform}/{client_format}"
  else
    let platform := String_toLowerCase (nth 0 pathParts "") in
    let clientFormat := String_toLowerCase (nth 1 pathParts "") in
    let hasApiPath := (2 <? List.length pathParts)%nat in
    let apiPath := "/" ++ join_with "/" (skipn 2 pathParts) in
    let validApiPaths := [ "/v1/messages"; "/v1/chat/completions"; "/v1beta/models" ] in
    if hasApiPath
       && negb (existsb (fun path => String.prefix path apiPath) validApiPaths) then
      Answered 404
        ("Invalid API path: " ++ apiPath ++ ". Supported paths: "
           ++ join_with ", " validApiPaths)
    else if negb (known_platform platform) then Answered 400 "Unsupported platform"
    else if negb (existsb (String.eqb clientFormat) [ "openai"; "anthropic"; "gemini" ]) then
      Answered 400 "Unsupported client format"
    else Routed platform clientFormat.

End Route.

(** * The vocabulary of the statements *)

(** Predicates and small functions the theorems are stated with, then the
    concrete requests, responses and streams they are run on. *)

(** ** Messages *)

(** A message whose role is ['system'], as the callbacks of [find] and
    [filter] test it. *)
Definition is_system (msg : value) : bool := is_str (field msg "role") "system".

(** The emitted messages as the specification words them: the first system
    message removed, every other message kept. *)
Fixpoint remove_first_system (msgs : list value) : list value :=
  match msgs with
  | [] => []
  | m :: r => if is_system m then r else m :: remove_first_system r
  end.

(** A message whose role is ['user'], and a content part of type
    ['text'], as [addCacheControlToMessages] tests them. *)
Definition is_user (message : value) : bool := is_str (field message "role") "user".
Definition is_text (part : value) : bool := is_str (field part "type") "text".

(** A message that the loop of [addCacheControlToMessages] steps over. *)
Definition passed_over (message : value) : Prop :=
  nullish message = false /\ is_user message = false.

(** A content part that carries a [cache_control] field, a message with
    such a part, and a message sequence with such a message. *)
Definition carries_cache_control (part : value) : bool :=
  match part with
  | VObj fs => match lookup "cache_control" fs with Some _ => true | None => false end
  | _ => false
  end.

(** A message with such a part, and a message sequence with such a
    message. *)
Definition message_annotated (message : value) : bool :=
  match field message "content" with
  | VArr parts => existsb carries_cache_control parts
  | _ => false
  end.

Definition annotated (messages : value) : bool :=
  match messages with
  | VArr ms => existsb message_annotated ms
  | _ => false
  end.

(** The opt-in signal: an [anthropic-beta] header that contains
    ["prompt-caching"]. *)
Definition opt_in (originalRequest : option Request) : bool :=
  match originalRequest with
  | Some request =>
      match headers_get (headers request) "anthropic-beta" with
      | Some anthropicBeta =>
          negb (anthropicBeta =? "") && includes anthropicBeta "prompt-caching"
      | None => false
      end
  | None => false
  end.

(** The text part that a bare string content becomes. *)
Definition cached_text_part (text : value) : value :=
  obj [ ("type", str "text"); ("text", text); ("cache_control", ephemeral) ].

(** ** Responses and chunks *)

(** [standard.choices[0]] *)
Definition first_choice (standard : value) : value := item (field standard "choices") 0.

(** [choice?.delta?.content] *)
Definition delta_content (choice : value) : value :=
  opt_prop (opt_prop choice "delta") "content".

(** The usage of a protocol that reports none. *)
Definition zero_usage : value :=
  obj [ ("prompt_tokens", num 0); ("completion_tokens", num 0); ("total_tokens", num 0) ].

(** A Gemini-shaped response whose first candidate, when there is one, is
    an object whose [finishReason] is a string or missing. *)
Definition gemini_candidate_ok {P : Platform} (response : value) : Prop :=
  let candidates := field response "candidates" in
  truthy candidates && length_positive candidates = true ->
  nullish (item candidates 0) = false
  /\ (nullish (field (item candidates 0) "finishReason") = true
      \/ typeof_string (field (item candidates 0) "finishReason") = true).

(** The two Anthropic-shaped stream events. *)
Definition content_block_delta (text : string) : value :=
  obj [ ("type", str "content_block_delta");
        ("index", num 0);
        ("delta", obj [ ("type", str "text_delta"); ("text", str text) ]) ].

Definition message_stop : value := obj [ ("type", str "message_stop") ].

(** The IR choices they become. *)
Definition delta_choice (text : string) : value :=
  obj [ ("index", num 0);
        ("delta", obj [ ("content", str text) ]);
        ("finish_reason", VNull) ].

Definition stop_choice : value :=
  obj [ ("index", num 0); ("delta", obj []); ("finish_reason", str "stop") ].

(** The IR chunk made from an event without [id], [created] and [model] at
    the [k]-th reading of the clock. *)
Definition openai_chunk {P : Platform} (k : nat) (choice : value) : value :=
  obj [ ("id", str "");
        ("object", str "chat.completion.chunk");
        ("created", num (Math_floor (Date_now k / 1000)));
        ("model", str "");
        ("choices", VArr [choice]) ].

(** The event a converted chunk is written as. *)
Definition data_event {P : Platform} (v : value) : string :=
  "data: " ++ JSON_stringify v ++ nl ++ nl.

(** ** Runs *)

(** The state after one more reading of the clock. *)
Definition tick (w : world) : world :=
  {| now_calls := S (now_calls w); written := written w; closed := closed w |}.

(** A world with an empty output at clock reading [k], and the state [w']
    of a run resumed after [w]: the clock of [w'], the output of [w]
    followed by that of [w'], the writer as [w] had it. *)
Definition at_clock (k : nat) : world :=
  {| now_calls := k; written := []; closed := false |}.

Definition resume (w w' : world) : world :=
  {| now_calls := now_calls w'; written := written w ++ written w'; closed := closed w |}.

(** The state after one more write. *)
Definition emit (w : world) (text : string) : world :=
  {| now_calls := now_calls w; written := written w ++ [text]; closed := closed w |}.

(** A computation is tidy when it only reads the clock and appends to the
    output: what it does from [w] is what it does from the empty output at
    the same clock reading, resumed after [w]. *)
Definition tidy {A : Type} (c : IO A) : Prop :=
  forall w,
    c w = (resume w (fst (c (at_clock (now_calls w)))),
           snd (c (at_clock (now_calls w)))).

(** How the loop of [processStreamData] ends: with the buffer, or with the
    error of the source. *)
Definition loop_end (ending : option string) (buffer : string) : IO string :=
  match ending with
  | None => retIO buffer
  | Some message => lift (Throw message)
  end.

(** ** Lines and streams *)

(** The complete lines of a text and the fragment after its last line
    feed, as one read splits its buffer. *)
Definition complete_lines (text : string) : list string := removelast (split_lines text).
Definition pending (text : string) : string := last (split_lines text) "".

(** A text given as its lines, each ended by a line feed. *)
Fixpoint unlines (lines : list string) : string :=
  match lines with
  | [] => EmptyString
  | l :: r => l ++ nl ++ unlines r
  end.

(** A string without a line feed. *)
Definition one_line (s : string) : Prop := split_lines s = [s].

(** The lines a whole stream is processed as: the complete lines of its
    text, then the fragment after the last line feed when it is not
    empty. *)
Definition all_lines (text : string) : list string :=
  (complete_lines text ++ (if pending text =? "" then [] else [pending text]))%list.

(** The streaming law of [TextDecoder]: decoding a sequence of bytes in
    two calls gives the text of one call, and a call without bytes gives
    no text. *)
Definition decoder_streams {P : Platform} : Prop :=
  (forall d, TextDecoder_decode d [] = (d, EmptyString))
  /\ (forall d a b,
        TextDecoder_decode d (a ++ b)
        = let (d1, x) := TextDecoder_decode d a in
          let (d2, y) := TextDecoder_decode d1 b in
          (d2, x ++ y)).

(** The text a fresh decoder makes of [bytes]. *)
Definition decoded {P : Platform} (bytes : list byte) : string :=
  snd (TextDecoder_decode TextDecoder_new bytes).

(** The output and the clock of a run of the line processor over [lines]
    on their own, from the clock reading [k]. *)
Definition run_lines {P : Platform} (lines : list string)
    (sourceFormat targetFormat : string) (k : nat) : world :=
  fst (for_of (fun line => processStreamLine line sourceFormat targetFormat) lines
         (at_clock k)).

Definition emitted {P : Platform} (lines : list string)
    (sourceFormat targetFormat : string) (k : nat) : list string :=
  written (run_lines lines sourceFormat targetFormat k).

Definition clock_after {P : Platform} (lines : list string)
    (sourceFormat targetFormat : string) (k : nat) : nat :=
  now_calls (run_lines lines sourceFormat targetFormat k).

(** A text cut into reads of one byte each. *)
Definition bytewise (text : string) : list (list byte) :=
  map (fun b => [b]) (list_byte_of_string text).

(** ** Example inputs *)

(** A message with a bare string content. *)
Definition text_message (role content : string) : value :=
  obj [ ("role", str role); ("content", str content) ].

(** A request with two system messages. *)
Definition two_system_messages : list value :=
  [ text_message "system" "Be brief.";
    text_message "user" "Hello";
    text_message "system" "Answer in French." ].

Definition two_system_request : value :=
  obj [ ("messages", VArr two_system_messages);
        ("model", str "claude-3-opus-20240229");
        ("max_tokens", num 1000);
        ("temperature", num 1);
        ("stream", VBool false) ].

(** A request with temperature 0. *)
Definition zero_temperature_request : value :=
  obj [ ("messages", VArr [ text_message "user" "Hello" ]);
        ("model", str "gpt-4");
        ("max_tokens", num 1000);
        ("temperature", num 0);
        ("stream", VBool false) ].

(** A request that opts in to prompt caching. *)
Definition caching_request : Request :=
  {| headers := [ ("anthropic-beta", "prompt-caching-2024-07-31") ] |}.

(** A request whose only user message holds an image and no text. *)
Definition image_part : value :=
  obj [ ("type", str "image_url");
        ("image_url", obj [ ("url", str "https://example.com/cat.png") ]) ].

Definition image_only_request : value :=
  obj [ ("messages",
         VArr [ obj [ ("role", str "user"); ("content", VArr [ image_part ]) ] ]);
        ("model", str "anthropic/claude-3.5-sonnet");
        ("max_tokens", num 1024);
        ("temperature", num 1);
        ("stream", VBool false) ].

(** A conversation whose first message arrives with a [cache_control], and
    what it becomes for OpenRouter with the opt-in and a Claude model. *)
Definition hello_request : value :=
  obj [ ("messages",
         VArr [ obj [ ("role", str "user");
                      ("content",
                       VArr [ obj [ ("type", str "text");
                                    ("text", str "Hello");
                                    ("cache_control", ephemeral) ] ]) ];
                text_message "assistant" "Hi";
                text_message "user" "Tell me more" ]);
        ("model", str "anthropic/claude-3.5-sonnet");
        ("max_tokens", num 1024);
        ("temperature", num 1);
        ("stream", VBool false) ].

Definition hello_request_out : value :=
  obj [ ("model", str "anthropic/claude-3.5-sonnet");
        ("messages",
         VArr [ obj [ ("role", str "user");
                      ("content",
                       VArr [ obj [ ("type", str "text"); ("text", str "Hello") ] ]) ];
                text_message "assistant" "Hi";
                obj [ ("role", str "user");
                      ("content", VArr [ cached_text_part (str "Tell me more") ]) ] ]);
        ("max_tokens", num 1024);
        ("temperature", num 1);
        ("stream", VBool false) ].

(** The Anthropic-shaped response of scenario B. *)
Definition anthropic_response_example : value :=
  obj [ ("id", str "msg_1");
        ("content", VArr [ obj [ ("type", str "text"); ("text", str "Hi") ] ]);
        ("stop_reason", str "end_turn");
        ("usage", obj [ ("input_tokens", num 10); ("output_tokens", num 5) ]) ].

(** An OpenAI-shaped response whose total is not the sum of its parts. *)
Definition inconsistent_openai_response : value :=
  obj [ ("id", str "chatcmpl-1");
        ("object", str "chat.completion");
        ("created", num 1700000000);
        ("model", str "gpt-4");
        ("choices",
         VArr [ obj [ ("index", num 0);
                      ("message", text_message "assistant" "Hi");
                      ("finish_reason", str "stop") ] ]);
        ("usage", obj [ ("prompt_tokens", num 10);
                        ("completion_tokens", num 5);
                        ("total_tokens", num 20) ]) ].

(** An IR response without choices. *)
Definition empty_response : value :=
  obj [ ("id", str "chatcmpl-2");
        ("object", str "chat.completion");
        ("created", num 1700000000);
        ("model", str "gpt-4");
        ("choices", VArr []);
        ("usage", zero_usage) ].

(** JSON texts are written here with an apostrophe for each double
    quote. *)
Definition quoted (s : string) : string :=
  Reference.map_string (fun c => if Ascii.eqb c "'" then DQ else c) s.

(** The payloads of the three events of scenario C, and a payload cut
    short. *)
Definition he_payload : string :=
  quoted "{'type':'content_block_delta','index':0,'delta':{'type':'text_delta','text':'He'}}".
Definition llo_payload : string :=
  quoted "{'type':'content_block_delta','index':0,'delta':{'type':'text_delta','text':'llo'}}".
Definition stop_payload : string := quoted "{'type':'message_stop'}".
Definition broken_payload : string := quoted "{'type':'content_block_delta','delta':".

(** The stream on the wire: each event is a [data:] line and a blank line,
    after an [event:] line naming it when [named] (as Anthropic sends
    them). *)
Definition hello_lines (named : bool) : list string :=
  ((if named then ["event: content_block_delta"] else [])
   ++ [("data: " ++ he_payload)%string; ""]
   ++ (if named then ["event: content_block_delta"] else [])
   ++ [("data: " ++ llo_payload)%string; ""]
   ++ (if named then ["event: message_stop"] else [])
   ++ [("data: " ++ stop_payload)%string; ""])%list.

(** What the stream is written as, from the clock reading [k]. *)
Definition hello_output {P : Platform} (named : bool) (k : nat) : list string :=
  ((if named then [("event: content_block_delta" ++ nl)%string] else [])
   ++ [data_event (openai_chunk k (delta_choice "He")); nl]
   ++ (if named then [("event: content_block_delta" ++ nl)%string] else [])
   ++ [data_event (openai_chunk (S k) (delta_choice "llo")); nl]
   ++ (if named then [("event: message_stop" ++ nl)%string] else [])
   ++ [data_event (openai_chunk (S (S k)) stop_choice); nl])%list.

(** The first chunk of an OpenAI stream: a role, an empty content, no
    finish reason. *)
Definition role_chunk_payload : string :=
  quoted "{'id':'chatcmpl-1','object':'chat.completion.chunk','created':1700000000,'model':'gpt-4','choices':[{'index':0,'delta':{'role':'assistant','content':''},'finish_reason':null}]}".

Definition role_chunk : value :=
  obj [ ("id", str "chatcmpl-1");
        ("object", str "chat.completion.chunk");
        ("created", num 1700000000);
        ("model", str "gpt-4");
        ("choices",
         VArr [ obj [ ("index", num 0);
                      ("delta", obj [ ("role", str "assistant"); ("content", str "") ]);
                      ("finish_reason", VNull) ] ]) ].

(** ** Writes *)

(** A computation that writes nothing and leaves the writer as it is. *)
Definition quiet {A : Type} (c : IO A) : Prop :=
  forall w, written (fst (c w)) = written w /\ closed (fst (c w)) = closed w.

(** The event [processStreamData] writes when reading the source fails. *)
Definition stream_error_event (message : string) : string :=
  "data: {" ++ dq ++ "error" ++ dq ++ ": " ++ dq
    ++ "Stream processing error: " ++ message ++ dq ++ "}" ++ nl ++ nl.

(** A line that is not a [data: ] line, and that is empty when it is
    blank. *)
Definition plain_line (line : string) : Prop :=
  String.prefix "data: " line = false
  /\ ((trim line =? "") = true -> line = "").

(** The lines of an event stream that carry no data: an event name, an
    id, a comment, the empty line that ends an event. *)
Definition keep_alive_lines : list string :=
  [ "event: ping"; ": keep-alive"; ""; "id: 7"; "retry: 3000"; "" ].

(** ** Gemini-shaped chunks *)

(** A Gemini-shaped stream chunk with one candidate that carries [text]
    and a [finishReason]. *)
Definition gemini_chunk (text : string) (finishReason : value) : value :=
  obj [ ("candidates",
         VArr [ obj [ ("content",
                       obj [ ("parts", VArr [ obj [ ("text", str text) ] ]);
                             ("role", str "model") ]);
                      ("finishReason", finishReason);
                      ("index", num 0) ] ]) ].

(** A [finishReason] as Gemini sends it: a string, or none. *)
Definition finish_reason_ok (finishReason : value) : Prop :=
  nullish finishReason = true \/ typeof_string finishReason = true.

(** ** Requests *)

(** The names of the properties of an object, in their order. *)
Definition keys (v : value) : list string := map fst (own_props v).

(** The five fields of a converted OpenAI-shaped or Anthropic-shaped
    request. *)
Definition request_fields : list string :=
  [ "model"; "messages"; "max_tokens"; "temperature"; "stream" ].

(** A message of the user or of the assistant whose content is a bare
    string. *)
Definition chat_turn (message : value) : Prop :=
  exists content,
    message = text_message "user" content \/ message = text_message "assistant" content.

(** A conversation of two turns, and a client request that carries more
    than the adapters know: tools and a nucleus-sampling parameter. *)
Definition two_turns : list value :=
  [ text_message "user" "Hello"; text_message "assistant" "Hi" ].

Definition tools_request : value :=
  obj [ ("model", str "gpt-4");
        ("messages", VArr two_turns);
        ("tools", VArr [ obj [ ("type", str "function") ] ]);
        ("top_p", num 1) ].

(** ** Routing *)

(** [API_FORMATS[platform]] for a platform of the table, as
    [handleRequest] reads [targetConfig]. *)
Definition targetConfig (platform : string) : value :=
  match lookup platform API_FORMATS with
  | Some config => config
  | None => VUndefined
  end.

(** A string without a slash, and a string without a dollar. *)
Definition no_slash (s : string) : Prop := includes s "/" = false.
Definition no_dollar (s : string) : Prop := includes s "$" = false.

(** The URL of Gemini's [generateContent] for a model. *)
Definition gemini_url (name : string) : string :=
  "https://generativelanguage.googleapis.com/v1beta/models/" ++ name ++ ":generateContent".

(** The platforms whose configuration sends the token as a bearer token. *)
Definition bearer_platform (platform : string) : Prop :=
  platform = "openai" \/ platform = "openrouter" \/ platform = "groq".

(** Two requests with the same [anthropic-beta] and [cache-control]
    headers. *)
Definition same_forwarded_headers (request request' : Request) : Prop :=
  headers_get (headers request) "anthropic-beta"
  = headers_get (headers request') "anthropic-beta"
  /\ headers_get (headers request) "cache-control"
     = headers_get (headers request') "cache-control".


(** The two model names the shipped mapping tables know. *)
Definition mapped_claude_name (model : string) : Prop :=
  model = "claude-sonnet-4" \/ model = "claude-opus-4-20250514".

(** A request with the opt-in header, and a client request for a Claude
    model that the mapping tables know. *)
Definition claude_sonnet_request : value :=
  obj [ ("model", str "claude-sonnet-4");
        ("max_tokens", num 1000);
        ("messages", VArr [ text_message "user" "Hello" ]);
        ("tools", VArr [ obj [ ("name", str "search") ] ]) ].

(** ** Anthropic-shaped responses *)

(** An Anthropic-shaped response with one text block. *)
Definition anthropic_message (id model text stop_reason : string)
    (input_tokens output_tokens : float) : value :=
  obj [ ("id", str id);
        ("type", str "message");
        ("role", str "assistant");
        ("content", VArr [ obj [ ("type", str "text"); ("text", str text) ] ]);
        ("model", str model);
        ("stop_reason", str stop_reason);
        ("usage", obj [ ("input_tokens", num input_tokens);
                        ("output_tokens", num output_tokens) ]) ].

(** A count that the default 0 does not change: any number but the
    negative zero and NaN. *)
Definition plain_count (n : float) : Prop := js_or (num n) (num 0) = num n.

(** ** What a conversion reads *)

(** Two requests with the same [model], [messages], [max_tokens],
    [temperature] and [stream]. *)
Definition same_request_fields (request request' : value) : Prop :=
  Forall (fun k => field request k = field request' k) request_fields.

(** Two Anthropic-shaped responses with the same [id], [model],
    [stop_reason] and [usage] and the same text in their first content
    block. *)
Definition same_first_text (response response' : value) : Prop :=
  Forall (fun k => field response k = field response' k)
    [ "id"; "model"; "stop_reason"; "usage" ]
  /\ opt_prop (opt_index (field response "content") 0) "text"
     = opt_prop (opt_index (field response' "content") 0) "text".

(** An Anthropic-shaped request with a system prompt, and the same
    request without it. *)
Definition system_prompt_request : value :=
  obj [ ("model", str "gpt-4");
        ("system", str "Answer in French.");
        ("messages", VArr two_turns) ].

Definition no_system_prompt_request : value :=
  obj [ ("model", str "gpt-4"); ("messages", VArr two_turns) ].

(** An Anthropic-shaped response with a text block and a tool call. *)
Definition tool_use_response : value :=
  obj [ ("id", str "msg_01");
        ("model", str "claude-3-opus");
        ("content", VArr [ obj [ ("type", str "text"); ("text", str "Hi") ];
                           obj [ ("type", str "tool_use"); ("name", str "search") ] ]);
        ("stop_reason", str "tool_use") ].

(** An Anthropic-shaped request whose message holds an image block. *)
Definition image_block_request : value :=
  obj [ ("model", str "gpt-4o");
        ("messages",
         VArr [ obj [ ("role", str "user");
                      ("content",
                       VArr [ obj [ ("type", str "image");
                                    ("source", obj [ ("type", str "base64") ]) ] ]) ] ]) ].

(** * Properties *)

(** ** Objects *)

Lemma lookup_assign_same (k : string) (v : value) (fs : props) :
  lookup k (assign k v fs) = Some v.
Proof.
  induction fs as [|[k' v'] r IH]; simpl.
  - now rewrite String.eqb_refl.
  - destruct (k' =? k) eqn:E; simpl; now rewrite E.
Qed.

Lemma lookup_remove_same (k : string) (fs : props) :
  lookup k (remove k fs) = None.
Proof.
  induction fs as [|[k' v'] r IH]; simpl; [reflexivity|].
  destruct (k' =? k) eqn:E; simpl; [assumption|].
  now rewrite E.
Qed.

Lemma field_assign_same (k : string) (v : value) (fs : props) :
  field (obj (assign k v fs)) k = v.
Proof. unfold obj, field. now rewrite lookup_assign_same. Qed.

Lemma prop_defined (v : value) (k : string) :
  nullish v = false -> prop v k = Ok (field v k).
Proof. intros H. unfold prop. now rewrite H. Qed.

Lemma index_defined (v : value) (i : nat) :
  nullish v = false -> index v i = Ok (item v i).
Proof. intros H. unfold index. now rewrite H. Qed.

Lemma truthy_not_nullish (v : value) : truthy v = true -> nullish v = false.
Proof. destruct v; simpl; congruence. Qed.

Lemma js_or_truthy (a b : value) : truthy a = true -> js_or a b = a.
Proof. intros H. unfold js_or. now rewrite H. Qed.

Lemma js_or_falsy (a b : value) : truthy a = false -> js_or a b = b.
Proof. intros H. unfold js_or. now rewrite H. Qed.

Lemma nullish_falsy (v : value) : nullish v = true -> truthy v = false.
Proof. destruct v; simpl; congruence. Qed.

(** ** The reference runtime *)

Lemma string_of_list_byte_app (a b : list byte) :
  string_of_list_byte (a ++ b) = string_of_list_byte a ++ string_of_list_byte b.
Proof.
  unfold string_of_list_byte.
  induction a as [|x a IH]; simpl; [reflexivity|now rewrite IH].
Qed.

Lemma reference_decoder_streams : decoder_streams (P := Reference.platform).
Proof.
  split.
  - intros d. reflexivity.
  - intros d a b.
    change (TextDecoder_decode (Platform := Reference.platform) d (a ++ b))
      with (d, string_of_list_byte (a ++ b)).
    now rewrite string_of_list_byte_app.
Qed.

(** ** System messages (C2) *)

Lemma findR_role (msgs : list value) :
  Forall (fun m => nullish m = false) msgs ->
  findR (fun msg => role <- prop msg "role" ;; Ok (is_str role "system")) msgs
  = Ok (match find is_system msgs with Some m => m | None => VUndefined end).
Proof.
  induction 1 as [|m r Hm _ IH]; simpl; [reflexivity|].
  rewrite (prop_defined _ _ Hm). simpl. unfold is_system in *.
  destruct (is_str (field m "role") "system"); [reflexivity|exact IH].
Qed.

Lemma filterR_role (msgs : list value) :
  Forall (fun m => nullish m = false) msgs ->
  filterR (fun msg => role <- prop msg "role" ;; Ok (negb (is_str role "system"))) msgs
  = Ok (filter (fun m => negb (is_system m)) msgs).
Proof.
  induction 1 as [|m r Hm _ IH]; simpl; [reflexivity|].
  rewrite (prop_defined _ _ Hm). simpl. rewrite IH. unfold is_system.
  destruct (is_str (field m "role") "system"); reflexivity.
Qed.

Lemma find_system_truthy (msgs : list value) (m : value) :
  find is_system msgs = Some m -> truthy m = true.
Proof.
  intros H. apply find_some in H. destruct H as [_ H].
  unfold is_system in H. destruct m; simpl in *; try discriminate. reflexivity.
Qed.

Section SystemMessages.
Context {P : Platform}.

(** C2 (amended). For an IR request whose [system] is unset and whose
    messages hold a system message, the Anthropic-shaped request carries
    the content of the first system message as [system], and its
    [messages] are the IR messages without any system message, the others
    in order.  For an IR request whose [system] is set, [system] is that
    value and [messages] are the IR messages unchanged. *)
Theorem fromStandardFormat_anthropic_system
    (standard : value) (originalRequest : option Request) (platform : option string)
    (Hstandard : nullish standard = false) :
  (truthy (field standard "system") = true ->
   fromStandardFormat standard "anthropic" originalRequest platform
   = Ok (obj [ ("model", field standard "model");
               ("messages", field standard "messages");
               ("max_tokens", field standard "max_tokens");
               ("temperature", field standard "temperature");
               ("stream", field standard "stream");
               ("system", field standard "system") ]))
  /\
  (forall (msgs : list value) (first : value),
     truthy (field standard "system") = false ->
     field standard "messages" = VArr msgs ->
     Forall (fun m => nullish m = false) msgs ->
     find is_system msgs = Some first ->
     fromStandardFormat standard "anthropic" originalRequest platform
     = Ok (obj [ ("model", field standard "model");
                 ("messages", VArr (filter (fun m => negb (is_system m)) msgs));
                 ("max_tokens", field standard "max_tokens");
                 ("temperature", field standard "temperature");
                 ("stream", field standard "stream");
                 ("system", field first "content") ])).
Proof.
  split.
  - intros Hsys. unfold fromStandardFormat. cbn [String.eqb Ascii.eqb Bool.eqb orb].
    rewrite (prop_defined _ _ Hstandard). cbn [bindR]. rewrite Hsys. reflexivity.
  - intros msgs first Hsys Hmsgs Hall Hfind. unfold fromStandardFormat.
    cbn [String.eqb Ascii.eqb Bool.eqb orb].
    rewrite (prop_defined _ _ Hstandard). cbn [bindR]. rewrite Hsys, Hmsgs.
    rewrite (findR_role _ Hall), Hfind. cbn [bindR].
    rewrite (find_system_truthy _ _ Hfind), (filterR_role _ Hall). reflexivity.
Qed.

End SystemMessages.

(** C2, as the claim words it, fails on a request with two system
    messages: the later one is not preserved. *)
Lemma fromStandardFormat_anthropic_drops_later_system :
  fromStandardFormat (P := Reference.platform) two_system_request "anthropic" None None
  = Ok (obj [ ("model", str "claude-3-opus-20240229");
              ("messages", VArr [ text_message "user" "Hello" ]);
              ("max_tokens", num 1000);
              ("temperature", num 1);
              ("stream", VBool false);
              ("system", str "Be brief.") ])
  /\ remove_first_system two_system_messages
     = [ text_message "user" "Hello"; text_message "system" "Answer in French." ]
  /\ [ text_message "user" "Hello" ] <> remove_first_system two_system_messages.
Proof.
  split; [vm_compute; reflexivity|].
  split; [vm_compute; reflexivity|].
  vm_compute. discriminate.
Qed.

Lemma fromStandardFormat_anthropic_system_witness :
  nullish two_system_request = false
  /\ fromStandardFormat (P := Reference.platform) two_system_request "anthropic" None None
     = Ok (obj [ ("model", str "claude-3-opus-20240229");
                 ("messages", VArr [ text_message "user" "Hello" ]);
                 ("max_tokens", num 1000);
                 ("temperature", num 1);
                 ("stream", VBool false);
                 ("system", str "Be brief.") ]).
Proof.
  split; [reflexivity|].
  refine (proj2 (fromStandardFormat_anthropic_system (P := Reference.platform)
                   two_system_request None None eq_refl)
            two_system_messages (text_message "system" "Be brief.")
            eq_refl eq_refl _ eq_refl).
  repeat constructor.
Defined.

(** ** Cache control on OpenRouter (C3) *)

Lemma mapR_Forall {A B : Type} (f : A -> result B) (Q : B -> Prop) (xs : list A) (ys : list B) :
  (forall x y, f x = Ok y -> Q y) -> mapR f xs = Ok ys -> Forall Q ys.
Proof.
  intros Hf. revert ys. induction xs as [|x xs IH]; simpl; intros ys H.
  - injection H as <-. constructor.
  - destruct (f x) as [y|e] eqn:E; [|discriminate].
    destruct (mapR f xs) as [ys'|e]; [|discriminate].
    injection H as <-. constructor; [eapply Hf; eassumption|apply IH; reflexivity].
Qed.

Lemma existsb_false_Forall {A : Type} (p : A -> bool) (xs : list A) :
  Forall (fun x => p x = false) xs <-> existsb p xs = false.
Proof.
  induction xs as [|x xs IH]; simpl.
  - split; [reflexivity|constructor].
  - rewrite orb_false_iff, <- IH. split.
    + intros H. inversion H; subst. split; assumption.
    + intros [H1 H2]. constructor; assumption.
Qed.

Lemma cleaned_message (message cleaned : value) :
  (content <- prop message "content" ;;
   if typeof_string content then Ok message
   else
     match content with
     | VArr _ =>
         cleanContent <-
           Array_map
             (fun part =>
                if nullish part then Throw TypeError
                else Ok (obj (remove "cache_control" (own_props part))))
             content ;;
         Ok (obj (assign "content" cleanContent (own_props message)))
     | _ => Ok message
     end) = Ok cleaned ->
  message_annotated cleaned = false.
Proof.
  unfold prop. destruct (nullish message); [discriminate|]. cbn [bindR].
  unfold message_annotated.
  destruct (field message "content") as [| |b|n|s|parts|fs] eqn:E; cbn [typeof_string];
    try (intros H; injection H as <-; rewrite E; reflexivity).
  unfold Array_map. cbn [bindR].
  destruct (mapR _ parts) as [clean|e] eqn:M; [|discriminate].
  cbn [bindR]. intros H. injection H as <-.
  rewrite field_assign_same.
  apply existsb_false_Forall.
  refine (mapR_Forall _ _ _ _ _ M).
  intros part part'. destruct (nullish part); [discriminate|].
  intros H. injection H as <-. unfold carries_cache_control, obj.
  now rewrite lookup_remove_same.
Qed.

Section CacheControl.
Context {P : Platform}.

Lemma removeCacheControlFromMessages_clean (messages cleaned : value) :
  removeCacheControlFromMessages messages = Ok cleaned ->
  annotated cleaned = false.
Proof.
  unfold removeCacheControlFromMessages.
  destruct (negb (truthy messages) || length_is_zero messages) eqn:E.
  - intros H. injection H as <-.
    destruct messages as [| |b|n|s|ms|fs]; try reflexivity.
    destruct ms; [reflexivity|discriminate].
  - unfold Array_map. destruct messages as [| |b|n|s|ms|fs]; try discriminate.
    destruct (mapR _ ms) as [ms'|e] eqn:M; [|discriminate].
    cbn [bindR]. intros H. injection H as <-. cbn [annotated].
    apply existsb_false_Forall.
    refine (mapR_Forall _ _ _ _ _ M).
    intros m m'. apply cleaned_message.
Qed.

(** What [fromStandardFormat] does for the platform ['openrouter']. *)
Lemma fromStandardFormat_openrouter (standard : value) (targetFormat : string)
    (originalRequest : option Request) :
  (targetFormat =? "openai") || (targetFormat =? "openrouter") = true ->
  fromStandardFormat standard targetFormat originalRequest (Some "openrouter")
  = (model <- prop standard "model" ;;
     stripped <- removeCacheControlFromMessages (field standard "messages") ;;
     messages <-
       (if opt_in originalRequest then
          claude <- isClaudeModel (field standard "model") ;;
          if claude then addCacheControlToMessages stripped else Ok stripped
        else Ok stripped) ;;
     Ok (obj [ ("model", model);
               ("messages", messages);
               ("max_tokens", field standard "max_tokens");
               ("temperature", field standard "temperature");
               ("stream", field standard "stream") ])).
Proof.
  intros Ht. unfold fromStandardFormat. rewrite Ht.
  destruct (prop standard "model") as [model|e]; [|reflexivity]. cbn [bindR].
  change (platform_is (Some "openrouter") "groq") with false.
  change (platform_is (Some "openrouter") "openrouter") with true.
  cbv iota. cbn [field obj lookup assign String.eqb Ascii.eqb Bool.eqb].
  destruct (removeCacheControlFromMessages (field standard "messages")) as [stripped|e];
    [|reflexivity].
  cbn [bindR]. unfold opt_in.
  destruct originalRequest as [request|]; [|reflexivity].
  destruct (headers_get (headers request) "anthropic-beta") as [beta|]; [|reflexivity].
  destruct (negb (beta =? "") && includes beta "prompt-caching"); [|reflexivity].
  destruct (isClaudeModel (field standard "model")) as [[|]|e]; try reflexivity.
  cbn [bindR]. cbn [assign String.eqb Ascii.eqb Bool.eqb field obj lookup].
  destruct (addCacheControlToMessages stripped); reflexivity.
Qed.

End CacheControl.

Lemma is_user_object (message : value) :
  is_user message = true -> exists fs, message = VObj fs.
Proof.
  unfold is_user. destruct message as [| |b|n|s|xs|fs]; simpl; try discriminate.
  eauto.
Qed.

Lemma is_text_defined (part : value) : is_text part = true -> nullish part = false.
Proof. unfold is_text. destruct part; simpl; congruence. Qed.

Lemma assign_same (k : string) (v : value) (fs : props) :
  lookup k fs = Some v -> assign k v fs = fs.
Proof.
  induction fs as [|[k' v'] r IH]; simpl; [discriminate|].
  destruct (k' =? k); intros H.
  - now injection H as ->.
  - now rewrite IH.
Qed.

Lemma annotate_last_user_skip (xs rest : list value) :
  Forall passed_over xs ->
  annotate_last_user (xs ++ rest)
  = (ys <- annotate_last_user rest ;; Ok (xs ++ ys)%list).
Proof.
  induction 1 as [|x xs [Hx Hu] _ IH]; simpl.
  - destruct (annotate_last_user rest); reflexivity.
  - rewrite (prop_defined _ _ Hx). cbn [bindR].
    unfold is_user in Hu. rewrite Hu, IH.
    destruct (annotate_last_user rest); reflexivity.
Qed.

Lemma annotate_last_user_hit (user : value) (earlier : list value) :
  is_user user = true ->
  annotate_last_user (user :: earlier)
  = (user' <- annotate user ;; Ok (user' :: earlier)).
Proof.
  intros Hu. destruct (is_user_object _ Hu) as [fs ->].
  simpl. unfold is_user in Hu. simpl in Hu. now rewrite Hu.
Qed.

Lemma annotate_string (user : value) (text : string) :
  field user "content" = VStr text ->
  annotate user
  = Ok (obj (assign "content" (VArr [cached_text_part (VStr text)]) (own_props user))).
Proof. intros H. unfold annotate. rewrite H. reflexivity. Qed.

Lemma annotate_last_text (user : value) (front : list value) (last : value) :
  field user "content" = VArr (front ++ [last]) ->
  is_text last = true ->
  annotate user
  = Ok (obj (assign "content"
               (VArr (front ++ [obj (assign "cache_control" ephemeral (own_props last))]))
               (own_props user))).
Proof.
  intros H Ht. unfold annotate. rewrite H. cbn [typeof_string].
  rewrite rev_unit, (prop_defined _ _ (is_text_defined _ Ht)). cbn [bindR].
  unfold is_text in Ht. rewrite Ht. cbn [bindR]. now rewrite rev_involutive.
Qed.

Lemma annotate_no_text (user : value) (parts : list value) :
  is_user user = true ->
  field user "content" = VArr parts ->
  Forall (fun part => nullish part = false /\ is_text part = false) parts ->
  annotate user = Ok user.
Proof.
  intros Hu H Hparts. destruct (is_user_object _ Hu) as [fs ->].
  unfold annotate. rewrite H. cbn [typeof_string].
  assert (E : match rev parts with
              | [] => Ok parts
              | last :: front =>
                  type <- prop last "type" ;;
                  if is_str type "text"
                  then Ok (rev front
                           ++ [obj (assign "cache_control" ephemeral (own_props last))])%list
                  else Ok parts
              end = Ok parts).
  { apply Forall_rev in Hparts. destruct (rev parts) as [|last front]; [reflexivity|].
    inversion Hparts as [|? ? [Hn Ht] _]; subst.
    rewrite (prop_defined _ _ Hn). cbn [bindR]. unfold is_text in Ht. now rewrite Ht. }
  rewrite E. cbn [bindR own_props]. unfold obj. f_equal. f_equal.
  apply assign_same. simpl in H. destruct (lookup "content" fs); congruence.
Qed.

Section CacheControlPlacement.
Context {P : Platform}.

Lemma addCacheControlToMessages_last_user (before after : list value) (user user' : value) :
  is_user user = true ->
  Forall passed_over after ->
  annotate user = Ok user' ->
  addCacheControlToMessages (VArr (before ++ user :: after))
  = Ok (VArr (before ++ user' :: after)).
Proof.
  intros Hu Hafter Han. unfold addCacheControlToMessages.
  assert (E : negb (truthy (VArr (before ++ user :: after)))
              || length_is_zero (VArr (before ++ user :: after)) = false)
    by (destruct before; reflexivity).
  rewrite E. cbn [spread_array bindR].
  rewrite rev_app_distr. cbn [rev]. rewrite <- app_assoc. cbn [app].
  rewrite (annotate_last_user_skip _ _ (Forall_rev Hafter)).
  rewrite (annotate_last_user_hit _ _ Hu), Han. cbn [bindR].
  rewrite rev_app_distr. cbn [rev]. rewrite !rev_involutive, <- app_assoc. reflexivity.
Qed.

Lemma addCacheControlToMessages_no_user (messages : list value) :
  Forall passed_over messages ->
  addCacheControlToMessages (VArr messages) = Ok (VArr messages).
Proof.
  intros H. unfold addCacheControlToMessages.
  destruct messages as [|m ms]; [reflexivity|].
  set (all := m :: ms) in *. cbn [truthy negb orb length_is_zero].
  replace (length_is_zero (VArr all)) with false by reflexivity.
  cbn [spread_array bindR].
  rewrite <- (app_nil_r (rev all)).
  rewrite (annotate_last_user_skip _ _ (Forall_rev H)). cbn [annotate_last_user bindR].
  now rewrite app_nil_r, rev_involutive.
Qed.

(** C3 (amended). For a request converted for the platform
    ['openrouter']: a content part of an emitted message carries
    [cache_control] only if the opt-in header is present and the model is
    of the Claude family; the messages are first stripped of every
    [cache_control].  When both hold, the last user message of the
    stripped sequence is the only one changed: a bare string content
    becomes a one-part array whose text part carries [cache_control]; an
    array content that ends with a text part gets it on that part; an
    array content without any text part, and a sequence without a user
    message, stay as they are. *)
Theorem cache_control_on_openrouter (standard : value) (targetFormat : string)
    (originalRequest : option Request) (out : value)
    (Htarget : (targetFormat =? "openai") || (targetFormat =? "openrouter") = true)
    (Hout : fromStandardFormat standard targetFormat originalRequest (Some "openrouter")
            = Ok out) :
  (annotated (field out "messages") = true ->
   opt_in originalRequest = true /\ isClaudeModel (field standard "model") = Ok true)
  /\ (exists stripped,
        removeCacheControlFromMessages (field standard "messages") = Ok stripped
        /\ annotated stripped = false
        /\ (opt_in originalRequest = false \/ isClaudeModel (field standard "model") = Ok false ->
            field out "messages" = stripped)
        /\ (opt_in originalRequest = true ->
            isClaudeModel (field standard "model") = Ok true ->
            (forall messages,
               stripped = VArr messages ->
               Forall passed_over messages ->
               field out "messages" = VArr messages)
            /\ (forall before user after,
                  stripped = VArr (before ++ user :: after) ->
                  is_user user = true ->
                  Forall passed_over after ->
                  (forall text,
                     field user "content" = VStr text ->
                     field out "messages"
                     = VArr (before
                             ++ obj (assign "content" (VArr [cached_text_part (VStr text)])
                                       (own_props user))
                             :: after))
                  /\ (forall front last,
                        field user "content" = VArr (front ++ [last]) ->
                        is_text last = true ->
                        field out "messages"
                        = VArr (before
                                ++ obj (assign "content"
                                          (VArr (front
                                                 ++ [obj (assign "cache_control" ephemeral
                                                            (own_props last))]))
                                          (own_props user))
                                :: after))
                  /\ (forall parts,
                        field user "content" = VArr parts ->
                        Forall (fun part => nullish part = false /\ is_text part = false)
                          parts ->
                        field out "messages" = VArr (before ++ user :: after))))).
Proof.
  rewrite (fromStandardFormat_openrouter _ _ _ Htarget) in Hout.
  destruct (prop standard "model") as [model|e]; [|discriminate]. cbn [bindR] in Hout.
  destruct (removeCacheControlFromMessages (field standard "messages")) as [stripped|e] eqn:R;
    [|discriminate].
  cbn [bindR] in Hout.
  pose proof (removeCacheControlFromMessages_clean _ _ R) as Hclean.
  destruct (opt_in originalRequest) eqn:O.
  - destruct (isClaudeModel (field standard "model")) as [[|]|e] eqn:C;
      cbn [bindR] in Hout; [| |discriminate].
    + destruct (addCacheControlToMessages stripped) as [messages|e] eqn:A; [|discriminate].
      cbn [bindR] in Hout. injection Hout as <-.
      cbn [field obj lookup String.eqb Ascii.eqb Bool.eqb].
      split; [intros _; split; reflexivity|].
      exists stripped. split; [reflexivity|]. split; [exact Hclean|].
      split; [intros [H|H]; discriminate|].
      intros _ _. split.
      * intros ms -> Hms. rewrite (addCacheControlToMessages_no_user _ Hms) in A.
        now injection A as <-.
      * intros before user after -> Hu Hafter. split; [|split].
        -- intros text Ht.
           rewrite (addCacheControlToMessages_last_user _ _ _ _ Hu Hafter
                      (annotate_string _ _ Ht)) in A.
           now injection A as <-.
        -- intros front last Hc Ht.
           rewrite (addCacheControlToMessages_last_user _ _ _ _ Hu Hafter
                      (annotate_last_text _ _ _ Hc Ht)) in A.
           now injection A as <-.
        -- intros parts Hc Hparts.
           rewrite (addCacheControlToMessages_last_user _ _ _ _ Hu Hafter
                      (annotate_no_text _ _ Hu Hc Hparts)) in A.
           now injection A as <-.
    + injection Hout as <-. cbn [field obj lookup String.eqb Ascii.eqb Bool.eqb].
      split; [intros H; congruence|].
      exists stripped. split; [reflexivity|]. split; [exact Hclean|].
      split; [reflexivity|]. intros _ H. discriminate.
  - cbn [bindR] in Hout. injection Hout as <-.
    cbn [field obj lookup String.eqb Ascii.eqb Bool.eqb].
    split; [intros H; congruence|].
    exists stripped. split; [reflexivity|]. split; [exact Hclean|].
    split; [reflexivity|]. intros H. discriminate.
Qed.

End CacheControlPlacement.

(** C3, as the claim words it, fails on a request whose user message has
    no text part: the opt-in header is there and the model is a Claude
    model, and yet no part of the output carries [cache_control]. *)
Lemma cache_control_absent_without_text_part :
  opt_in (Some caching_request) = true
  /\ isClaudeModel (P := Reference.platform) (field image_only_request "model") = Ok true
  /\ fromStandardFormat (P := Reference.platform) image_only_request "openai"
       (Some caching_request) (Some "openrouter")
     = Ok (obj [ ("model", str "anthropic/claude-3.5-sonnet");
                 ("messages",
                  VArr [ obj [ ("role", str "user"); ("content", VArr [ image_part ]) ] ]);
                 ("max_tokens", num 1024);
                 ("temperature", num 1);
                 ("stream", VBool false) ])
  /\ annotated
       (VArr [ obj [ ("role", str "user"); ("content", VArr [ image_part ]) ] ]) = false.
Proof. repeat split; vm_compute; reflexivity. Qed.

Lemma cache_control_on_openrouter_witness :
  fromStandardFormat (P := Reference.platform) hello_request "openai"
    (Some caching_request) (Some "openrouter") = Ok hello_request_out
  /\ annotated (field hello_request_out "messages") = true
  /\ opt_in (Some caching_request) = true
  /\ isClaudeModel (P := Reference.platform) (field hello_request "model") = Ok true.
Proof.
  assert (Hout : fromStandardFormat (P := Reference.platform) hello_request "openai"
                   (Some caching_request) (Some "openrouter") = Ok hello_request_out)
    by (vm_compute; reflexivity).
  split; [exact Hout|]. split; [reflexivity|].
  exact (proj1 (cache_control_on_openrouter (P := Reference.platform) hello_request "openai"
                  (Some caching_request) hello_request_out eq_refl Hout) eq_refl).
Defined.

(** ** The OpenAI round trip (C5) *)

(** For a request whose fields are what [||] leaves alone (truthy, or the
    default itself), the round trip through the OpenAI shape is the
    identity. *)
Lemma roundtrip_openai_kept (P : Platform) (messages : list value)
    (model max_tokens temperature stream : value) :
  js_or model (str "") = model ->
  js_or max_tokens (num 2048) = max_tokens ->
  js_or temperature (num seven_tenths) = temperature ->
  js_or stream (VBool false) = stream ->
  (wire <- fromStandardFormat
             (obj [ ("messages", VArr messages);
                    ("model", model);
                    ("max_tokens", max_tokens);
                    ("temperature", temperature);
                    ("stream", stream) ])
             "openai" None None ;;
   toStandardFormat wire "openai")
  = Ok (obj [ ("messages", VArr messages);
              ("model", model);
              ("max_tokens", max_tokens);
              ("temperature", temperature);
              ("stream", stream) ]).
Proof.
  intros Hmodel Hmax Htemperature Hstream.
  cbn. rewrite Hmodel, Hmax, Htemperature, Hstream. reflexivity.
Qed.

(** C5 at a request whose temperature is 0: the OpenAI-shaped request
    carries the 0, and reading it back replaces it by the default 0.7, so
    the round trip does not return the request. *)
Theorem roundtrip_openai_temperature_zero (P : Platform) :
  fromStandardFormat zero_temperature_request "openai" None None
  = Ok (obj [ ("model", str "gpt-4");
              ("messages", VArr [ text_message "user" "Hello" ]);
              ("max_tokens", num 1000);
              ("temperature", num 0);
              ("stream", VBool false) ])
  /\ (wire <- fromStandardFormat zero_temperature_request "openai" None None ;;
      toStandardFormat wire "openai")
     = Ok (obj [ ("messages", VArr [ text_message "user" "Hello" ]);
                 ("model", str "gpt-4");
                 ("max_tokens", num 1000);
                 ("temperature", num seven_tenths);
                 ("stream", VBool false) ])
  /\ (wire <- fromStandardFormat zero_temperature_request "openai" None None ;;
      toStandardFormat wire "openai")
     <> Ok zero_temperature_request.
Proof.
  split; [reflexivity|].
  split; [reflexivity|].
  intros H.
  apply (f_equal (fun r => match r with
                           | Ok v => is_num (field v "temperature") 0
                           | Throw _ => false
                           end)) in H.
  vm_compute in H. discriminate.
Qed.

(** ** Responses (C4, C9, C10) *)

Section ResponseProperties.
Context {P : Platform}.

Lemma responseToStandardFormat_anthropic (response : value) (w : world) :
  nullish response = false ->
  responseToStandardFormat response "anthropic" w
  = (tick w,
     Ok (obj [ ("id", js_or (field response "id") (str ""));
               ("object", str "chat.completion");
               ("created", num (Math_floor (Date_now (now_calls w) / 1000)));
               ("model", js_or (field response "model") (str ""));
               ("choices",
                VArr [ obj [ ("index", num 0);
                             ("message",
                              obj [ ("role", str "assistant");
                                    ("content",
                                     js_or (opt_prop (opt_index (field response "content") 0) "text")
                                           (str "")) ]);
                             ("finish_reason",
                              js_or (field response "stop_reason") (str "stop")) ] ]);
               ("usage",
                obj [ ("prompt_tokens",
                       js_or (opt_prop (field response "usage") "input_tokens") (num 0));
                      ("completion_tokens",
                       js_or (opt_prop (field response "usage") "output_tokens") (num 0));
                      ("total_tokens",
                       js_add (js_or (opt_prop (field response "usage") "input_tokens") (num 0))
                              (js_or (opt_prop (field response "usage") "output_tokens") (num 0))) ]) ])).
Proof.
  intros H. unfold responseToStandardFormat, bindIO, Date_now_call, lift, retIO.
  cbn [String.eqb Ascii.eqb Bool.eqb orb].
  rewrite (prop_defined _ _ H). reflexivity.
Qed.

Lemma responseFromStandardFormat_anthropic (standard : value) :
  nullish standard = false ->
  nullish (field standard "choices") = false ->
  nullish (field standard "usage") = false ->
  responseFromStandardFormat standard "anthropic"
  = Ok (obj [ ("id", field standard "id");
              ("type", str "message");
              ("role", str "assistant");
              ("content",
               VArr [ obj [ ("type", str "text");
                            ("text",
                             js_or (opt_prop (opt_prop (first_choice standard) "message") "content")
                                   (str "")) ] ]);
              ("model", field standard "model");
              ("stop_reason",
               js_or (opt_prop (first_choice standard) "finish_reason") (str "end_turn"));
              ("usage", obj [ ("input_tokens", field (field standard "usage") "prompt_tokens");
                              ("output_tokens",
                               field (field standard "usage") "completion_tokens") ]) ]).
Proof.
  intros Hs Hc Hu. unfold responseFromStandardFormat.
  cbn [String.eqb Ascii.eqb Bool.eqb orb].
  rewrite (prop_defined _ _ Hs). cbn [bindR].
  rewrite (index_defined _ _ Hc). cbn [bindR].
  rewrite (prop_defined _ _ Hu). reflexivity.
Qed.

(** C10. An IR response without choices converts without an exception: to
    the Anthropic shape with the empty text and stop reason ["end_turn"],
    to the Gemini shape with the empty text and finish reason ["STOP"]. *)
Theorem responseFromStandardFormat_no_choices (standard : value)
    (Hstandard : nullish standard = false)
    (Hchoices : field standard "choices" = VArr []) :
  (nullish (field standard "usage") = false ->
   responseFromStandardFormat standard "anthropic"
   = Ok (obj [ ("id", field standard "id");
               ("type", str "message");
               ("role", str "assistant");
               ("content", VArr [ obj [ ("type", str "text"); ("text", str "") ] ]);
               ("model", field standard "model");
               ("stop_reason", str "end_turn");
               ("usage", obj [ ("input_tokens", field (field standard "usage") "prompt_tokens");
                               ("output_tokens",
                                field (field standard "usage") "completion_tokens") ]) ]))
  /\ responseFromStandardFormat standard "gemini"
     = Ok (obj [ ("candidates",
                  VArr [ obj [ ("content",
                                obj [ ("parts", VArr [ obj [ ("text", str "") ] ]);
                                      ("role", str "model") ]);
                               ("finishReason", str "STOP");
                               ("index", num 0) ] ]) ]).
Proof.
  split.
  - intros Hu. rewrite responseFromStandardFormat_anthropic; auto.
    + unfold first_choice. rewrite Hchoices. reflexivity.
    + now rewrite Hchoices.
  - unfold responseFromStandardFormat. cbn [String.eqb Ascii.eqb Bool.eqb orb].
    rewrite (prop_defined _ _ Hstandard). cbn [bindR]. rewrite Hchoices. reflexivity.
Qed.

(** C9. Anthropic-shaped to IR: a missing [stop_reason] becomes the finish
    reason ["stop"], a present one is copied.  IR to Anthropic-shaped: a
    missing [finish_reason] becomes the stop reason ["end_turn"], a present
    one is copied. *)
Theorem anthropic_finish_reason_defaults (response standard : value) (w : world)
    (Hresponse : nullish response = false)
    (Hstandard : nullish standard = false)
    (Hchoices : nullish (field standard "choices") = false)
    (Husage : nullish (field standard "usage") = false) :
  (exists ir,
     responseToStandardFormat response "anthropic" w = (tick w, Ok ir)
     /\ (nullish (field response "stop_reason") = true ->
         field (first_choice ir) "finish_reason" = str "stop")
     /\ (truthy (field response "stop_reason") = true ->
         field (first_choice ir) "finish_reason" = field response "stop_reason"))
  /\
  (exists wire,
     responseFromStandardFormat standard "anthropic" = Ok wire
     /\ (nullish (opt_prop (first_choice standard) "finish_reason") = true ->
         field wire "stop_reason" = str "end_turn")
     /\ (truthy (opt_prop (first_choice standard) "finish_reason") = true ->
         field wire "stop_reason" = opt_prop (first_choice standard) "finish_reason")).
Proof.
  split.
  - eexists. split; [apply responseToStandardFormat_anthropic; assumption|].
    split; intros H.
    + cbn. now rewrite (js_or_falsy _ _ (nullish_falsy _ H)).
    + cbn. now rewrite (js_or_truthy _ _ H).
  - eexists. split; [apply responseFromStandardFormat_anthropic; assumption|].
    split; intros H.
    + cbn. now rewrite (js_or_falsy _ _ (nullish_falsy _ H)).
    + cbn. now rewrite (js_or_truthy _ _ H).
Qed.

End ResponseProperties.

Lemma responseFromStandardFormat_no_choices_witness :
  field empty_response "choices" = VArr []
  /\ responseFromStandardFormat (P := Reference.platform) empty_response "anthropic"
     = Ok (obj [ ("id", str "chatcmpl-2");
                 ("type", str "message");
                 ("role", str "assistant");
                 ("content", VArr [ obj [ ("type", str "text"); ("text", str "") ] ]);
                 ("model", str "gpt-4");
                 ("stop_reason", str "end_turn");
                 ("usage", obj [ ("input_tokens", num 0); ("output_tokens", num 0) ]) ])
  /\ responseFromStandardFormat (P := Reference.platform) empty_response "gemini"
     = Ok (obj [ ("candidates",
                  VArr [ obj [ ("content",
                                obj [ ("parts", VArr [ obj [ ("text", str "") ] ]);
                                      ("role", str "model") ]);
                               ("finishReason", str "STOP");
                               ("index", num 0) ] ]) ]).
Proof.
  split; [reflexivity|].
  destruct (responseFromStandardFormat_no_choices (P := Reference.platform)
              empty_response eq_refl eq_refl) as [Hanthropic Hgemini].
  split; [exact (Hanthropic eq_refl)|exact Hgemini].
Defined.

Lemma anthropic_finish_reason_defaults_witness :
  nullish anthropic_response_example = false
  /\ nullish inconsistent_openai_response = false
  /\ (exists ir,
        responseToStandardFormat (P := Reference.platform) anthropic_response_example
          "anthropic" start = (tick start, Ok ir)
        /\ field (first_choice ir) "finish_reason" = str "end_turn")
  /\ (exists wire,
        responseFromStandardFormat (P := Reference.platform) inconsistent_openai_response
          "anthropic" = Ok wire
        /\ field wire "stop_reason" = str "stop").
Proof.
  split; [reflexivity|]. split; [reflexivity|].
  destruct (anthropic_finish_reason_defaults (P := Reference.platform)
              anthropic_response_example inconsistent_openai_response start
              eq_refl eq_refl eq_refl eq_refl)
    as [[ir [Hir [_ Hcopy]]] [wire [Hwire [_ Hcopy']]]].
  split.
  - exists ir. split; [exact Hir|exact (Hcopy eq_refl)].
  - exists wire. split; [exact Hwire|exact (Hcopy' eq_refl)].
Defined.

Section Usage.
Context {P : Platform}.

Lemma opt_toLowerCase_total (v : value) :
  nullish v = true \/ typeof_string v = true ->
  exists lowered, opt_toLowerCase v = Ok lowered.
Proof.
  intros [H|H]; unfold opt_toLowerCase.
  - rewrite H. eauto.
  - destruct v; try discriminate. simpl. eauto.
Qed.

Lemma responseToStandardFormat_gemini_usage (response : value) (w w' : world) (ir : value) :
  responseToStandardFormat response "gemini" w = (w', Ok ir) ->
  field ir "usage" = zero_usage.
Proof.
  unfold responseToStandardFormat, bindIO, Date_now_call, lift, retIO.
  cbn [String.eqb Ascii.eqb Bool.eqb orb].
  destruct (prop response "candidates") as [candidates|e]; [|discriminate].
  destruct (truthy candidates && length_positive candidates).
  - destruct (prop (item candidates 0) "content") as [content|e]; [|discriminate].
    destruct (opt_toLowerCase (field (item candidates 0) "finishReason")) as [fr|e];
      [|discriminate].
    intros H. injection H as _ <-. reflexivity.
  - intros H. injection H as _ <-. reflexivity.
Qed.

Lemma responseToStandardFormat_gemini_returns (response : value) (w : world) :
  nullish response = false ->
  gemini_candidate_ok response ->
  exists ir, responseToStandardFormat response "gemini" w = (tick (tick w), Ok ir).
Proof.
  intros Hr Hok. unfold gemini_candidate_ok in Hok.
  unfold responseToStandardFormat, bindIO, Date_now_call, lift, retIO.
  cbn [String.eqb Ascii.eqb Bool.eqb orb].
  rewrite (prop_defined _ _ Hr).
  destruct (truthy (field response "candidates") && length_positive (field response "candidates")).
  - destruct (Hok eq_refl) as [Hc Hf].
    rewrite (prop_defined _ _ Hc).
    destruct (opt_toLowerCase_total _ Hf) as [lowered ->].
    eexists. reflexivity.
  - eexists. reflexivity.
Qed.

(** C4 (amended). From an Anthropic-shaped response the IR usage has
    [total_tokens = prompt_tokens + completion_tokens], and is all zeros
    when the response reports no usage.  From a Gemini-shaped response the
    IR usage is all zeros.  An OpenAI-shaped response is the IR response
    as it stands, its usage included. *)
Theorem usage_of_converted_response (response : value) (w : world)
    (Hresponse : nullish response = false) :
  (exists ir,
     responseToStandardFormat response "anthropic" w = (tick w, Ok ir)
     /\ field (field ir "usage") "total_tokens"
        = js_add (field (field ir "usage") "prompt_tokens")
                 (field (field ir "usage") "completion_tokens")
     /\ (nullish (field response "usage") = true -> field ir "usage" = zero_usage))
  /\ (forall w' ir,
        responseToStandardFormat response "gemini" w = (w', Ok ir) ->
        field ir "usage" = zero_usage)
  /\ (gemini_candidate_ok response ->
      exists ir, responseToStandardFormat response "gemini" w = (tick (tick w), Ok ir))
  /\ responseToStandardFormat response "openai" w = (tick w, Ok response)
  /\ responseToStandardFormat response "openrouter" w = (tick w, Ok response).
Proof.
  split; [|split; [|split; [|split]]].
  - eexists. split; [apply responseToStandardFormat_anthropic; assumption|].
    split; [reflexivity|].
    intros H. cbn. unfold opt_prop. rewrite H. reflexivity.
  - intros w' ir. apply responseToStandardFormat_gemini_usage.
  - apply responseToStandardFormat_gemini_returns. assumption.
  - reflexivity.
  - reflexivity.
Qed.

End Usage.

(** C4, as the claim words it, fails on the OpenAI-shaped source: the
    response is returned as it is, so a usage whose total is not the sum
    of its parts stays so in the IR. *)
Lemma responseToStandardFormat_openai_keeps_usage :
  exists ir,
    responseToStandardFormat (P := Reference.platform) inconsistent_openai_response "openai" start
    = (tick start, Ok ir)
    /\ field (field ir "usage") "total_tokens" = num 20
    /\ js_add (P := Reference.platform)
         (field (field ir "usage") "prompt_tokens")
         (field (field ir "usage") "completion_tokens") = num 15
    /\ is_num (field (field ir "usage") "total_tokens") 15 = false.
Proof.
  exists inconsistent_openai_response.
  split; [reflexivity|].
  split; [reflexivity|]. split; reflexivity.
Qed.

Lemma usage_of_converted_response_witness :
  nullish anthropic_response_example = false
  /\ exists ir,
       responseToStandardFormat (P := Reference.platform) anthropic_response_example
         "anthropic" start = (tick start, Ok ir)
       /\ field (field ir "usage") "total_tokens"
          = js_add (P := Reference.platform)
              (field (field ir "usage") "prompt_tokens")
              (field (field ir "usage") "completion_tokens").
Proof.
  split; [reflexivity|].
  destruct (usage_of_converted_response (P := Reference.platform)
              anthropic_response_example start eq_refl) as [[ir [Hrun [Htotal _]]] _].
  exists ir. split; assumption.
Defined.

(** ** Stream chunks (C8) *)

Lemma delta_content_field (choice : value) :
  truthy (delta_content choice) = true ->
  field (field choice "delta") "content" = delta_content choice.
Proof.
  unfold delta_content, opt_prop.
  destruct (nullish choice); [discriminate|].
  destruct (nullish (field choice "delta")); [discriminate|]. reflexivity.
Qed.

Section ChunkProperties.
Context {P : Platform}.

(** C8 (amended). IR to Anthropic-shaped: a chunk whose delta carries
    content becomes a [content_block_delta] event with that text; a chunk
    without content whose [finish_reason] is set becomes a [message_stop]
    event; a chunk with neither is returned as it is. *)
Theorem streamChunkFromStandardFormat_anthropic (standard : value)
    (Hstandard : nullish standard = false)
    (Hchoices : nullish (field standard "choices") = false) :
  (truthy (delta_content (first_choice standard)) = true ->
   streamChunkFromStandardFormat standard "anthropic"
   = Ok (obj [ ("type", str "content_block_delta");
               ("index", num 0);
               ("delta", obj [ ("type", str "text_delta");
                               ("text", delta_content (first_choice standard)) ]) ]))
  /\ (truthy (delta_content (first_choice standard)) = false ->
      truthy (opt_prop (first_choice standard) "finish_reason") = true ->
      streamChunkFromStandardFormat standard "anthropic"
      = Ok (obj [ ("type", str "message_stop") ]))
  /\ (truthy (delta_content (first_choice standard)) = false ->
      truthy (opt_prop (first_choice standard) "finish_reason") = false ->
      streamChunkFromStandardFormat standard "anthropic" = Ok standard).
Proof.
  assert (E : forall k : value -> result value,
             (choices <- prop standard "choices" ;; choice <- index choices 0 ;; k choice)
             = k (first_choice standard)).
  { intros k. rewrite (prop_defined _ _ Hstandard). cbn [bindR].
    rewrite (index_defined _ _ Hchoices). reflexivity. }
  unfold streamChunkFromStandardFormat. cbn [String.eqb Ascii.eqb Bool.eqb orb].
  rewrite E. fold (delta_content (first_choice standard)).
  split; [|split].
  - intros H. rewrite H, (delta_content_field _ H). reflexivity.
  - intros H1 H2. now rewrite H1, H2.
  - intros H1 H2. now rewrite H1, H2.
Qed.

End ChunkProperties.

Lemma streamChunkFromStandardFormat_anthropic_witness :
  nullish (openai_chunk (P := Reference.platform) 0 (delta_choice "He")) = false
  /\ streamChunkFromStandardFormat (P := Reference.platform)
       (openai_chunk (P := Reference.platform) 0 (delta_choice "He")) "anthropic"
     = Ok (content_block_delta "He").
Proof.
  split; [reflexivity|].
  exact (proj1 (streamChunkFromStandardFormat_anthropic (P := Reference.platform)
                  (openai_chunk (P := Reference.platform) 0 (delta_choice "He"))
                  eq_refl eq_refl) eq_refl).
Defined.

(** C8, as the claim words it, fails on a chunk with neither content nor
    finish reason: the adapter returns the chunk, and the line processor
    writes it as an event. *)
Lemma neutral_chunk_is_emitted :
  Reference.parse role_chunk_payload = Some role_chunk
  /\ truthy (delta_content (first_choice role_chunk)) = false
  /\ truthy (opt_prop (first_choice role_chunk) "finish_reason") = false
  /\ streamChunkFromStandardFormat (P := Reference.platform) role_chunk "anthropic"
     = Ok role_chunk
  /\ processStreamLine (P := Reference.platform) ("data: " ++ role_chunk_payload)
       "openai" "anthropic" start
     = (emit start ("data: " ++ role_chunk_payload ++ nl ++ nl), Ok tt).
Proof. repeat split; vm_compute; reflexivity. Qed.

(** ** Lines (C1, C6, C7) *)

Lemma append_assoc (a b c : string) : (a ++ b) ++ c = a ++ b ++ c.
Proof. induction a as [|x a IH]; simpl; [reflexivity|now rewrite IH]. Qed.

Lemma append_nil_r (a : string) : a ++ "" = a.
Proof. induction a as [|x a IH]; simpl; [reflexivity|now rewrite IH]. Qed.

Lemma split_lines_not_nil (s : string) : split_lines s <> [].
Proof.
  destruct s as [|c r]; simpl; [discriminate|].
  destruct (Ascii.eqb c LF); [discriminate|].
  destruct (split_lines r); discriminate.
Qed.

Lemma split_lines_app (a b : string) :
  split_lines (a ++ b)
  = (complete_lines a ++ split_lines (pending a ++ b))%list.
Proof.
  unfold complete_lines, pending.
  induction a as [|c r IH]; simpl; [reflexivity|].
  destruct (Ascii.eqb c LF) eqn:E.
  - rewrite IH. pose proof (split_lines_not_nil r) as N.
    destruct (split_lines r) as [|l ls]; [contradiction|]. reflexivity.
  - rewrite IH. pose proof (split_lines_not_nil r) as N.
    destruct (split_lines r) as [|l ls]; [contradiction|].
    destruct ls as [|x xs].
    + simpl. rewrite E.
      pose proof (split_lines_not_nil (l ++ b)) as N'.
      destruct (split_lines (l ++ b)); [contradiction|]. reflexivity.
    + reflexivity.
Qed.

Lemma pending_one_line (s : string) : one_line (pending s).
Proof.
  unfold one_line, pending.
  induction s as [|c r IH]; simpl; [reflexivity|].
  pose proof (split_lines_not_nil r) as N.
  destruct (Ascii.eqb c LF) eqn:E.
  - destruct (split_lines r) as [|l ls]; [contradiction|]. exact IH.
  - destruct (split_lines r) as [|l ls]; [contradiction|].
    destruct ls as [|x xs].
    + simpl in *. rewrite E, IH. reflexivity.
    + exact IH.
Qed.

Lemma complete_lines_app (a b : string) :
  complete_lines (a ++ b) = (complete_lines a ++ complete_lines (pending a ++ b))%list.
Proof.
  unfold complete_lines at 1. rewrite split_lines_app.
  apply removelast_app, split_lines_not_nil.
Qed.

Lemma last_app_right {A : Type} (xs ys : list A) (d : A) :
  ys <> [] -> last (xs ++ ys) d = last ys d.
Proof.
  intros N. induction xs as [|x xs IH]; simpl; [reflexivity|].
  rewrite IH. destruct (xs ++ ys)%list eqn:E; [|reflexivity].
  apply app_eq_nil in E. destruct E as [_ E]. contradiction.
Qed.

Lemma pending_app (a b : string) : pending (a ++ b) = pending (pending a ++ b).
Proof.
  unfold pending at 1. rewrite split_lines_app.
  apply last_app_right, split_lines_not_nil.
Qed.

Lemma one_line_complete (s : string) : one_line s -> complete_lines s = [].
Proof. unfold one_line, complete_lines. now intros ->. Qed.

Lemma one_line_pending (s : string) : one_line s -> pending s = s.
Proof. unfold one_line, pending. now intros ->. Qed.

Lemma one_line_cons (c : ascii) (r : string) :
  one_line (String c r) -> Ascii.eqb c LF = false /\ one_line r.
Proof.
  unfold one_line. simpl. destruct (Ascii.eqb c LF); [discriminate|].
  pose proof (split_lines_not_nil r) as N.
  destruct (split_lines r) as [|l ls]; [contradiction|].
  intros H. injection H as -> ->. split; reflexivity.
Qed.

Lemma split_lines_line_feed (l rest : string) :
  one_line l -> split_lines (l ++ nl ++ rest) = l :: split_lines rest.
Proof.
  induction l as [|c r IH]; intros H; [reflexivity|].
  destruct (one_line_cons _ _ H) as [E Hr].
  change (String c r ++ nl ++ rest) with (String c (r ++ nl ++ rest)).
  cbn [split_lines]. rewrite E, (IH Hr). reflexivity.
Qed.

Lemma split_lines_unlines (lines : list string) :
  Forall one_line lines -> split_lines (unlines lines) = (lines ++ [EmptyString])%list.
Proof.
  induction 1 as [|l r Hl _ IH]; [reflexivity|].
  cbn [unlines]. rewrite (split_lines_line_feed _ _ Hl), IH. reflexivity.
Qed.

Lemma complete_lines_unlines (lines : list string) :
  Forall one_line lines -> complete_lines (unlines lines) = lines.
Proof.
  intros H. unfold complete_lines. rewrite (split_lines_unlines _ H).
  apply removelast_last.
Qed.

Lemma pending_unlines (lines : list string) :
  Forall one_line lines -> pending (unlines lines) = EmptyString.
Proof.
  intros H. unfold pending. rewrite (split_lines_unlines _ H).
  apply last_last.
Qed.

Lemma for_of_app {A : Type} (f : A -> IO unit) (xs ys : list A) (w : world) :
  for_of f (xs ++ ys) w = (for_of f xs ;;; for_of f ys)%io w.
Proof.
  revert w. induction xs as [|x xs IH]; intros w; [reflexivity|].
  simpl. unfold bindIO.
  destruct (f x w) as [w1 [u|e]]; [|reflexivity].
  rewrite IH. reflexivity.
Qed.

Lemma bindIO_ext {A B : Type} (c : IO A) (k k' : A -> IO B) (w : world) :
  (forall a w', k a w' = k' a w') -> bindIO c k w = bindIO c k' w.
Proof.
  intros H. unfold bindIO. destruct (c w) as [w1 [a|e]]; [apply H|reflexivity].
Qed.

Lemma for_of_app_bind {A B : Type} (f : A -> IO unit) (xs ys : list A)
    (k : unit -> IO B) (w : world) :
  bindIO (for_of f (xs ++ ys)) k w
  = bindIO (for_of f xs) (fun _ => bindIO (for_of f ys) k) w.
Proof.
  unfold bindIO at 1. rewrite for_of_app. unfold bindIO.
  destruct (for_of f xs w) as [w1 [u|e]]; reflexivity.
Qed.

Section ReframerProperties.
Context {P : Platform}.

Lemma read_loop_lines (Hdec : decoder_streams) (sourceFormat targetFormat : string)
    (ending : option string) (chunks : list (list byte)) :
  forall (dec : decoder) (buffer : string) (w : world),
    one_line buffer ->
    read_loop chunks ending dec buffer sourceFormat targetFormat w
    = (for_of (fun line => processStreamLine line sourceFormat targetFormat)
         (complete_lines (buffer ++ snd (TextDecoder_decode dec (concat chunks)))) ;;;
       loop_end ending
         (pending (buffer ++ snd (TextDecoder_decode dec (concat chunks)))))%io w.
Proof.
  destruct Hdec as [Hnil Happ].
  induction chunks as [|chunk rest IH]; intros dec buffer w Hbuffer.
  - cbn [concat read_loop]. rewrite Hnil. cbn [snd]. rewrite append_nil_r.
    rewrite (one_line_complete _ Hbuffer), (one_line_pending _ Hbuffer).
    reflexivity.
  - cbn [concat read_loop]. rewrite Happ.
    destruct (TextDecoder_decode dec chunk) as [d1 x].
    specialize (IH d1). destruct (TextDecoder_decode d1 (concat rest)) as [d2 y].
    cbn [snd] in *.
    replace (buffer ++ x ++ y) with ((buffer ++ x) ++ y) by apply append_assoc.
    rewrite (complete_lines_app (buffer ++ x) y), (pending_app (buffer ++ x) y).
    rewrite for_of_app_bind. apply bindIO_ext. intros _ w1.
    apply IH, pending_one_line.
Qed.

End ReframerProperties.

(** ** Runs that only append *)

Lemma resume_at_clock (w : world) : resume w (at_clock (now_calls w)) = w.
Proof. destruct w. unfold resume, at_clock. simpl. now rewrite app_nil_r. Qed.

Lemma resume_resume (w w1 w2 : world) :
  resume (resume w w1) w2 = resume w (resume w1 w2).
Proof. unfold resume. simpl. now rewrite app_assoc. Qed.

Lemma tidy_ret {A : Type} (a : A) : tidy (retIO a).
Proof. intros w. unfold retIO. simpl. now rewrite resume_at_clock. Qed.

Lemma tidy_lift {A : Type} (r : result A) : tidy (lift r).
Proof. intros w. unfold lift. simpl. now rewrite resume_at_clock. Qed.

Lemma tidy_write (text : string) : tidy (writer_write text).
Proof. intros w. reflexivity. Qed.

Lemma tidy_bind {A B : Type} (c : IO A) (k : A -> IO B) :
  tidy c -> (forall a, tidy (k a)) -> tidy (bindIO c k).
Proof.
  intros Hc Hk w. unfold bindIO. rewrite (Hc w).
  destruct (c (at_clock (now_calls w))) as [w0 [a|e]] eqn:E0; simpl.
  - rewrite (Hk a (resume w w0)). simpl.
    rewrite (Hk a w0). simpl. now rewrite resume_resume.
  - reflexivity.
Qed.

Lemma tidy_try_catch {A : Type} (body : IO A) (handler : string -> IO A) :
  tidy body -> (forall e, tidy (handler e)) -> tidy (try_catch body handler).
Proof.
  intros Hb Hh w. unfold try_catch. rewrite (Hb w).
  destruct (body (at_clock (now_calls w))) as [w0 [a|e]]; simpl.
  - reflexivity.
  - rewrite (Hh e (resume w w0)). simpl.
    rewrite (Hh e w0). simpl. now rewrite resume_resume.
Qed.

Lemma tidy_for_of {A : Type} (f : A -> IO unit) (xs : list A) :
  (forall x, tidy (f x)) -> tidy (for_of f xs).
Proof.
  intros Hf. induction xs as [|x xs IH]; simpl.
  - apply tidy_ret.
  - apply tidy_bind; [apply Hf|intros _; exact IH].
Qed.

Lemma try_catch_write_returns (body : IO unit) (message : string -> string) (w : world) :
  snd (try_catch body (fun e => writer_write (message e)) w) = Ok tt.
Proof.
  unfold try_catch. destruct (body w) as [w1 [[]|e]]; reflexivity.
Qed.

Lemma for_of_returns {A : Type} (f : A -> IO unit) (xs : list A) :
  (forall x w, snd (f x w) = Ok tt) -> forall w, snd (for_of f xs w) = Ok tt.
Proof.
  intros Hf. induction xs as [|x xs IH]; intros w; [reflexivity|].
  simpl. unfold bindIO. pose proof (Hf x w) as H.
  destruct (f x w) as [w1 r]. simpl in H. subst r. apply IH.
Qed.

Lemma prefix_append (p s : string) : String.prefix p (p ++ s) = true.
Proof.
  induction p as [|c p IH]; simpl.
  - destruct s; reflexivity.
  - destruct (ascii_dec c c) as [_|N]; [exact IH|contradiction].
Qed.

Lemma trimEnd_not_white (c : ascii) (r : string) :
  is_white c = false -> (trimEnd (String c r) =? "") = false.
Proof.
  intros H. cbn [trimEnd]. rewrite H. destruct (trimEnd r); reflexivity.
Qed.

Lemma trim_data_line (rest : string) : (trim ("data: " ++ rest) =? "") = false.
Proof.
  unfold trim.
  change (trimStart ("data: " ++ rest)) with (String "d" ("ata: " ++ rest)).
  apply trimEnd_not_white. reflexivity.
Qed.

Section LineProperties.
Context {P : Platform}.

Lemma tidy_now : tidy Date_now_call.
Proof. intros w. unfold Date_now_call, resume. simpl. now rewrite app_nil_r. Qed.

Lemma tidy_streamChunkToStandardFormat (chunk : value) (sourceFormat : string) :
  tidy (streamChunkToStandardFormat chunk sourceFormat).
Proof.
  unfold streamChunkToStandardFormat.
  repeat first
    [ apply tidy_ret | apply tidy_lift | apply tidy_now
    | apply tidy_bind; [|intros ?]
    | match goal with |- tidy (if ?b then _ else _) => destruct b end ].
Qed.

Lemma tidy_convertStreamChunk (chunk : value) (sourceFormat targetFormat : string) :
  tidy (convertStreamChunk chunk sourceFormat targetFormat).
Proof.
  unfold convertStreamChunk. destruct (sourceFormat =? targetFormat).
  - apply tidy_ret.
  - apply tidy_bind; [apply tidy_streamChunkToStandardFormat|intros ?; apply tidy_lift].
Qed.

Lemma tidy_processStreamLine (line sourceFormat targetFormat : string) :
  tidy (processStreamLine line sourceFormat targetFormat).
Proof.
  unfold processStreamLine.
  repeat first
    [ apply tidy_write | apply tidy_lift | apply tidy_convertStreamChunk
    | apply tidy_try_catch; [|intros ?]
    | apply tidy_bind; [|intros ?]
    | match goal with |- tidy (if ?b then _ else _) => destruct b end ].
Qed.

Lemma processStreamLine_returns (line sourceFormat targetFormat : string) (w : world) :
  snd (processStreamLine line sourceFormat targetFormat w) = Ok tt.
Proof. unfold processStreamLine. apply try_catch_write_returns. Qed.

Lemma for_of_lines (lines : list string) (sourceFormat targetFormat : string) (w : world) :
  for_of (fun line => processStreamLine line sourceFormat targetFormat) lines w
  = ({| now_calls := clock_after lines sourceFormat targetFormat (now_calls w);
        written := written w ++ emitted lines sourceFormat targetFormat (now_calls w);
        closed := closed w |}, Ok tt).
Proof.
  rewrite (tidy_for_of _ lines (fun l => tidy_processStreamLine l _ _) w).
  rewrite for_of_returns; [reflexivity|].
  intros x w'. apply processStreamLine_returns.
Qed.

End LineProperties.

Lemma all_lines_unlines (lines : list string) :
  Forall one_line lines -> all_lines (unlines lines) = lines.
Proof.
  intros H. unfold all_lines.
  rewrite (complete_lines_unlines _ H), (pending_unlines _ H). apply app_nil_r.
Qed.

Section StreamProperties.
Context {P : Platform}.

Lemma for_of_single (line sourceFormat targetFormat : string) (w : world) :
  for_of (fun l => processStreamLine l sourceFormat targetFormat) [line] w
  = processStreamLine line sourceFormat targetFormat w.
Proof.
  simpl. unfold bindIO, retIO.
  pose proof (processStreamLine_returns line sourceFormat targetFormat w) as H.
  destruct (processStreamLine line sourceFormat targetFormat w) as [w1 r].
  simpl in H. subst r. reflexivity.
Qed.

Lemma processStreamData_all_lines (Hdec : decoder_streams)
    (sourceFormat targetFormat : string) (chunks : list (list byte)) (w : world) :
  processStreamData {| reads := chunks; failure := None |} sourceFormat targetFormat w
  = ({| now_calls :=
          clock_after (all_lines (decoded (concat chunks))) sourceFormat targetFormat
            (now_calls w);
        written :=
          written w
          ++ emitted (all_lines (decoded (concat chunks))) sourceFormat targetFormat
               (now_calls w);
        closed := true |}, Ok tt).
Proof.
  unfold processStreamData, try_finally, try_catch. cbn [reads failure].
  unfold bindIO at 1.
  rewrite (read_loop_lines Hdec sourceFormat targetFormat None chunks
             TextDecoder_new "" w eq_refl).
  cbn [append loop_end]. fold (decoded (concat chunks)).
  pose proof (for_of_lines (all_lines (decoded (concat chunks))) sourceFormat targetFormat w)
    as Hall.
  unfold all_lines in Hall. rewrite for_of_app in Hall.
  unfold bindIO in *. unfold retIO at 1.
  destruct (for_of _ (complete_lines (decoded (concat chunks))) w) as [w1 [[]|e]].
  - destruct (pending (decoded (concat chunks)) =? "") eqn:E; cbn [negb].
    + cbn [for_of] in Hall. unfold retIO in *. injection Hall as ->.
      unfold all_lines. rewrite E. reflexivity.
    + rewrite for_of_single in Hall. rewrite Hall.
      unfold all_lines. rewrite E. reflexivity.
  - discriminate.
Qed.

(** C1. However the bytes of a source are cut into reads, the reframer
    does the same: two sources with the same bytes (and the same ending)
    give the same writes in the same order.  After any reads the lines
    processed are the complete lines of the text so far, in order, and the
    fragment after the last line feed is the buffer, which holds no line
    feed: it is processed when a later read completes it, or, when it is
    not empty, as the last line once the data ends. *)
Theorem reframing_ignores_fragmentation (Hdec : decoder_streams)
    (sourceFormat targetFormat : string) (ending : option string)
    (chunks chunks' : list (list byte)) (w : world)
    (Hsame : concat chunks = concat chunks') :
  processStreamData {| reads := chunks; failure := ending |} sourceFormat targetFormat w
  = processStreamData {| reads := chunks'; failure := ending |} sourceFormat targetFormat w
  /\ read_loop chunks ending TextDecoder_new "" sourceFormat targetFormat w
     = (for_of (fun line => processStreamLine line sourceFormat targetFormat)
          (complete_lines (decoded (concat chunks))) ;;;
        loop_end ending (pending (decoded (concat chunks))))%io w
  /\ one_line (pending (decoded (concat chunks)))
  /\ processStreamData {| reads := chunks; failure := None |} sourceFormat targetFormat w
     = ({| now_calls :=
             clock_after (all_lines (decoded (concat chunks))) sourceFormat targetFormat
               (now_calls w);
           written :=
             written w
             ++ emitted (all_lines (decoded (concat chunks))) sourceFormat targetFormat
                  (now_calls w);
           closed := true |}, Ok tt).
Proof.
  assert (L : forall cs,
             read_loop cs ending TextDecoder_new "" sourceFormat targetFormat w
             = (for_of (fun line => processStreamLine line sourceFormat targetFormat)
                  (complete_lines (decoded (concat cs))) ;;;
                loop_end ending (pending (decoded (concat cs))))%io w).
  { intros cs. apply (read_loop_lines Hdec). reflexivity. }
  split; [|split; [|split]].
  - unfold processStreamData, try_finally, try_catch, bindIO. cbn [reads failure].
    rewrite (L chunks), (L chunks'), Hsame. reflexivity.
  - apply L.
  - apply pending_one_line.
  - apply (processStreamData_all_lines Hdec).
Qed.

(** A data line whose payload is not JSON: the line is written as it is,
    followed by the blank line that ends an event. *)
Lemma processStreamLine_malformed (payload sourceFormat targetFormat : string) (w : world) :
  (payload =? "[DONE]") = false ->
  (trim payload =? "") = false ->
  JSON_parse payload = None ->
  processStreamLine ("data: " ++ payload) sourceFormat targetFormat w
  = (emit w ("data: " ++ payload ++ nl ++ nl), Ok tt).
Proof.
  intros Hdone Hblank Hparse. unfold processStreamLine.
  rewrite trim_data_line.
  rewrite prefix_append.
  change (substring_from 6 ("data: " ++ payload)) with payload.
  cbv iota. rewrite Hdone, Hblank, Hparse. reflexivity.
Qed.

Lemma emitted_app (xs ys : list string) (sourceFormat targetFormat : string) (k : nat) :
  emitted (xs ++ ys) sourceFormat targetFormat k
  = (emitted xs sourceFormat targetFormat k
     ++ emitted ys sourceFormat targetFormat (clock_after xs sourceFormat targetFormat k))%list
  /\ clock_after (xs ++ ys) sourceFormat targetFormat k
     = clock_after ys sourceFormat targetFormat (clock_after xs sourceFormat targetFormat k).
Proof.
  unfold emitted, clock_after, run_lines.
  rewrite for_of_app. unfold bindIO. rewrite (for_of_lines xs).
  rewrite (for_of_lines ys). cbn. split; reflexivity.
Qed.

(** C6. A data line whose payload is neither the sentinel nor blank and
    is not JSON is written as it is (with the blank line that ends an
    event), and the stream goes on: for a stream of lines with such a line
    among them, the output is what the lines before it give on their own,
    then that line, then what the lines after it give on their own from
    the same clock reading; the run ends normally with the writer
    closed. *)
Theorem malformed_data_line_passes_through (Hdec : decoder_streams)
    (sourceFormat targetFormat payload : string) (before after : list string)
    (chunks : list (list byte)) (w : world)
    (Hdone : (payload =? "[DONE]") = false)
    (Hblank : (trim payload =? "") = false)
    (Hparse : JSON_parse payload = None)
    (Hlines : Forall one_line (before ++ ("data: " ++ payload) :: after))
    (Htext : decoded (concat chunks) = unlines (before ++ ("data: " ++ payload) :: after)) :
  processStreamLine ("data: " ++ payload) sourceFormat targetFormat w
  = (emit w ("data: " ++ payload ++ nl ++ nl), Ok tt)
  /\ processStreamData {| reads := chunks; failure := None |} sourceFormat targetFormat w
     = ({| now_calls :=
             clock_after after sourceFormat targetFormat
               (clock_after before sourceFormat targetFormat (now_calls w));
           written :=
             written w
             ++ emitted before sourceFormat targetFormat (now_calls w)
             ++ ["data: " ++ payload ++ nl ++ nl]
             ++ emitted after sourceFormat targetFormat
                  (clock_after before sourceFormat targetFormat (now_calls w));
           closed := true |}, Ok tt).
Proof.
  split; [apply processStreamLine_malformed; assumption|].
  rewrite (processStreamData_all_lines Hdec), Htext, (all_lines_unlines _ Hlines).
  destruct (emitted_app before (("data: " ++ payload) :: after) sourceFormat targetFormat
              (now_calls w)) as [-> ->].
  change (("data: " ++ payload) :: after) with ([("data: " ++ payload)%string] ++ after)%list.
  destruct (emitted_app [("data: " ++ payload)] after sourceFormat targetFormat
              (clock_after before sourceFormat targetFormat (now_calls w))) as [-> ->].
  assert (E : forall k,
             run_lines ["data: " ++ payload] sourceFormat targetFormat k
             = emit (at_clock k) ("data: " ++ payload ++ nl ++ nl)).
  { intros k. unfold run_lines. rewrite for_of_single.
    now rewrite processStreamLine_malformed. }
  unfold emitted at 2, clock_after at 2. rewrite E.
  unfold clock_after at 4. rewrite E. reflexivity.
Qed.

End StreamProperties.

Lemma reframing_ignores_fragmentation_witness :
  concat (bytewise (unlines (hello_lines true)))
  = concat [list_byte_of_string (unlines (hello_lines true))]
  /\ processStreamData (P := Reference.platform)
       {| reads := bytewise (unlines (hello_lines true)); failure := None |}
       "anthropic" "openai" start
     = processStreamData (P := Reference.platform)
         {| reads := [list_byte_of_string (unlines (hello_lines true))]; failure := None |}
         "anthropic" "openai" start.
Proof.
  assert (E : concat (bytewise (unlines (hello_lines true)))
              = concat [list_byte_of_string (unlines (hello_lines true))])
    by (vm_compute; reflexivity).
  split; [exact E|].
  exact (proj1 (reframing_ignores_fragmentation (P := Reference.platform)
                  reference_decoder_streams "anthropic" "openai" None _ _ start E)).
Defined.

Lemma malformed_data_line_passes_through_witness :
  Reference.parse broken_payload = None
  /\ processStreamData (P := Reference.platform)
       {| reads :=
            bytewise
              (unlines (["data: " ++ he_payload; ""]
                        ++ ("data: " ++ broken_payload)%string
                        :: ["data: " ++ stop_payload; ""]));
          failure := None |}
       "anthropic" "openai" start
     = ({| now_calls := 2;
           written :=
             [ data_event (P := Reference.platform)
                 (openai_chunk (P := Reference.platform) 0 (delta_choice "He"));
               nl;
               "data: " ++ broken_payload ++ nl ++ nl;
               data_event (P := Reference.platform)
                 (openai_chunk (P := Reference.platform) 1 stop_choice);
               nl ];
           closed := true |}, Ok tt).
Proof.
  split; [vm_compute; reflexivity|].
  refine (eq_trans
            (proj2 (malformed_data_line_passes_through (P := Reference.platform)
                      reference_decoder_streams "anthropic" "openai" broken_payload
                      ["data: " ++ he_payload; ""] ["data: " ++ stop_payload; ""]
                      _ start _ _ _ _ _)) _).
  - vm_compute; reflexivity.
  - vm_compute; reflexivity.
  - vm_compute; reflexivity.
  - repeat constructor.
  - vm_compute; reflexivity.
  - vm_compute; reflexivity.
Defined.

(** ** Scenario C: an Anthropic-shaped stream read as OpenAI-shaped (C7) *)

Section ScenarioC.
Context {P : Platform}.

(** A data line whose payload is JSON: the converted chunk is written as
    one event. *)
Lemma processStreamLine_data (payload sourceFormat targetFormat : string)
    (data converted : value) (w w' : world) :
  (payload =? "[DONE]") = false ->
  (trim payload =? "") = false ->
  JSON_parse payload = Some data ->
  convertStreamChunk data sourceFormat targetFormat w = (w', Ok converted) ->
  processStreamLine ("data: " ++ payload) sourceFormat targetFormat w
  = (emit w' (data_event converted), Ok tt).
Proof.
  intros Hdone Hblank Hparse Hconvert. unfold processStreamLine.
  rewrite trim_data_line, prefix_append.
  change (substring_from 6 ("data: " ++ payload)) with payload.
  cbv iota. rewrite Hdone, Hblank, Hparse.
  unfold try_catch, bindIO, lift. cbn [orb]. cbv beta. rewrite Hconvert. reflexivity.
Qed.

Lemma hello_lines_one_line (named : bool) : Forall one_line (hello_lines named).
Proof. destruct named; repeat constructor. Qed.

Lemma hello_run (named : bool) (w : world)
    (Hhe : JSON_parse he_payload = Some (content_block_delta "He"))
    (Hllo : JSON_parse llo_payload = Some (content_block_delta "llo"))
    (Hstop : JSON_parse stop_payload = Some message_stop) :
  for_of (fun line => processStreamLine line "anthropic" "openai") (hello_lines named) w
  = ({| now_calls := 3 + now_calls w;
        written := written w ++ hello_output named (now_calls w);
        closed := closed w |}, Ok tt).
Proof.
  assert (He : forall w0,
             processStreamLine ("data: " ++ he_payload) "anthropic" "openai" w0
             = (emit (tick w0) (data_event (openai_chunk (now_calls w0) (delta_choice "He"))),
                Ok tt)).
  { intros w0. apply (processStreamLine_data he_payload _ _ _ _ w0 (tick w0)
                        eq_refl eq_refl Hhe). reflexivity. }
  assert (Llo : forall w0,
             processStreamLine ("data: " ++ llo_payload) "anthropic" "openai" w0
             = (emit (tick w0) (data_event (openai_chunk (now_calls w0) (delta_choice "llo"))),
                Ok tt)).
  { intros w0. apply (processStreamLine_data llo_payload _ _ _ _ w0 (tick w0)
                        eq_refl eq_refl Hllo). reflexivity. }
  assert (Stop : forall w0,
             processStreamLine ("data: " ++ stop_payload) "anthropic" "openai" w0
             = (emit (tick w0) (data_event (openai_chunk (now_calls w0) stop_choice)),
                Ok tt)).
  { intros w0. apply (processStreamLine_data stop_payload _ _ _ _ w0 (tick w0)
                        eq_refl eq_refl Hstop). reflexivity. }
  assert (Blank : forall w0,
             processStreamLine "" "anthropic" "openai" w0 = (emit w0 nl, Ok tt))
    by reflexivity.
  assert (Delta : forall w0,
             processStreamLine "event: content_block_delta" "anthropic" "openai" w0
             = (emit w0 ("event: content_block_delta" ++ nl), Ok tt))
    by reflexivity.
  assert (Named_stop : forall w0,
             processStreamLine "event: message_stop" "anthropic" "openai" w0
             = (emit w0 ("event: message_stop" ++ nl), Ok tt))
    by reflexivity.
  destruct w as [k out cl].
  destruct named; cbn [hello_lines app for_of]; unfold bindIO;
    repeat first [rewrite He | rewrite Llo | rewrite Stop | rewrite Blank
                 | rewrite Delta | rewrite Named_stop];
    unfold retIO, emit, tick; cbn [now_calls written closed];
    repeat rewrite <- app_assoc; reflexivity.
Qed.

(** C7. The Anthropic-shaped stream of a content delta ["He"], a content
    delta ["llo"] and a message stop, read as an OpenAI-shaped stream, gives
    exactly three [data:] lines; their payloads are the IR chunks whose
    first choice has the delta content ["He"], the delta content ["llo"],
    and an empty delta (no content) with the finish reason ["stop"]. *)
Theorem anthropic_hello_stream_to_openai (Hdec : decoder_streams)
    (named : bool) (chunks : list (list byte)) (w : world)
    (Htext : decoded (concat chunks) = unlines (hello_lines named))
    (Hhe : JSON_parse he_payload = Some (content_block_delta "He"))
    (Hllo : JSON_parse llo_payload = Some (content_block_delta "llo"))
    (Hstop : JSON_parse stop_payload = Some message_stop) :
  processStreamData {| reads := chunks; failure := None |} "anthropic" "openai" w
  = ({| now_calls := 3 + now_calls w;
        written := written w ++ hello_output named (now_calls w);
        closed := true |}, Ok tt)
  /\ filter (String.prefix "data: ") (hello_output named (now_calls w))
     = [ data_event (openai_chunk (now_calls w) (delta_choice "He"));
         data_event (openai_chunk (S (now_calls w)) (delta_choice "llo"));
         data_event (openai_chunk (S (S (now_calls w))) stop_choice) ]
  /\ delta_content (first_choice (openai_chunk (now_calls w) (delta_choice "He"))) = str "He"
  /\ delta_content (first_choice (openai_chunk (S (now_calls w)) (delta_choice "llo")))
     = str "llo"
  /\ field (first_choice (openai_chunk (S (S (now_calls w))) stop_choice)) "delta" = obj []
  /\ field (first_choice (openai_chunk (S (S (now_calls w))) stop_choice)) "finish_reason"
     = str "stop".
Proof.
  split.
  - rewrite (processStreamData_all_lines Hdec), Htext,
      (all_lines_unlines _ (hello_lines_one_line named)).
    pose proof (hello_run named (at_clock (now_calls w)) Hhe Hllo Hstop) as H.
    unfold emitted, clock_after, run_lines. rewrite H. reflexivity.
  - split; [|repeat split; reflexivity].
    unfold hello_output, data_event.
    destruct named; cbn [app filter]; repeat rewrite prefix_append; reflexivity.
Qed.

End ScenarioC.

Lemma anthropic_hello_stream_to_openai_witness :
  processStreamData (P := Reference.platform)
    {| reads := bytewise (unlines (hello_lines true)); failure := None |}
    "anthropic" "openai" start
  = ({| now_calls := 3;
        written := hello_output (P := Reference.platform) true 0;
        closed := true |}, Ok tt).
Proof.
  refine (proj1 (anthropic_hello_stream_to_openai (P := Reference.platform)
                   reference_decoder_streams true
                   (bytewise (unlines (hello_lines true))) start _ _ _ _)).
  - vm_compute; reflexivity.
  - vm_compute; reflexivity.
  - vm_compute; reflexivity.
  - vm_compute; reflexivity.
Defined.

(** ** Scenarios A, B and D of the specification *)

(** Scenario A: an OpenAI-shaped request without temperature and stream,
    converted to the Anthropic shape. *)
Example scenario_A (P : Platform) :
  convertRequest
    (obj [ ("model", str "gpt-4");
           ("messages", VArr [ text_message "user" "Hello" ]);
           ("max_tokens", num 1000) ])
    "openai" "anthropic" None None
  = Ok (obj [ ("model", str "gpt-4");
              ("messages", VArr [ text_message "user" "Hello" ]);
              ("max_tokens", num 1000);
              ("temperature", num seven_tenths);
              ("stream", VBool false) ]).
Proof. reflexivity. Qed.

(** Scenario B: an Anthropic-shaped response converted to the OpenAI
    shape. *)
Example scenario_B :
  exists ir,
    convertResponse (P := Reference.platform) anthropic_response_example
      "anthropic" "openai" start = (tick start, Ok ir)
    /\ field (field (first_choice ir) "message") "content" = str "Hi"
    /\ field (first_choice ir) "finish_reason" = str "end_turn"
    /\ field (field ir "usage") "total_tokens" = num 15.
Proof. eexists. repeat split; vm_compute; reflexivity. Qed.

(** Scenario D: without the opt-in header nothing carries [cache_control]
    for OpenRouter, whatever the messages held. *)
Example scenario_D :
  exists out,
    fromStandardFormat (P := Reference.platform)
      (obj (assign "model" (str "gpt-4") (own_props hello_request)))
      "openai" None (Some "openrouter") = Ok out
    /\ annotated (field hello_request "messages") = true
    /\ annotated (field out "messages") = false.
Proof. eexists. repeat split; vm_compute; reflexivity. Qed.

(** * Further properties of the code *)

(** ** One write for each line *)

Lemma quiet_ret {A : Type} (a : A) : quiet (retIO a).
Proof. intros w. split; reflexivity. Qed.

Lemma quiet_lift {A : Type} (r : result A) : quiet (lift r).
Proof. intros w. split; reflexivity. Qed.

Lemma quiet_bind {A B : Type} (c : IO A) (k : A -> IO B) :
  quiet c -> (forall a, quiet (k a)) -> quiet (bindIO c k).
Proof.
  intros Hc Hk w. unfold bindIO. destruct (Hc w) as [Hw Hcl].
  destruct (c w) as [w1 [a|e]]; simpl in *.
  - destruct (Hk a w1) as [Hw1 Hcl1]. split; congruence.
  - split; assumption.
Qed.

Section Writes.
Context {P : Platform}.

Lemma quiet_now : quiet Date_now_call.
Proof. intros w. split; reflexivity. Qed.

Lemma quiet_streamChunkToStandardFormat (chunk : value) (sourceFormat : string) :
  quiet (streamChunkToStandardFormat chunk sourceFormat).
Proof.
  unfold streamChunkToStandardFormat.
  repeat first
    [ apply quiet_ret | apply quiet_lift | apply quiet_now
    | apply quiet_bind; [|intros ?]
    | match goal with |- quiet (if ?b then _ else _) => destruct b end ].
Qed.

Lemma quiet_convertStreamChunk (chunk : value) (sourceFormat targetFormat : string) :
  quiet (convertStreamChunk chunk sourceFormat targetFormat).
Proof.
  unfold convertStreamChunk. destruct (sourceFormat =? targetFormat).
  - apply quiet_ret.
  - apply quiet_bind; [apply quiet_streamChunkToStandardFormat|intros ?; apply quiet_lift].
Qed.

Lemma processStreamLine_one_write (line sourceFormat targetFormat : string) (w : world) :
  exists text k,
    processStreamLine line sourceFormat targetFormat w
    = ({| now_calls := k; written := written w ++ [text]; closed := closed w |}, Ok tt).
Proof.
  unfold processStreamLine, try_catch.
  destruct (trim line =? ""); [do 2 eexists; reflexivity|].
  destruct (String.prefix "data: " line); [|do 2 eexists; reflexivity].
  destruct ((substring_from 6 line =? "[DONE]") || (trim (substring_from 6 line) =? ""));
    [do 2 eexists; reflexivity|].
  unfold bindIO, lift.
  destruct (JSON_parse (substring_from 6 line)) as [data|]; [|do 2 eexists; reflexivity].
  destruct (quiet_convertStreamChunk data sourceFormat targetFormat w) as [Hw Hc].
  destruct (convertStreamChunk data sourceFormat targetFormat w) as [w1 [c|e]];
    simpl in Hw, Hc; unfold writer_write; rewrite Hw, Hc; do 2 eexists; reflexivity.
Qed.

Lemma emitted_length (lines : list string) (sourceFormat targetFormat : string) :
  forall k, List.length (emitted lines sourceFormat targetFormat k) = List.length lines.
Proof.
  induction lines as [|l ls IH]; intros k; [reflexivity|].
  change (l :: ls) with ([l] ++ ls)%list.
  destruct (emitted_app [l] ls sourceFormat targetFormat k) as [-> _].
  rewrite length_app, IH. f_equal.
  unfold emitted, run_lines. rewrite for_of_single.
  destruct (processStreamLine_one_write l sourceFormat targetFormat (at_clock k))
    as [text [k' ->]].
  reflexivity.
Qed.

(** X1. The line processor never throws, whatever the line and the
    formats: it writes exactly one chunk and does not close the writer.  So
    a stream that ends without an error is answered with as many writes as
    it has lines, and the writer is closed at the end. *)
Theorem one_write_for_each_line (Hdec : decoder_streams)
    (sourceFormat targetFormat line : string) (chunks : list (list byte)) (w : world) :
  (exists text k,
     processStreamLine line sourceFormat targetFormat w
     = ({| now_calls := k; written := written w ++ [text]; closed := closed w |}, Ok tt))
  /\ (exists out k,
        processStreamData {| reads := chunks; failure := None |} sourceFormat targetFormat w
        = ({| now_calls := k; written := written w ++ out; closed := true |}, Ok tt)
        /\ List.length out = List.length (all_lines (decoded (concat chunks)))).
Proof.
  split; [apply processStreamLine_one_write|].
  rewrite (processStreamData_all_lines Hdec).
  do 2 eexists. split; [reflexivity|apply emitted_length].
Qed.

End Writes.

Lemma one_write_for_each_line_witness :
  (exists text k,
     processStreamLine (P := Reference.platform) ("data: " ++ he_payload)
       "anthropic" "gemini" start
     = ({| now_calls := k; written := written start ++ [text]; closed := closed start |},
        Ok tt))
  /\ (exists out k,
        processStreamData (P := Reference.platform)
          {| reads := bytewise (unlines (hello_lines true)); failure := None |}
          "anthropic" "gemini" start
        = ({| now_calls := k; written := written start ++ out; closed := true |}, Ok tt)
        /\ List.length out
           = List.length (all_lines (decoded (P := Reference.platform)
                                       (concat (bytewise (unlines (hello_lines true))))))).
Proof.
  exact (one_write_for_each_line (P := Reference.platform) reference_decoder_streams
           "anthropic" "gemini" ("data: " ++ he_payload)
           (bytewise (unlines (hello_lines true))) start).
Defined.

(** ** A source that fails *)

Section SourceErrors.
Context {P : Platform}.

(** X2. When reading the source fails, the lines completed before the
    failure have been processed in order, the unfinished fragment after the
    last line feed is dropped, one error event that carries the message of
    the failure is written, and the writer is closed; the failure is not
    passed on to the caller. *)
Theorem source_failure_is_reported (Hdec : decoder_streams)
    (sourceFormat targetFormat message : string) (chunks : list (list byte)) (w : world) :
  processStreamData {| reads := chunks; failure := Some message |} sourceFormat targetFormat w
  = ({| now_calls :=
          clock_after (complete_lines (decoded (concat chunks))) sourceFormat targetFormat
            (now_calls w);
        written :=
          written w
          ++ emitted (complete_lines (decoded (concat chunks))) sourceFormat targetFormat
               (now_calls w)
          ++ [stream_error_event message];
        closed := true |}, Ok tt).
Proof.
  unfold processStreamData, try_finally, try_catch. cbn [reads failure].
  unfold bindIO at 1.
  rewrite (read_loop_lines Hdec sourceFormat targetFormat (Some message) chunks
             TextDecoder_new "" w eq_refl).
  cbn [append loop_end]. fold (decoded (concat chunks)).
  unfold bindIO. rewrite for_of_lines. unfold lift, writer_write, writer_close.
  cbn [now_calls written closed]. rewrite <- app_assoc. reflexivity.
Qed.

End SourceErrors.

Lemma source_failure_is_reported_witness :
  processStreamData (P := Reference.platform)
    {| reads := [ list_byte_of_string ("data: [DONE]" ++ nl ++ "data: {");
                  list_byte_of_string (dq ++ "type") ];
       failure := Some "connection reset" |}
    "anthropic" "openai" start
  = ({| now_calls := 0;
        written := [ "data: [DONE]" ++ nl ++ nl;
                     stream_error_event "connection reset" ];
        closed := true |}, Ok tt).
Proof.
  refine (eq_trans
            (source_failure_is_reported (P := Reference.platform) reference_decoder_streams
               "anthropic" "openai" "connection reset" _ start) _).
  vm_compute; reflexivity.
Defined.

(** ** Lines that carry no data *)

Lemma concat_lines (lines : list string) :
  String.concat "" (map (fun l => l ++ nl) lines) = unlines lines.
Proof.
  induction lines as [|l ls IH]; [reflexivity|].
  cbn [map unlines]. rewrite <- IH.
  destruct ls as [|l' ls']; cbn [map String.concat].
  - now rewrite append_nil_r.
  - now rewrite append_assoc.
Qed.

Section PlainLines.
Context {P : Platform}.

Lemma processStreamLine_plain (line sourceFormat targetFormat : string) (w : world) :
  plain_line line ->
  processStreamLine line sourceFormat targetFormat w = (emit w (line ++ nl), Ok tt).
Proof.
  intros [Hprefix Hblank]. unfold processStreamLine, try_catch.
  destruct (trim line =? "") eqn:E.
  - rewrite (Hblank eq_refl). reflexivity.
  - rewrite Hprefix. reflexivity.
Qed.

Lemma for_of_plain (lines : list string) (sourceFormat targetFormat : string) :
  Forall plain_line lines ->
  forall w,
    for_of (fun line => processStreamLine line sourceFormat targetFormat) lines w
    = ({| now_calls := now_calls w;
          written := written w ++ map (fun l => l ++ nl) lines;
          closed := closed w |}, Ok tt).
Proof.
  induction 1 as [|l ls Hl _ IH]; intros w.
  - cbn [for_of map]. unfold retIO. rewrite app_nil_r. now destruct w.
  - cbn [for_of map]. unfold bindIO. rewrite (processStreamLine_plain _ _ _ _ Hl).
    rewrite IH. unfold emit. cbn [now_calls written closed].
    rewrite <- app_assoc. reflexivity.
Qed.

(** X3. Lines that are not [data: ] lines (event names, ids, comments, the
    empty lines between events) are written as they came, each with its
    line feed, whatever the two formats are: a stream made of such lines is
    copied byte for byte, and the clock is not read.  (A blank line that
    holds white space is written as an empty one, hence the condition on
    blank lines.) *)
Theorem plain_lines_are_copied (Hdec : decoder_streams)
    (sourceFormat targetFormat : string) (lines : list string)
    (chunks : list (list byte)) (w : world)
    (Hlines : Forall one_line lines)
    (Hplain : Forall plain_line lines)
    (Htext : decoded (concat chunks) = unlines lines) :
  processStreamData {| reads := chunks; failure := None |} sourceFormat targetFormat w
  = ({| now_calls := now_calls w;
        written := written w ++ map (fun l => l ++ nl) lines;
        closed := true |}, Ok tt)
  /\ String.concat "" (map (fun l => l ++ nl) lines) = decoded (concat chunks).
Proof.
  split; [|rewrite Htext; apply concat_lines].
  rewrite (processStreamData_all_lines Hdec), Htext, (all_lines_unlines _ Hlines).
  unfold clock_after, emitted, run_lines.
  rewrite (for_of_plain _ _ _ Hplain). reflexivity.
Qed.

End PlainLines.

Lemma plain_lines_are_copied_witness :
  Forall one_line keep_alive_lines
  /\ Forall plain_line keep_alive_lines
  /\ processStreamData (P := Reference.platform)
       {| reads := bytewise (unlines keep_alive_lines); failure := None |}
       "anthropic" "openai" start
     = ({| now_calls := 0;
           written := map (fun l => l ++ nl) keep_alive_lines;
           closed := true |}, Ok tt).
Proof.
  assert (H1 : Forall one_line keep_alive_lines) by (repeat constructor).
  assert (H2 : Forall plain_line keep_alive_lines).
  { repeat constructor; simpl; intros; discriminate. }
  split; [exact H1|]. split; [exact H2|].
  refine (proj1 (plain_lines_are_copied (P := Reference.platform) reference_decoder_streams
                   "anthropic" "openai" keep_alive_lines _ start H1 H2 _)).
  vm_compute; reflexivity.
Defined.

(** ** Stream chunks for Gemini-shaped and from Gemini-shaped streams *)

Lemma is_str_eq (v : value) (lit : string) : is_str v lit = true -> v = VStr lit.
Proof.
  destruct v; simpl; try discriminate. intros H. apply String.eqb_eq in H. now subst.
Qed.

Section GeminiChunks.
Context {P : Platform}.

(** X4. A chunk that ends a stream without carrying text is not put into
    the Gemini shape: an Anthropic [message_stop] event converted for a
    Gemini-shaped client comes out as the IR (OpenAI-shaped) chunk with
    finish_reason "stop", without [candidates]; and an OpenAI-shaped chunk
    whose first choice carries no content is returned as it came, whatever
    its finish_reason. *)
Theorem finish_chunk_stays_in_ir_shape_for_gemini (chunk : value) (choices : list value)
    (w : world) :
  (nullish chunk = false ->
   is_str (field chunk "type") "message_stop" = true ->
   exists w' ir,
     convertStreamChunk chunk "anthropic" "gemini" w = (w', Ok ir)
     /\ field ir "object" = str "chat.completion.chunk"
     /\ field ir "choices" = VArr [stop_choice]
     /\ field ir "candidates" = VUndefined)
  /\ (field chunk "choices" = VArr choices ->
      truthy (delta_content (item (VArr choices) 0)) = false ->
      exists w',
        convertStreamChunk chunk "openai" "gemini" w = (w', Ok chunk)).
Proof.
  split.
  - intros Hchunk Htype. apply is_str_eq in Htype.
    unfold convertStreamChunk, streamChunkToStandardFormat, bindIO, lift, retIO.
    cbn [String.eqb Ascii.eqb Bool.eqb orb]. rewrite prop_defined by exact Hchunk.
    rewrite Htype. cbn [is_str String.eqb Ascii.eqb Bool.eqb].
    destruct (truthy (field chunk "created")).
    + do 2 eexists. split; [reflexivity|]. repeat split.
    + unfold Date_now_call. do 2 eexists. split; [reflexivity|]. repeat split.
  - intros Hchoices Hcontent.
    assert (Hchunk : nullish chunk = false).
    { destruct chunk; try reflexivity; simpl in Hchoices; discriminate. }
    unfold convertStreamChunk, streamChunkToStandardFormat, bindIO, lift, retIO.
    cbn [String.eqb Ascii.eqb Bool.eqb orb]. rewrite prop_defined by exact Hchunk.
    unfold delta_content in Hcontent.
    assert (E : streamChunkFromStandardFormat chunk "gemini" = Ok chunk).
    { unfold streamChunkFromStandardFormat.
      cbn [String.eqb Ascii.eqb Bool.eqb orb]. rewrite prop_defined by exact Hchunk.
      rewrite Hchoices. cbn [bindR]. rewrite index_defined by reflexivity. cbn [bindR].
      rewrite Hcontent. reflexivity. }
    destruct (truthy (field chunk "created")).
    + eexists. rewrite E. reflexivity.
    + unfold Date_now_call. eexists. rewrite E. reflexivity.
Qed.

(** X5. A Gemini-shaped chunk that carries text becomes an Anthropic
    [content_block_delta] event with that text, whatever its finishReason:
    the last chunk of a Gemini stream, which carries text and finishReason
    "STOP" together, gives no [message_stop] event. *)
Theorem gemini_text_chunk_for_anthropic (text : string) (finishReason : value) (w : world)
    (Htext : text <> "")
    (Hfinish : finish_reason_ok finishReason) :
  convertStreamChunk (gemini_chunk text finishReason) "gemini" "anthropic" w
  = (tick w, Ok (content_block_delta text)).
Proof.
  assert (Ht : (text =? "") = false) by (now apply String.eqb_neq).
  unfold convertStreamChunk, streamChunkToStandardFormat, bindIO, lift, retIO, gemini_chunk.
  cbn [String.eqb Ascii.eqb Bool.eqb orb].
  assert (T : truthy (str text) = true) by (simpl; now rewrite Ht).
  assert (J : js_or (str text) (str "") = str text) by (unfold js_or; now rewrite T).
  destruct Hfinish as [H|H]; destruct finishReason; try discriminate;
    cbn; rewrite J, T; reflexivity.
Qed.

End GeminiChunks.

Lemma finish_chunk_stays_in_ir_shape_for_gemini_witness :
  (exists w' ir,
     convertStreamChunk (P := Reference.platform) message_stop "anthropic" "gemini" start
     = (w', Ok ir)
     /\ field ir "object" = str "chat.completion.chunk"
     /\ field ir "choices" = VArr [stop_choice]
     /\ field ir "candidates" = VUndefined)
  /\ (exists w',
        convertStreamChunk (P := Reference.platform)
          (obj [ ("id", str "chatcmpl-1"); ("choices", VArr [stop_choice]) ])
          "openai" "gemini" start
        = (w', Ok (obj [ ("id", str "chatcmpl-1"); ("choices", VArr [stop_choice]) ]))).
Proof.
  split.
  - exact (proj1 (finish_chunk_stays_in_ir_shape_for_gemini (P := Reference.platform)
                    message_stop [] start) eq_refl eq_refl).
  - exact (proj2 (finish_chunk_stays_in_ir_shape_for_gemini (P := Reference.platform)
                    (obj [ ("id", str "chatcmpl-1"); ("choices", VArr [stop_choice]) ])
                    [stop_choice] start) eq_refl eq_refl).
Defined.

Lemma gemini_text_chunk_for_anthropic_witness :
  convertStreamChunk (P := Reference.platform) (gemini_chunk "Hi" (str "STOP"))
    "gemini" "anthropic" start
  = (tick start, Ok (content_block_delta "Hi")).
Proof.
  apply (gemini_text_chunk_for_anthropic (P := Reference.platform) "Hi" (str "STOP") start).
  - discriminate.
  - right. reflexivity.
Defined.

(** ** Responses at the edges *)

Section ResponseEdges.
Context {P : Platform}.

(** X6. An OpenAI-shaped response that has [choices] but no [usage] cannot
    be converted to the Anthropic shape: the conversion throws a TypeError
    (the clock has been read once).  The Gemini shape, which reports no
    usage, does not need it. *)
Theorem anthropic_response_needs_usage (response : value) (choices : list value) (w : world)
    (Hchoices : field response "choices" = VArr choices)
    (Husage : nullish (field response "usage") = true) :
  convertResponse response "openai" "anthropic" w = (tick w, Throw TypeError)
  /\ (finish_reason_ok (opt_prop (item (VArr choices) 0) "finish_reason") ->
      exists out, convertResponse response "openai" "gemini" w = (tick w, Ok out)).
Proof.
  assert (Hresponse : nullish response = false).
  { destruct response; try reflexivity; simpl in Hchoices; discriminate. }
  unfold convertResponse, responseToStandardFormat, bindIO, Date_now_call, retIO, lift.
  cbn [String.eqb Ascii.eqb Bool.eqb orb]. fold (tick w).
  unfold responseFromStandardFormat. cbn [String.eqb Ascii.eqb Bool.eqb orb].
  rewrite prop_defined by exact Hresponse. rewrite Hchoices. cbn [bindR].
  rewrite index_defined by reflexivity. cbn [bindR].
  split.
  - unfold prop. rewrite Husage. reflexivity.
  - intros [H|H]; destruct (opt_prop (item (VArr choices) 0) "finish_reason");
      try discriminate; eexists; reflexivity.
Qed.

(** X7. A Gemini-shaped response without candidates (none, or an empty
    list) is not an error: for an Anthropic-shaped client it becomes a
    message with the empty text, stop_reason "end_turn" and a usage of
    zero tokens, whose id is "gemini-" followed by the second reading of
    the clock. *)
Theorem gemini_response_without_candidates (response : value) (w : world)
    (Hresponse : nullish response = false)
    (Hnone : truthy (field response "candidates")
             && length_positive (field response "candidates") = false) :
  convertResponse response "gemini" "anthropic" w
  = (tick (tick w),
     Ok (obj [ ("id", str ("gemini-" ++ Number_toString (Date_now (S (now_calls w)))));
               ("type", str "message");
               ("role", str "assistant");
               ("content", VArr [ obj [ ("type", str "text"); ("text", str "") ] ]);
               ("model", str "gemini");
               ("stop_reason", str "end_turn");
               ("usage", obj [ ("input_tokens", num 0); ("output_tokens", num 0) ]) ])).
Proof.
  unfold convertResponse, responseToStandardFormat, bindIO, Date_now_call, retIO, lift.
  cbn [String.eqb Ascii.eqb Bool.eqb orb now_calls written closed].
  rewrite prop_defined by exact Hresponse. rewrite Hnone.
  reflexivity.
Qed.

End ResponseEdges.

Lemma anthropic_response_needs_usage_witness :
  convertResponse (P := Reference.platform)
    (obj [ ("id", str "chatcmpl-1");
           ("choices", VArr [ obj [ ("message", text_message "assistant" "Hi") ] ]) ])
    "openai" "anthropic" start
  = (tick start, Throw TypeError)
  /\ exists out,
       convertResponse (P := Reference.platform)
         (obj [ ("id", str "chatcmpl-1");
                ("choices", VArr [ obj [ ("message", text_message "assistant" "Hi") ] ]) ])
         "openai" "gemini" start
       = (tick start, Ok out).
Proof.
  pose proof (anthropic_response_needs_usage (P := Reference.platform)
                (obj [ ("id", str "chatcmpl-1");
                       ("choices",
                        VArr [ obj [ ("message", text_message "assistant" "Hi") ] ]) ])
                _ start eq_refl eq_refl) as [H1 H2].
  split; [exact H1|]. apply H2. left. reflexivity.
Defined.

Lemma gemini_response_without_candidates_witness :
  convertResponse (P := Reference.platform)
    (obj [ ("promptFeedback", obj [ ("blockReason", str "SAFETY") ]) ])
    "gemini" "anthropic" start
  = (tick (tick start),
     Ok (obj [ ("id", str "gemini-1700000000001");
               ("type", str "message");
               ("role", str "assistant");
               ("content", VArr [ obj [ ("type", str "text"); ("text", str "") ] ]);
               ("model", str "gemini");
               ("stop_reason", str "end_turn");
               ("usage", obj [ ("input_tokens", num 0); ("output_tokens", num 0) ]) ])).
Proof.
  refine (eq_trans
            (gemini_response_without_candidates (P := Reference.platform)
               (obj [ ("promptFeedback", obj [ ("blockReason", str "SAFETY") ]) ])
               start eq_refl eq_refl) _).
  vm_compute; reflexivity.
Defined.

(** ** What a converted request holds *)

Lemma Ok_inj {A : Type} (a b : A) : Ok a = Ok b -> a = b.
Proof.
  intros H.
  exact (f_equal (fun r => match r with Ok v => v | Throw _ => a end) H).
Qed.

Lemma truthy_js_or (a b : value) : truthy b = true -> truthy (js_or a b) = true.
Proof. intros H. unfold js_or. destruct (truthy a) eqn:E; assumption. Qed.

(** Takes the computation in [H] apart: every test and every call that
    may throw is split into its cases. *)
Ltac cases_of H :=
  repeat (cbn [bindR] in H;
          match type of H with
          | Throw _ = Ok _ => discriminate H
          | context [if ?b then _ else _] => destruct b
          | context [match ?x with _ => _ end] => destruct x
          | context [bindR ?r _] =>
              lazymatch r with
              | bindR _ _ => fail
              | _ => destruct r
              end
          end).

Section ConvertedRequests.
Context {P : Platform}.

(** X8. The IR of a request never holds a falsy [max_tokens] or
    [temperature], nor falsy [messages], whatever the source format.  For
    the OpenAI and Anthropic shapes (and any format other than Gemini's)
    the adapter returns for every request that is not null or undefined,
    with the client's [max_tokens] and [temperature] where they are truthy
    and with 2048 and 0.7 where they are missing, null or zero; on null
    and undefined it throws a TypeError. *)
Theorem toStandardFormat_defaults (request : value) (sourceFormat : string) :
  (nullish request = true -> toStandardFormat request sourceFormat = Throw TypeError)
  /\ (nullish request = false -> sourceFormat <> "gemini" ->
      exists standard,
        toStandardFormat request sourceFormat = Ok standard
        /\ field standard "max_tokens" = js_or (field request "max_tokens") (num 2048)
        /\ field standard "temperature"
           = js_or (field request "temperature") (num seven_tenths))
  /\ (forall standard,
        toStandardFormat request sourceFormat = Ok standard ->
        truthy (field standard "messages") = true
        /\ truthy (field standard "max_tokens") = true
        /\ truthy (field standard "temperature") = true).
Proof.
  assert (T1 : forall a, truthy (js_or a (VArr [])) = true)
    by (intros a; now apply truthy_js_or).
  assert (T2 : forall a, truthy (js_or a (num 2048)) = true)
    by (intros a; now apply truthy_js_or).
  assert (T3 : forall a, truthy (js_or a (num seven_tenths)) = true)
    by (intros a; now apply truthy_js_or).
  split; [|split].
  - intros H. unfold toStandardFormat, prop. rewrite H. reflexivity.
  - intros H Hformat. apply String.eqb_neq in Hformat.
    unfold toStandardFormat. rewrite prop_defined by exact H. cbn [bindR].
    rewrite Hformat.
    destruct ((sourceFormat =? "openai") || (sourceFormat =? "openrouter"));
      [eexists; repeat split|].
    destruct (sourceFormat =? "anthropic"); [|eexists; repeat split].
    destruct (truthy (field request "system")); eexists; repeat split.
  - intros standard H. unfold toStandardFormat in H.
    destruct (prop request "model") as [model|e]; [|discriminate]. cbn [bindR] in H.
    destruct ((sourceFormat =? "openai") || (sourceFormat =? "openrouter")).
    { apply Ok_inj in H. subst standard.
      cbn [field obj lookup assign String.eqb Ascii.eqb Bool.eqb]. auto. }
    destruct (sourceFormat =? "anthropic").
    { destruct (truthy (field request "system")); apply Ok_inj in H; subst standard;
        cbn [field obj lookup assign String.eqb Ascii.eqb Bool.eqb]; auto. }
    destruct (sourceFormat =? "gemini").
    2:{ apply Ok_inj in H. subst standard.
        cbn [field obj lookup assign String.eqb Ascii.eqb Bool.eqb]. auto. }
    destruct (truthy (field request "contents")).
    + unfold Array_map at 1 in H.
      destruct (field request "contents") as [| | | | |contents|]; try discriminate.
      destruct (mapR _ contents) as [messages|e]; [|discriminate]. cbn [bindR] in H.
      destruct (truthy (field request "generationConfig"));
        cbn [field obj lookup assign String.eqb Ascii.eqb Bool.eqb] in H;
        destruct (negb (truthy (js_or model (str "")))); apply Ok_inj in H; subst standard;
        cbn [field obj lookup assign String.eqb Ascii.eqb Bool.eqb]; auto.
    + cbn [bindR] in H.
      destruct (truthy (field request "generationConfig"));
        cbn [field obj lookup assign String.eqb Ascii.eqb Bool.eqb] in H;
        destruct (negb (truthy (js_or model (str "")))); apply Ok_inj in H; subst standard;
        cbn [field obj lookup assign String.eqb Ascii.eqb Bool.eqb]; auto.
Qed.

(** X9. A converted request holds the fields the adapters know and
    nothing else: [model], [messages], [max_tokens], [temperature] and
    [stream] for an OpenAI-shaped target, the same and possibly [system]
    for the Anthropic shape, [contents] and [generationConfig] for the
    Gemini shape.  Whatever else the client sent ([tools], [top_p], stop
    sequences) is not passed on; the Gemini shape carries no model. *)
Theorem converted_request_fields (requestBody : value) (sourceFormat targetFormat : string)
    (originalRequest : option Request) (platform : option string) (out : value)
    (Hout : convertRequest requestBody sourceFormat targetFormat originalRequest platform
            = Ok out) :
  (targetFormat = "openai" \/ targetFormat = "openrouter" -> keys out = request_fields)
  /\ (targetFormat = "anthropic" ->
      keys out = request_fields \/ keys out = (request_fields ++ ["system"])%list)
  /\ (targetFormat = "gemini" -> keys out = ["contents"; "generationConfig"]).
Proof.
  unfold convertRequest in Hout.
  destruct (toStandardFormat requestBody sourceFormat) as [standard|e]; [|discriminate].
  cbn [bindR] in Hout. unfold fromStandardFormat in Hout.
  split; [|split].
  - intros Ht.
    assert (E : (targetFormat =? "openai") || (targetFormat =? "openrouter") = true)
      by (destruct Ht; subst; reflexivity).
    rewrite E in Hout. cases_of Hout; apply Ok_inj in Hout; subst out; reflexivity.
  - intros ->. cbn [String.eqb Ascii.eqb Bool.eqb orb] in Hout.
    cases_of Hout; apply Ok_inj in Hout; subst out; auto.
  - intros ->. cbn [String.eqb Ascii.eqb Bool.eqb orb] in Hout.
    cases_of Hout; apply Ok_inj in Hout; subst out; reflexivity.
Qed.

End ConvertedRequests.

Lemma toStandardFormat_defaults_witness :
  toStandardFormat (P := Reference.platform) VNull "openai" = Throw TypeError
  /\ (exists standard,
        toStandardFormat (P := Reference.platform) zero_temperature_request "anthropic"
        = Ok standard
        /\ field standard "max_tokens"
           = js_or (field zero_temperature_request "max_tokens") (num 2048)
        /\ field standard "temperature"
           = js_or (field zero_temperature_request "temperature") (num seven_tenths))
  /\ truthy (field (obj [ ("messages", VArr []);
                          ("model", str "gemini-pro");
                          ("max_tokens", num 2048);
                          ("temperature", num seven_tenths);
                          ("stream", VBool false) ]) "temperature") = true.
Proof.
  split; [|split].
  - exact (proj1 (toStandardFormat_defaults (P := Reference.platform) VNull "openai") eq_refl).
  - apply (proj1 (proj2 (toStandardFormat_defaults (P := Reference.platform)
                           zero_temperature_request "anthropic"))).
    + reflexivity.
    + discriminate.
  - apply (proj2 (proj2 (toStandardFormat_defaults (P := Reference.platform)
                           (obj [ ("generationConfig", obj [ ("temperature", num 0) ]) ])
                           "gemini"))).
    reflexivity.
Defined.

Lemma converted_request_fields_witness :
  exists out,
    convertRequest (P := Reference.platform) tools_request "openai" "anthropic" None None
    = Ok out
    /\ (keys out = request_fields \/ keys out = (request_fields ++ ["system"])%list).
Proof.
  eexists. split; [reflexivity|].
  apply (proj1 (proj2 (converted_request_fields (P := Reference.platform)
                         tools_request "openai" "anthropic" None None _ eq_refl))).
  reflexivity.
Defined.

(** ** Requests for Gemini *)

Lemma mapR_map {A B : Type} (f : A -> result B) (g : A -> B) (Q : A -> Prop) (xs : list A) :
  (forall x, Q x -> f x = Ok (g x)) -> Forall Q xs -> mapR f xs = Ok (map g xs).
Proof.
  intros Hf. induction 1 as [|x r Hx _ IH]; [reflexivity|].
  cbn [mapR map]. rewrite (Hf x Hx), IH. reflexivity.
Qed.

Lemma mapR_back {A B : Type} (f : B -> result A) (g : A -> B) (Q : A -> Prop) (xs : list A) :
  (forall x, Q x -> f (g x) = Ok x) -> Forall Q xs -> mapR f (map g xs) = Ok xs.
Proof.
  intros Hf. induction 1 as [|x r Hx _ IH]; [reflexivity|].
  cbn [mapR map]. rewrite (Hf x Hx), IH. reflexivity.
Qed.

Section GeminiRequests.
Context {P : Platform}.

(** X10. A request converted to the Gemini shape depends on the client's
    [messages], [max_tokens] and [temperature] only: two OpenAI-shaped or
    Anthropic-shaped requests that agree on these three convert to the same
    Gemini request (or fail alike), so the model, the stream flag and the
    top-level system prompt of an Anthropic-shaped request are not passed
    on. *)
Theorem gemini_request_ignores_the_rest (request request' : value)
    (sourceFormat : string) (originalRequest : option Request) (platform : option string)
    (Hformat : sourceFormat = "openai" \/ sourceFormat = "anthropic")
    (Hrequest : nullish request = false)
    (Hrequest' : nullish request' = false)
    (Hmessages : field request "messages" = field request' "messages")
    (Hmax : field request "max_tokens" = field request' "max_tokens")
    (Htemperature : field request "temperature" = field request' "temperature") :
  convertRequest request sourceFormat "gemini" originalRequest platform
  = convertRequest request' sourceFormat "gemini" originalRequest platform.
Proof.
  unfold convertRequest, toStandardFormat.
  rewrite !prop_defined by assumption. cbn [bindR].
  destruct Hformat as [-> | ->]; cbn [String.eqb Ascii.eqb Bool.eqb orb].
  - unfold fromStandardFormat. cbn [String.eqb Ascii.eqb Bool.eqb orb bindR].
    cbn [prop nullish obj field lookup assign String.eqb Ascii.eqb Bool.eqb bindR].
    rewrite Hmessages, Hmax, Htemperature. reflexivity.
  - destruct (truthy (field request "system")); destruct (truthy (field request' "system"));
      unfold fromStandardFormat; cbn [String.eqb Ascii.eqb Bool.eqb orb bindR];
      cbn [prop nullish obj field lookup assign String.eqb Ascii.eqb Bool.eqb bindR];
      rewrite Hmessages, Hmax, Htemperature; reflexivity.
Qed.

(** X11. A conversation of user and assistant turns with string contents
    survives the way through the Gemini shape: converting the IR to a
    Gemini request and reading that back gives the same messages and the
    same (truthy) [max_tokens] and [temperature].  The model does not
    survive: it comes back as "gemini-pro", and [stream] as false. *)
Theorem gemini_request_round_trip (standard : value) (messages : list value)
    (originalRequest : option Request) (platform : option string)
    (Hmessages : field standard "messages" = VArr messages)
    (Hturns : Forall chat_turn messages)
    (Hmax : truthy (field standard "max_tokens") = true)
    (Htemperature : truthy (field standard "temperature") = true) :
  exists wire,
    fromStandardFormat standard "gemini" originalRequest platform = Ok wire
    /\ toStandardFormat wire "gemini"
       = Ok (obj [ ("messages", VArr messages);
                   ("model", str "gemini-pro");
                   ("max_tokens", field standard "max_tokens");
                   ("temperature", field standard "temperature");
                   ("stream", VBool false) ]).
Proof.
  assert (Hstandard : nullish standard = false).
  { destruct standard; try reflexivity; simpl in Hmessages; discriminate. }
  pose (g := fun msg =>
               obj [ ("role", str (if is_str (field msg "role") "user" then "user" else "model"));
                     ("parts", VArr [obj [("text", field msg "content")]]) ]).
  eexists. split.
  - unfold fromStandardFormat. cbn [String.eqb Ascii.eqb Bool.eqb orb].
    rewrite prop_defined by exact Hstandard. cbn [bindR]. rewrite Hmessages.
    unfold Array_map.
    rewrite (mapR_map _ g chat_turn messages); [reflexivity| |exact Hturns].
    intros x [content [-> | ->]]; reflexivity.
  - unfold toStandardFormat. cbn [String.eqb Ascii.eqb Bool.eqb orb].
    cbn [prop nullish obj bindR field lookup String.eqb Ascii.eqb Bool.eqb truthy].
    unfold Array_map at 1.
    rewrite (mapR_back _ g chat_turn messages); [| |exact Hturns].
    + cbn [bindR assign String.eqb Ascii.eqb Bool.eqb field obj lookup].
      rewrite (js_or_truthy _ _ Hmax), (js_or_truthy _ _ Htemperature). reflexivity.
    + intros x [content [-> | ->]]; reflexivity.
Qed.

End GeminiRequests.

Lemma gemini_request_ignores_the_rest_witness :
  convertRequest (P := Reference.platform) two_system_request "anthropic" "gemini" None None
  = convertRequest (P := Reference.platform)
      (obj [ ("messages", VArr two_system_messages);
             ("max_tokens", num 1000);
             ("temperature", num 1);
             ("system", str "Answer in French.");
             ("stream", VBool true) ])
      "anthropic" "gemini" None None.
Proof.
  apply (gemini_request_ignores_the_rest (P := Reference.platform)); try reflexivity.
  right. reflexivity.
Defined.

Lemma gemini_request_round_trip_witness :
  exists wire,
    fromStandardFormat (P := Reference.platform)
      (obj [ ("messages", VArr two_turns);
             ("model", str "gpt-4");
             ("max_tokens", num 1000);
             ("temperature", num 1);
             ("stream", VBool true) ])
      "gemini" None None = Ok wire
    /\ toStandardFormat (P := Reference.platform) wire "gemini"
       = Ok (obj [ ("messages", VArr two_turns);
                   ("model", str "gemini-pro");
                   ("max_tokens", num 1000);
                   ("temperature", num 1);
                   ("stream", VBool false) ]).
Proof.
  apply (gemini_request_round_trip (P := Reference.platform)
           (obj [ ("messages", VArr two_turns);
                  ("model", str "gpt-4");
                  ("max_tokens", num 1000);
                  ("temperature", num 1);
                  ("stream", VBool true) ])
           two_turns None None).
  - reflexivity.
  - repeat constructor; eexists; [left|right]; reflexivity.
  - reflexivity.
  - reflexivity.
Defined.

(** ** Removing cache control twice *)

Lemma remove_remove (k : string) (fs : props) : remove k (remove k fs) = remove k fs.
Proof.
  unfold remove. induction fs as [|[k' v] r IH]; [reflexivity|].
  cbn [filter fst]. destruct (negb (k' =? k)) eqn:E; [|exact IH].
  cbn [filter fst]. rewrite E, IH. reflexivity.
Qed.

Lemma assign_assign (k : string) (v : value) (fs : props) :
  assign k v (assign k v fs) = assign k v fs.
Proof. apply assign_same, lookup_assign_same. Qed.

Lemma mapR_fixed {A : Type} (f : A -> result A) (xs ys : list A) :
  (forall x y, f x = Ok y -> f y = Ok y) -> mapR f xs = Ok ys -> mapR f ys = Ok ys.
Proof.
  intros Hf. revert ys. induction xs as [|x xs IH]; cbn [mapR]; intros ys H.
  - apply Ok_inj in H. subst ys. reflexivity.
  - destruct (f x) as [y|e] eqn:E; [|discriminate].
    destruct (mapR f xs) as [ys'|e]; [|discriminate].
    apply Ok_inj in H. subst ys. cbn [mapR].
    rewrite (Hf _ _ E), (IH ys' eq_refl). reflexivity.
Qed.

Lemma cleaned_message_fixed (message cleaned : value) :
  let clean message :=
    content <- prop message "content" ;;
    if typeof_string content then Ok message
    else
      match content with
      | VArr _ =>
          cleanContent <-
            Array_map
              (fun part =>
                 if nullish part then Throw TypeError
                 else Ok (obj (remove "cache_control" (own_props part))))
              content ;;
          Ok (obj (assign "content" cleanContent (own_props message)))
      | _ => Ok message
      end in
  clean message = Ok cleaned -> clean cleaned = Ok cleaned.
Proof.
  intros clean. unfold clean, prop.
  destruct (nullish message) eqn:N; [discriminate|]. cbn [bindR].
  destruct (field message "content") as [| |b|n|s|parts|fs] eqn:E; cbn [typeof_string];
    try (intros H; apply Ok_inj in H; subst cleaned; rewrite N; cbn [bindR]; rewrite E;
         reflexivity).
  unfold Array_map. cbn [bindR].
  destruct (mapR _ parts) as [parts'|e] eqn:M; [|discriminate].
  cbn [bindR]. intros H. apply Ok_inj in H. subst cleaned.
  cbn [nullish obj bindR]. rewrite field_assign_same. cbn [typeof_string bindR].
  rewrite (mapR_fixed _ parts parts'); [|clear|exact M].
  - cbn [bindR own_props obj]. now rewrite assign_assign.
  - intros part part'. destruct (nullish part); [discriminate|].
    intros H. apply Ok_inj in H. subst part'.
    cbn [nullish obj own_props]. now rewrite remove_remove.
Qed.

(** X12. Removing the cache control annotations is idempotent: what
    [removeCacheControlFromMessages] returns, it returns unchanged when it
    is applied again. *)
Theorem removeCacheControlFromMessages_idempotent (messages cleaned : value)
    (Hcleaned : removeCacheControlFromMessages messages = Ok cleaned) :
  removeCacheControlFromMessages cleaned = Ok cleaned.
Proof.
  unfold removeCacheControlFromMessages in *.
  destruct (negb (truthy messages) || length_is_zero messages) eqn:E.
  - apply Ok_inj in Hcleaned. subst cleaned. now rewrite E.
  - unfold Array_map in *. destruct messages as [| |b|n|s|ms|fs]; try discriminate.
    destruct (mapR _ ms) as [ms'|e] eqn:M; [|discriminate].
    cbn [bindR] in Hcleaned. apply Ok_inj in Hcleaned. subst cleaned.
    destruct ms' as [|m ms']; [reflexivity|].
    cbn [truthy negb length_is_zero orb].
    rewrite (mapR_fixed _ ms (m :: ms')); [reflexivity| |exact M].
    intros x y. apply cleaned_message_fixed.
Qed.

Lemma removeCacheControlFromMessages_idempotent_witness :
  exists cleaned,
    removeCacheControlFromMessages (field hello_request "messages") = Ok cleaned
    /\ removeCacheControlFromMessages cleaned = Ok cleaned.
Proof.
  eexists. split; [reflexivity|].
  apply (removeCacheControlFromMessages_idempotent (field hello_request "messages")).
  reflexivity.
Defined.

(** ** The target URL *)

Lemma includes_char (c d : ascii) (r : string) :
  includes (String c r) (String d "") = Ascii.eqb c d || includes r (String d "").
Proof.
  cbn [includes String.prefix].
  destruct (ascii_dec d c) as [->|N].
  - rewrite Ascii.eqb_refl. destruct r; reflexivity.
  - assert (E : Ascii.eqb c d = false).
    { apply Ascii.eqb_neq. intros ->. now apply N. }
    rewrite E. reflexivity.
Qed.

Lemma includes_char_app (a r : string) (c : ascii) :
  includes (a ++ String c r) (String c "") = true.
Proof.
  induction a as [|x a IH].
  - cbn [append]. rewrite includes_char, Ascii.eqb_refl. reflexivity.
  - change (String x a ++ String c r) with (String x (a ++ String c r)).
    rewrite includes_char, IH. apply orb_true_r.
Qed.

Lemma substitution_plain (matched before after text : string) :
  no_dollar text -> substitution matched before after text = text.
Proof.
  unfold no_dollar. induction text as [|c r IH]; [reflexivity|].
  rewrite includes_char. intros H. apply orb_false_iff in H. destruct H as [Hc Hr].
  cbn [substitution]. rewrite Hc, (IH Hr). reflexivity.
Qed.

Lemma split_on_plain (c : ascii) (s : string) :
  includes s (String c "") = false -> split_on c s = [s].
Proof.
  induction s as [|x r IH]; [reflexivity|].
  rewrite includes_char. intros H. apply orb_false_iff in H. destruct H as [Hx Hr].
  cbn [split_on]. rewrite Hx, (IH Hr). reflexivity.
Qed.

Lemma split_on_app (c : ascii) (a rest : string) :
  includes a (String c "") = false ->
  split_on c (a ++ String c rest) = a :: split_on c rest.
Proof.
  induction a as [|x r IH].
  - intros _. cbn [append split_on]. now rewrite Ascii.eqb_refl.
  - rewrite includes_char. intros H. apply orb_false_iff in H. destruct H as [Hx Hr].
    change (String x r ++ String c rest) with (String x (r ++ String c rest)).
    cbn [split_on]. rewrite Hx, (IH Hr). reflexivity.
Qed.

Section TargetUrl.
Context {P : Platform}.

Lemma gemini_endpoint (name : string) :
  no_dollar name ->
  String_replace "/v1beta/models/{model}:generateContent" "{model}" name
  = "/v1beta/models/" ++ name ++ ":generateContent".
Proof.
  intros Hname. unfold String_replace.
  change (cut_at "{model}" "/v1beta/models/{model}:generateContent")
    with (Some ("/v1beta/models/", ":generateContent")).
  cbv iota. now rewrite substitution_plain.
Qed.

Lemma buildTargetUrl_gemini_name (model name : string) :
  no_dollar name ->
  (if includes model "/" then VStr (nth 1 (split_on "/" model) "") else str model) = str name ->
  buildTargetUrl (targetConfig "gemini") (str model) "gemini" = Ok (gemini_url name).
Proof.
  intros Hname Hmodel. unfold buildTargetUrl. cbn [String.eqb Ascii.eqb Bool.eqb str].
  rewrite Hmodel. cbn [bindR].
  change (prop (targetConfig "gemini") "baseUrl")
    with (Ok (str "https://generativelanguage.googleapis.com")).
  change (field (targetConfig "gemini") "endpoint")
    with (VStr "/v1beta/models/{model}:generateContent").
  cbn [bindR ToString str]. now rewrite gemini_endpoint.
Qed.

(** X13. The URL for the Gemini platform is built from the model of the
    request: without a model (or with one that is neither a string nor a
    list) [buildTargetUrl] throws a TypeError; a model name without a slash
    is put into the path of [generateContent], and of a name of the form
    vendor/name the part after the slash is used.  (A dollar sign in the
    name would be read as a replacement pattern, hence the condition.) *)
Theorem buildTargetUrl_gemini (config model : value) (vendor name : string)
    (Hvendor : no_slash vendor)
    (Hslash : no_slash name)
    (Hdollar : no_dollar name) :
  (typeof_string model = false -> Array_isArray model = false ->
   buildTargetUrl config model "gemini" = Throw TypeError)
  /\ buildTargetUrl (targetConfig "gemini") (str name) "gemini" = Ok (gemini_url name)
  /\ buildTargetUrl (targetConfig "gemini") (str (vendor ++ "/" ++ name)) "gemini"
     = Ok (gemini_url name).
Proof.
  split; [|split].
  - intros Hs Ha. destruct model; try discriminate; reflexivity.
  - apply buildTargetUrl_gemini_name; [exact Hdollar|].
    unfold no_slash in Hslash. now rewrite Hslash.
  - apply buildTargetUrl_gemini_name; [exact Hdollar|].
    change (vendor ++ "/" ++ name) with (vendor ++ String "/" name).
    rewrite includes_char_app, (split_on_app "/" vendor name Hvendor).
    rewrite (split_on_plain "/" name Hslash). reflexivity.
Qed.

(** X14. No request can be converted for the Gemini platform: the
    Gemini-shaped request that [convertRequest] makes has no model, the
    model mapping leaves it as it is, and building the target URL from its
    model throws a TypeError; [handleRequest] answers with its Internal
    Error response. *)
Theorem gemini_platform_conversion_fails (requestBody : value) (clientFormat : string)
    (request : Request) (converted : value)
    (Hconverted : convertRequest requestBody clientFormat "gemini"
                    (Some request) (Some "gemini") = Ok converted) :
  applyModelMapping converted "gemini" = Ok (Some converted)
  /\ field converted "model" = VUndefined
  /\ buildTargetUrl (targetConfig "gemini") (field converted "model") "gemini"
     = Throw TypeError.
Proof.
  unfold convertRequest in Hconverted.
  destruct (toStandardFormat requestBody clientFormat) as [standard|e]; [|discriminate].
  cbn [bindR] in Hconverted. unfold fromStandardFormat in Hconverted.
  cbn [String.eqb Ascii.eqb Bool.eqb orb] in Hconverted.
  cases_of Hconverted. apply Ok_inj in Hconverted. subst converted.
  repeat split.
Qed.

End TargetUrl.

Lemma buildTargetUrl_gemini_witness :
  buildTargetUrl (P := Reference.platform) (targetConfig "gemini") VUndefined "gemini"
  = Throw TypeError
  /\ buildTargetUrl (P := Reference.platform) (targetConfig "gemini")
       (str "gemini-1.5-flash") "gemini"
     = Ok (gemini_url "gemini-1.5-flash")
  /\ buildTargetUrl (P := Reference.platform) (targetConfig "gemini")
       (str ("models" ++ "/" ++ "gemini-1.5-flash")) "gemini"
     = Ok (gemini_url "gemini-1.5-flash").
Proof.
  pose proof (buildTargetUrl_gemini (P := Reference.platform) (targetConfig "gemini")
                VUndefined "models" "gemini-1.5-flash" eq_refl eq_refl eq_refl)
    as [H1 [H2 H3]].
  split; [exact (H1 eq_refl eq_refl)|]. split; [exact H2|exact H3].
Defined.

Lemma gemini_platform_conversion_fails_witness :
  exists converted,
    convertRequest (P := Reference.platform) two_system_request "anthropic" "gemini"
      (Some caching_request) (Some "gemini") = Ok converted
    /\ buildTargetUrl (P := Reference.platform) (targetConfig "gemini")
         (field converted "model") "gemini"
       = Throw TypeError.
Proof.
  eexists. split; [reflexivity|].
  apply (gemini_platform_conversion_fails (P := Reference.platform)
           two_system_request "anthropic" caching_request _ eq_refl).
Defined.

(** ** The target headers *)

Lemma substitution_app (matched before after a rest : string) :
  no_dollar a ->
  substitution matched before after (a ++ rest)
  = a ++ substitution matched before after rest.
Proof.
  unfold no_dollar. induction a as [|c r IH]; [reflexivity|].
  rewrite includes_char. intros H. apply orb_false_iff in H. destruct H as [Hc Hr].
  change (String c r ++ rest) with (String c (r ++ rest)).
  cbn [substitution]. rewrite Hc, (IH Hr). reflexivity.
Qed.

Lemma bearer_headers (platform token : string) (originalRequest : option Request) :
  bearer_platform platform ->
  buildTargetHeaders (targetConfig platform) token "openai" originalRequest
  = Ok (obj [ ("Authorization", str (String_replace "Bearer {token}" "{token}" token));
              ("Content-Type", str "application/json") ]).
Proof.
  intros [-> | [-> | ->]]; destruct originalRequest; reflexivity.
Qed.

(** X15. For the platforms that take a bearer token (OpenAI, OpenRouter,
    Groq) the target headers are [Authorization: Bearer <token>] and the
    JSON content type, whatever the client's request held, provided the
    token holds no dollar sign.  The token is put in with [replace], which
    reads a dollar sign as a replacement pattern: a token with two dollar
    signs in a row is sent with one of them. *)
Theorem bearer_token_header (platform token front back : string)
    (originalRequest : option Request)
    (Hplatform : bearer_platform platform)
    (Htoken : no_dollar token)
    (Hfront : no_dollar front)
    (Hback : no_dollar back) :
  buildTargetHeaders (targetConfig platform) token "openai" originalRequest
  = Ok (obj [ ("Authorization", str ("Bearer " ++ token));
              ("Content-Type", str "application/json") ])
  /\ buildTargetHeaders (targetConfig platform) (front ++ "$$" ++ back) "openai"
       originalRequest
     = Ok (obj [ ("Authorization", str ("Bearer " ++ front ++ "$" ++ back));
                 ("Content-Type", str "application/json") ]).
Proof.
  rewrite !bearer_headers by exact Hplatform. unfold String_replace.
  change (cut_at "{token}" "Bearer {token}") with (Some ("Bearer ", "")).
  cbv iota. split.
  - rewrite substitution_plain by exact Htoken. now rewrite append_nil_r.
  - rewrite substitution_app by exact Hfront.
    change ("$$" ++ back) with (String "$" (String "$" back)).
    cbn [substitution Ascii.eqb Bool.eqb].
    rewrite substitution_plain by exact Hback. now rewrite append_nil_r.
Qed.

(** X16. The token never reaches Gemini: the headers built for the Gemini
    platform are the JSON content type alone, whatever the token and the
    client's request are ([buildTargetUrl] is not given the token
    either). *)
Theorem gemini_headers_carry_no_token (token : string) (originalRequest : option Request) :
  buildTargetHeaders (targetConfig "gemini") token "gemini" originalRequest
  = Ok (obj [ ("Content-Type", str "application/json") ]).
Proof. destruct originalRequest; reflexivity. Qed.

(** X17. Of the client's request, [buildTargetHeaders] passes on the
    [anthropic-beta] and [cache-control] headers and nothing else, and
    these two for the Anthropic format only: for any other format the
    result is the same as without a request, and for the Anthropic format
    two requests that agree on these two headers give the same result.  For
    the Anthropic platform the token is the [x-api-key] header, as it is,
    beside the fixed [anthropic-version]. *)
Theorem forwarded_headers (config : value) (token format : string)
    (request request' : Request)
    (Hsame : same_forwarded_headers request request') :
  (format <> "anthropic" ->
   buildTargetHeaders config token format (Some request)
   = buildTargetHeaders config token format None)
  /\ buildTargetHeaders config token format (Some request)
     = buildTargetHeaders config token format (Some request')
  /\ buildTargetHeaders (targetConfig "anthropic") token "anthropic" None
     = Ok (obj [ ("x-api-key", str token);
                 ("anthropic-version", str "2023-06-01");
                 ("Content-Type", str "application/json") ]).
Proof.
  destruct Hsame as [Hbeta Hcache]. split; [|split].
  - intros Hformat. apply String.eqb_neq in Hformat.
    unfold buildTargetHeaders. rewrite Hformat. reflexivity.
  - unfold buildTargetHeaders. rewrite Hbeta, Hcache. reflexivity.
  - reflexivity.
Qed.

Lemma bearer_token_header_witness :
  buildTargetHeaders (targetConfig "groq") "gsk_live_1" "openai" (Some caching_request)
  = Ok (obj [ ("Authorization", str "Bearer gsk_live_1");
              ("Content-Type", str "application/json") ])
  /\ buildTargetHeaders (targetConfig "groq") ("ab" ++ "$$" ++ "cd") "openai"
       (Some caching_request)
     = Ok (obj [ ("Authorization", str "Bearer ab$cd");
                 ("Content-Type", str "application/json") ]).
Proof.
  apply (bearer_token_header "groq" "gsk_live_1" "ab" "cd" (Some caching_request)).
  - right. right. reflexivity.
  - reflexivity.
  - reflexivity.
  - reflexivity.
Defined.

Lemma forwarded_headers_witness :
  buildTargetHeaders (targetConfig "anthropic") "sk-ant-1" "anthropic"
    (Some {| headers := [ ("anthropic-beta", "prompt-caching-2024-07-31");
                          ("user-agent", "claude-cli") ] |})
  = buildTargetHeaders (targetConfig "anthropic") "sk-ant-1" "anthropic"
      (Some {| headers := [ ("x-trace", "1");
                            ("anthropic-beta", "prompt-caching-2024-07-31") ] |}).
Proof.
  apply (forwarded_headers (targetConfig "anthropic") "sk-ant-1" "anthropic").
  split; reflexivity.
Defined.

(** ** The token of a request *)


Lemma present_some (s : string) : present (Some s) = false -> s = "".
Proof. cbn [present]. intros H. apply negb_false_iff in H. now apply String.eqb_eq. Qed.





(** ** The model mapping *)

Lemma lookup_assign_other (k k' : string) (v : value) (fs : props) :
  k' <> k -> lookup k' (assign k v fs) = lookup k' fs.
Proof.
  intros N. induction fs as [|[x y] r IH]; cbn [assign lookup].
  - destruct (k =? k') eqn:E; [|reflexivity].
    apply String.eqb_eq in E. now subst.
  - destruct (x =? k) eqn:E; cbn [lookup].
    + apply String.eqb_eq in E. subst x.
      destruct (k =? k') eqn:E'; [|reflexivity].
      apply String.eqb_eq in E'. now subst.
    + now rewrite IH.
Qed.

Lemma field_assign_other (k k' : string) (v : value) (fs : props) :
  k' <> k -> field (obj (assign k v fs)) k' = field (obj fs) k'.
Proof. intros N. unfold obj, field. now rewrite lookup_assign_other. Qed.

Lemma mapping_table (platform : string) :
  platform = "openrouter" \/ platform = "groq" ->
  lookup platform API_FORMATS = Some (targetConfig platform)
  /\ truthy (targetConfig platform) = true
  /\ field (targetConfig platform) "modelMappings"
     = obj [ ("claude-sonnet-4",
              if platform =? "openrouter"
              then str "moonshotai/kimi-k2:free"
              else str "moonshotai/kimi-k2-instruct");
             ("claude-opus-4-20250514",
              if platform =? "openrouter"
              then str "moonshotai/kimi-k2:free"
              else str "moonshotai/kimi-k2-instruct") ].
Proof. intros [-> | ->]; repeat split. Qed.

Section ModelMapping.
Context {P : Platform}.

Lemma applyModelMapping_shipped (request : props) (model : string) :
  field (obj request) "model" = str model ->
  inherited model = false ->
  forall platform table,
    platform = "openrouter" \/ platform = "groq" ->
    table = (if platform =? "openrouter"
             then str "moonshotai/kimi-k2:free"
             else str "moonshotai/kimi-k2-instruct") ->
    applyModelMapping (obj request) platform
    = Ok (Some (obj (if (model =? "claude-sonnet-4")
                        || (model =? "claude-opus-4-20250514")
                     then assign "model" table request
                     else request))).
Proof.
  intros Hmodel Hown platform table Hplatform ->. unfold applyModelMapping.
  cbn [prop nullish obj bindR own_props]. rewrite Hmodel.
  destruct (mapping_table platform Hplatform) as [-> [-> ->]].
  cbn [andb truthy obj own_props lookup ToString str].
  rewrite (String.eqb_sym "claude-sonnet-4" model),
          (String.eqb_sym "claude-opus-4-20250514" model).
  destruct (model =? "") eqn:Em.
  { apply String.eqb_eq in Em. subst model. reflexivity. }
  cbn [negb].
  destruct (model =? "claude-sonnet-4");
    [destruct Hplatform as [-> | ->]; reflexivity|].
  destruct (model =? "claude-opus-4-20250514");
    [destruct Hplatform as [-> | ->]; reflexivity|].
  rewrite Hown. reflexivity.
Qed.

(** X19. The model mapping touches nothing but the model: for every
    platform and every request object whose model is not a name that
    objects inherit (such as "constructor"), [applyModelMapping] returns a
    copy of the request in which every field other than [model] is as it
    was, and it does not throw.  For a platform without a mapping table
    (any platform other than OpenRouter and Groq, known or not) the copy is
    exact, whatever the request is. *)
Theorem applyModelMapping_keeps_the_rest (request : props) (platform : string)
    (Hmodel : inherited (ToString (field (obj request) "model")) = false) :
  (exists mapped,
     applyModelMapping (obj request) platform = Ok (Some mapped)
     /\ forall k, k <> "model" -> field mapped k = field (obj request) k)
  /\ (forall body,
        platform <> "openrouter" -> platform <> "groq" ->
        applyModelMapping body platform = Ok (Some (obj (own_props body)))).
Proof.
  split.
  - unfold applyModelMapping. cbn [prop nullish obj bindR own_props].
    destruct (lookup platform API_FORMATS) as [platformConfig|];
      [|eexists; split; [reflexivity|reflexivity]].
    destruct (truthy platformConfig && truthy (field platformConfig "modelMappings"));
      [|eexists; split; [reflexivity|reflexivity]].
    destruct (truthy (field (obj request) "model"));
      [|eexists; split; [reflexivity|reflexivity]].
    destruct (lookup _ (own_props (field platformConfig "modelMappings")))
      as [mappedModel|].
    + destruct (truthy mappedModel); eexists; (split; [reflexivity|]).
      * intros k Hk. now apply field_assign_other.
      * reflexivity.
    + rewrite Hmodel. eexists. split; reflexivity.
  - intros body Hopenrouter Hgroq. unfold applyModelMapping.
    apply String.eqb_neq in Hopenrouter, Hgroq.
    rewrite String.eqb_sym in Hopenrouter. rewrite String.eqb_sym in Hgroq.
    unfold API_FORMATS. cbn [lookup].
    destruct ("openai" =? platform); [reflexivity|].
    destruct ("anthropic" =? platform); [reflexivity|].
    destruct ("gemini" =? platform); [reflexivity|].
    rewrite Hopenrouter, Hgroq. reflexivity.
Qed.

(** X20. What the shipped mapping tables do.  On OpenRouter and on Groq
    the two names "claude-sonnet-4" and "claude-opus-4-20250514" are
    replaced, by "moonshotai/kimi-k2:free" and by
    "moonshotai/kimi-k2-instruct"; the match is exact, so any other model
    name that objects do not inherit (a dated or a vendor-prefixed Claude
    name, say) is left as it is.  Mapping twice is mapping once. *)
Theorem shipped_model_mappings (request : props) (model : string)
    (Hmodel : field (obj request) "model" = str model)
    (Hown : inherited model = false) :
  (mapped_claude_name model ->
   applyModelMapping (obj request) "openrouter"
   = Ok (Some (obj (assign "model" (str "moonshotai/kimi-k2:free") request)))
   /\ applyModelMapping (obj request) "groq"
      = Ok (Some (obj (assign "model" (str "moonshotai/kimi-k2-instruct") request))))
  /\ (~ mapped_claude_name model ->
      applyModelMapping (obj request) "openrouter" = Ok (Some (obj request))
      /\ applyModelMapping (obj request) "groq" = Ok (Some (obj request)))
  /\ (forall platform mapped,
        platform = "openrouter" \/ platform = "groq" ->
        applyModelMapping (obj request) platform = Ok (Some mapped) ->
        applyModelMapping mapped platform = Ok (Some mapped)).
Proof.
  pose proof (applyModelMapping_shipped request model Hmodel Hown) as Hshape.
  assert (Hyes : mapped_claude_name model ->
                 (model =? "claude-sonnet-4") || (model =? "claude-opus-4-20250514") = true).
  { intros [-> | ->]; reflexivity. }
  assert (Hno : ~ mapped_claude_name model ->
                (model =? "claude-sonnet-4") || (model =? "claude-opus-4-20250514") = false).
  { intros H. apply orb_false_iff. split; apply String.eqb_neq; intros ->; apply H;
      [left|right]; reflexivity. }
  split; [|split].
  - intros H. rewrite (Hshape "openrouter" _ (or_introl eq_refl) eq_refl).
    rewrite (Hshape "groq" _ (or_intror eq_refl) eq_refl). rewrite (Hyes H).
    split; reflexivity.
  - intros H. rewrite (Hshape "openrouter" _ (or_introl eq_refl) eq_refl).
    rewrite (Hshape "groq" _ (or_intror eq_refl) eq_refl). rewrite (Hno H).
    split; reflexivity.
  - intros platform mapped Hplatform H.
    rewrite (Hshape platform _ Hplatform eq_refl) in H.
    destruct ((model =? "claude-sonnet-4") || (model =? "claude-opus-4-20250514")) eqn:E.
    + apply Ok_inj in H.
      apply (f_equal (fun o => match o with Some v => v | None => VNull end)) in H.
      subst mapped. unfold applyModelMapping.
      cbn [prop nullish obj bindR own_props]. rewrite field_assign_same.
      destruct Hplatform as [-> | ->]; reflexivity.
    + apply Ok_inj in H.
      apply (f_equal (fun o => match o with Some v => v | None => VNull end)) in H.
      subst mapped. apply (Hshape platform _ Hplatform eq_refl).
Qed.

End ModelMapping.

Lemma applyModelMapping_keeps_the_rest_witness :
  (exists mapped,
     applyModelMapping (P := Reference.platform) claude_sonnet_request "groq"
     = Ok (Some mapped)
     /\ forall k, k <> "model" -> field mapped k = field claude_sonnet_request k)
  /\ applyModelMapping (P := Reference.platform) VNull "mistral" = Ok (Some (obj [])).
Proof.
  pose proof (applyModelMapping_keeps_the_rest (P := Reference.platform)
                (own_props claude_sonnet_request)) as H.
  split.
  - exact (proj1 (H "groq" eq_refl)).
  - apply (proj2 (H "mistral" eq_refl) VNull); discriminate.
Defined.

Lemma shipped_model_mappings_witness :
  applyModelMapping (P := Reference.platform) claude_sonnet_request "openrouter"
  = Ok (Some (obj [ ("model", str "moonshotai/kimi-k2:free");
                    ("max_tokens", num 1000);
                    ("messages", VArr [ text_message "user" "Hello" ]);
                    ("tools", VArr [ obj [ ("name", str "search") ] ]) ]))
  /\ applyModelMapping (P := Reference.platform)
       (obj [ ("model", str "anthropic/claude-sonnet-4") ]) "openrouter"
     = Ok (Some (obj [ ("model", str "anthropic/claude-sonnet-4") ])).
Proof.
  split.
  - refine (proj1 (proj1 (shipped_model_mappings (P := Reference.platform)
                            (own_props claude_sonnet_request) "claude-sonnet-4"
                            eq_refl eq_refl) _)).
    left. reflexivity.
  - refine (proj1 (proj1 (proj2 (shipped_model_mappings (P := Reference.platform)
                                   [ ("model", str "anthropic/claude-sonnet-4") ]
                                   "anthropic/claude-sonnet-4" eq_refl eq_refl)) _)).
    intros [H|H]; discriminate.
Defined.

(** ** Cache control and the model mapping *)

Section MappedCacheControl.
Context {P : Platform}.

Lemma converted_for_openai_is_object (requestBody : value) (sourceFormat : string)
    (originalRequest : option Request) (platform : option string) (converted : value) :
  convertRequest requestBody sourceFormat "openai" originalRequest platform = Ok converted ->
  exists fields, converted = obj fields.
Proof.
  unfold convertRequest.
  destruct (toStandardFormat requestBody sourceFormat) as [standard|e]; [|discriminate].
  cbn [bindR]. unfold fromStandardFormat. cbn [String.eqb Ascii.eqb Bool.eqb orb].
  intros H. cases_of H; apply Ok_inj in H; subst converted; eexists; reflexivity.
Qed.

(** X21. On OpenRouter the cache control annotations are decided before
    the model is mapped: a request converted for OpenRouter whose model is
    one of the two mapped Claude names goes out with the model
    "moonshotai/kimi-k2:free" and with the messages exactly as the
    conversion made them, so with the [cache_control] that was added
    because the client asked for a Claude model. *)
Theorem cache_control_outlives_the_mapping (requestBody : value)
    (clientFormat model : string) (request : Request) (converted : value)
    (Hconverted : convertRequest requestBody clientFormat "openai"
                    (Some request) (Some "openrouter") = Ok converted)
    (Hmodel : field converted "model" = str model)
    (Hname : mapped_claude_name model) :
  exists mapped,
    applyModelMapping converted "openrouter" = Ok (Some mapped)
    /\ field mapped "model" = str "moonshotai/kimi-k2:free"
    /\ field mapped "messages" = field converted "messages".
Proof.
  destruct (converted_for_openai_is_object _ _ _ _ _ Hconverted) as [fields ->].
  assert (Hown : inherited model = false) by (destruct Hname as [-> | ->]; reflexivity).
  rewrite (applyModelMapping_shipped fields model Hmodel Hown "openrouter" _
             (or_introl eq_refl) eq_refl).
  assert (E : (model =? "claude-sonnet-4") || (model =? "claude-opus-4-20250514") = true)
    by (destruct Hname as [-> | ->]; reflexivity).
  rewrite E. eexists. split; [reflexivity|]. split.
  - apply field_assign_same.
  - apply field_assign_other. discriminate.
Qed.

End MappedCacheControl.

Lemma cache_control_outlives_the_mapping_witness :
  exists converted mapped,
    convertRequest (P := Reference.platform) claude_sonnet_request "anthropic" "openai"
      (Some caching_request) (Some "openrouter") = Ok converted
    /\ applyModelMapping (P := Reference.platform) converted "openrouter" = Ok (Some mapped)
    /\ field mapped "model" = str "moonshotai/kimi-k2:free"
    /\ annotated (field mapped "messages") = true.
Proof.
  eexists.
  destruct (cache_control_outlives_the_mapping (P := Reference.platform)
              claude_sonnet_request "anthropic" "claude-sonnet-4" caching_request
              _ eq_refl eq_refl (or_introl eq_refl)) as [mapped [H1 [H2 H3]]].
  exists mapped. split; [reflexivity|]. split; [exact H1|]. split; [exact H2|].
  rewrite H3. reflexivity.
Defined.

(** ** The two ways to OpenRouter *)

Section DirectForwarding.
Context {P : Platform}.

Lemma isClaudeModel_or_empty (model : value) :
  isClaudeModel (js_or model (str "")) = isClaudeModel model.
Proof.
  unfold js_or. destruct (truthy model) eqn:E; [reflexivity|].
  unfold isClaudeModel. rewrite E. reflexivity.
Qed.

Lemma finalRequestBody_openrouter (requestBody : props) (request : Request) :
  finalRequestBody (obj requestBody) "openrouter" request
  = (stripped <- removeCacheControlFromMessages (field (obj requestBody) "messages") ;;
     messages <-
       (if opt_in (Some request) then
          claude <- isClaudeModel (field (obj requestBody) "model") ;;
          if claude then addCacheControlToMessages stripped else Ok stripped
        else Ok stripped) ;;
     Ok (obj (assign "messages" messages requestBody))).
Proof.
  unfold finalRequestBody. cbn [String.eqb Ascii.eqb Bool.eqb own_props obj].
  fold (obj requestBody).
  destruct (removeCacheControlFromMessages (field (obj requestBody) "messages"))
    as [stripped|e]; [|reflexivity].
  cbn [bindR]. unfold opt_in.
  assert (A : forall v, assign "messages" v (assign "messages" stripped requestBody)
                        = assign "messages" v requestBody).
  { intros v. induction requestBody as [|[k x] r IH]; cbn [assign].
    - reflexivity.
    - destruct (k =? "messages") eqn:E; cbn [assign]; rewrite E; [reflexivity|].
      now rewrite IH. }
  destruct (headers_get (headers request) "anthropic-beta") as [beta|]; [|reflexivity].
  destruct (negb (beta =? "") && includes beta "prompt-caching"); [|reflexivity].
  cbn [prop nullish obj bindR].
  destruct (isClaudeModel (field (obj requestBody) "model")) as [[|]|e]; try reflexivity.
  cbn [bindR]. fold (obj (assign "messages" stripped requestBody)).
  rewrite field_assign_same.
  destruct (addCacheControlToMessages stripped); cbn [bindR]; [|reflexivity].
  now rewrite A.
Qed.

(** X22. OpenRouter gets the same messages on both ways.  A request
    object with messages that is forwarded without conversion (an
    OpenAI-shaped client) and the same request converted from the OpenAI or
    the Anthropic shape come out with the same [messages], or fail alike:
    annotations stripped, and added again under the same condition.  The
    forwarded request keeps every other field the client sent, which the
    converted one does not. *)
Theorem openrouter_messages_either_way (requestBody : props) (sourceFormat : string)
    (request : Request)
    (Hformat : sourceFormat = "openai" \/ sourceFormat = "anthropic")
    (Hmessages : truthy (field (obj requestBody) "messages") = true) :
  (out <- finalRequestBody (obj requestBody) "openrouter" request ;;
   Ok (field out "messages"))
  = (out <- convertRequest (obj requestBody) sourceFormat "openai"
              (Some request) (Some "openrouter") ;;
     Ok (field out "messages"))
  /\ (forall out,
        finalRequestBody (obj requestBody) "openrouter" request = Ok out ->
        forall k, k <> "messages" -> field out k = field (obj requestBody) k).
Proof.
  rewrite finalRequestBody_openrouter. split.
  - unfold convertRequest.
    assert (S : exists standard,
               toStandardFormat (obj requestBody) sourceFormat = Ok standard
               /\ nullish standard = false
               /\ field standard "messages" = field (obj requestBody) "messages"
               /\ field standard "model"
                  = js_or (field (obj requestBody) "model") (str "")).
    { unfold toStandardFormat. cbn [prop nullish obj bindR].
      destruct Hformat as [-> | ->]; cbn [String.eqb Ascii.eqb Bool.eqb orb].
      + eexists. split; [reflexivity|].
        cbn [field obj lookup assign String.eqb Ascii.eqb Bool.eqb nullish].
        fold (obj requestBody). rewrite (js_or_truthy _ _ Hmessages). auto.
      + destruct (truthy (field (obj requestBody) "system"));
          (eexists; split; [reflexivity|]);
          cbn [field obj lookup assign String.eqb Ascii.eqb Bool.eqb nullish];
          fold (obj requestBody); rewrite (js_or_truthy _ _ Hmessages); auto. }
    destruct S as [standard [-> [Hn [Hm Ho]]]]. cbn [bindR].
    rewrite fromStandardFormat_openrouter by reflexivity.
    rewrite prop_defined by exact Hn. cbn [bindR].
    rewrite Hm, Ho, isClaudeModel_or_empty.
    destruct (removeCacheControlFromMessages (field (obj requestBody) "messages"))
      as [stripped|e]; [|reflexivity].
    cbn [bindR].
    destruct (opt_in (Some request)).
    + destruct (isClaudeModel (field (obj requestBody) "model")) as [[|]|e];
        cbn [bindR]; try reflexivity.
      * destruct (addCacheControlToMessages stripped); cbn [bindR]; [|reflexivity].
        now rewrite field_assign_same.
      * now rewrite field_assign_same.
    + cbn [bindR]. now rewrite field_assign_same.
  - intros out H k Hk. cases_of H; apply Ok_inj in H; subst out;
      now apply field_assign_other.
Qed.

End DirectForwarding.

Lemma openrouter_messages_either_way_witness :
  exists messages,
    (out <- finalRequestBody (P := Reference.platform) claude_sonnet_request "openrouter"
              caching_request ;;
     Ok (field out "messages")) = Ok messages
    /\ (out <- convertRequest (P := Reference.platform) claude_sonnet_request
                 "anthropic" "openai" (Some caching_request) (Some "openrouter") ;;
        Ok (field out "messages")) = Ok messages
    /\ annotated messages = true.
Proof.
  eexists. split; [reflexivity|]. split; [|reflexivity].
  symmetry.
  exact (proj1 (openrouter_messages_either_way (P := Reference.platform)
                  (own_props claude_sonnet_request) "anthropic" caching_request
                  (or_intror eq_refl) eq_refl)).
Defined.

(** ** A chunk that cannot be converted *)

Section FailedConversions.
Context {P : Platform}.

(** X23. A data line whose payload is JSON but cannot be converted (the
    conversion throws, as it does on the payload [null]) is treated like a
    line that is not JSON: the line is written as it came, followed by the
    blank line that ends an event, and the stream goes on.  The event
    "Line processing error" of the outer handler is not written. *)
Theorem unconvertible_chunk_passes_through (payload sourceFormat targetFormat error : string)
    (data : value) (w : world)
    (Hdone : (payload =? "[DONE]") = false)
    (Hblank : (trim payload =? "") = false)
    (Hparse : JSON_parse payload = Some data)
    (Hthrows : snd (convertStreamChunk data sourceFormat targetFormat w) = Throw error) :
  processStreamLine ("data: " ++ payload) sourceFormat targetFormat w
  = (emit (fst (convertStreamChunk data sourceFormat targetFormat w))
       ("data: " ++ payload ++ nl ++ nl), Ok tt)
  /\ written (fst (processStreamLine ("data: " ++ payload) sourceFormat targetFormat w))
     = (written w ++ [("data: " ++ payload ++ nl ++ nl)%string])%list.
Proof.
  assert (E : processStreamLine ("data: " ++ payload) sourceFormat targetFormat w
              = (emit (fst (convertStreamChunk data sourceFormat targetFormat w))
                   ("data: " ++ payload ++ nl ++ nl), Ok tt)).
  { unfold processStreamLine. rewrite trim_data_line, prefix_append.
    change (substring_from 6 ("data: " ++ payload)) with payload.
    cbv iota. rewrite Hdone, Hblank, Hparse. cbn [orb].
    unfold try_catch, bindIO, lift.
    destruct (convertStreamChunk data sourceFormat targetFormat w) as [w1 r].
    cbn [snd] in Hthrows. subst r. reflexivity. }
  split; [exact E|]. rewrite E. cbn [fst emit written].
  now rewrite (proj1 (quiet_convertStreamChunk data sourceFormat targetFormat w)).
Qed.

End FailedConversions.

Lemma unconvertible_chunk_passes_through_witness :
  processStreamLine (P := Reference.platform) ("data: " ++ "null") "anthropic" "openai" start
  = (emit start ("data: " ++ "null" ++ nl ++ nl), Ok tt).
Proof.
  exact (proj1 (unconvertible_chunk_passes_through (P := Reference.platform)
                  "null" "anthropic" "openai" TypeError VNull start
                  eq_refl eq_refl eq_refl eq_refl)).
Defined.

(** ** The limit of Groq *)

Lemma SFltb_asym (a b : spec_float) : SFltb a b = true -> SFltb b a = false.
Proof.
  unfold SFltb.
  destruct a as [[|]|[|]| |[|] m1 e1], b as [[|]|[|]| |[|] m2 e2]; cbn [SFcompare];
    try congruence;
    rewrite (Z.compare_antisym e1 e2);
    destruct (e1 ?= e2)%Z; cbn [CompOpp]; try congruence;
    change (PosDef.Pos.compare_cont Eq m2 m1) with (Pos.compare m2 m1);
    change (PosDef.Pos.compare_cont Eq m1 m2) with (Pos.compare m1 m2);
    rewrite (Pos.compare_antisym m1 m2);
    destruct (Pos.compare m1 m2); cbn [CompOpp]; congruence.
Qed.

Lemma ltb_asym (x y : float) : PrimFloat.ltb x y = true -> PrimFloat.ltb y x = false.
Proof. intros H. rewrite FloatAxioms.ltb_spec in *. now apply SFltb_asym. Qed.

Lemma zero_not_above (n c : float) :
  PrimFloat.ltb 0 c = true -> PrimFloat.eqb n 0 = true -> PrimFloat.ltb c n = false.
Proof.
  intros Hc Hn. rewrite FloatAxioms.ltb_spec in *. rewrite FloatAxioms.eqb_spec in Hn.
  unfold SFltb, SFeqb in *.
  change (Prim2SF 0) with (S754_zero false) in *.
  destruct (Prim2SF n) as [[|]|[|]| |[|] m e], (Prim2SF c) as [[|]|[|]| |[|] m' e'];
    cbn [SFcompare] in *; congruence.
Qed.

Lemma nan_not_above (n c : float) : PrimFloat.is_nan n = true -> PrimFloat.ltb c n = false.
Proof.
  unfold PrimFloat.is_nan. intros Hn. rewrite FloatAxioms.ltb_spec.
  rewrite FloatAxioms.eqb_spec in Hn. unfold SFltb, SFeqb in *.
  destruct (Prim2SF c) as [[|]|[|]| |[|] m' e'], (Prim2SF n) as [[|]|[|]| |[|] m e];
    cbn [SFcompare negb] in *; try congruence.
  all: try (rewrite Z.compare_refl, Pos.compare_cont_refl in Hn; discriminate).
Qed.

Section GroqLimit.
Context {P : Platform}.

Lemma Math_min_bound (v : value) :
  js_gt_num (num (Math_min v (num 16384))) 16384 = false.
Proof.
  unfold js_gt_num, Math_min. cbn [ToNumber num].
  destruct (PrimFloat.is_nan (ToNumber v) || PrimFloat.is_nan 16384); [reflexivity|].
  destruct (PrimFloat.ltb (ToNumber v) 16384) eqn:L; [now apply ltb_asym|].
  destruct (PrimFloat.ltb 16384 (ToNumber v)) eqn:G; [reflexivity|].
  destruct (PrimFloat.ltb (1 / ToNumber v) 0); [exact G|reflexivity].
Qed.

Lemma falsy_not_above (v : value) :
  typeof_string v = false -> truthy v = false -> js_gt_num v 16384 = false.
Proof.
  unfold js_gt_num. destruct v as [| |[|]|n|s|xs|fs]; cbn [truthy ToNumber typeof_string];
    try discriminate; try reflexivity.
  intros _ H. apply negb_false_iff, orb_true_iff in H. destruct H as [H|H].
  - now apply zero_not_above.
  - now apply nan_not_above.
Qed.

(** X24. Groq is never asked for more than 16384 tokens.  A request
    converted for the Groq platform comes out with a [max_tokens] that is
    not above 16384; so does a request forwarded without conversion whose
    [max_tokens] is not a string, and that one keeps every other field as
    the client sent it. *)
Theorem groq_max_tokens_limit (requestBody : props) (clientFormat : string)
    (request : Request) (converted : value)
    (Hconverted : convertRequest (obj requestBody) clientFormat "openai"
                    (Some request) (Some "groq") = Ok converted)
    (Hnumber : typeof_string (field (obj requestBody) "max_tokens") = false) :
  js_gt_num (field converted "max_tokens") 16384 = false
  /\ exists forwarded,
       finalRequestBody (obj requestBody) "groq" request = Ok forwarded
       /\ js_gt_num (field forwarded "max_tokens") 16384 = false
       /\ forall k, k <> "max_tokens" -> field forwarded k = field (obj requestBody) k.
Proof.
  split.
  - unfold convertRequest in Hconverted.
    destruct (toStandardFormat (obj requestBody) clientFormat) as [standard|e];
      [|discriminate].
    cbn [bindR] in Hconverted. unfold fromStandardFormat in Hconverted.
    cbn [String.eqb Ascii.eqb Bool.eqb orb] in Hconverted.
    destruct (prop standard "model") as [model|e]; [|discriminate].
    cbn [bindR] in Hconverted.
    change (platform_is (Some "groq") "groq") with true in Hconverted.
    change (platform_is (Some "groq") "openrouter") with false in Hconverted.
    cbv iota in Hconverted. cbn [bindR] in Hconverted.
    apply Ok_inj in Hconverted. subst converted.
    rewrite field_assign_same. apply Math_min_bound.
  - unfold finalRequestBody. cbn [String.eqb Ascii.eqb Bool.eqb own_props obj].
    fold (obj requestBody).
    destruct (truthy (field (obj requestBody) "max_tokens")) eqn:T; cbn [andb].
    + destruct (js_gt_num (field (obj requestBody) "max_tokens") 16384) eqn:G.
      * eexists. split; [reflexivity|]. split.
        -- rewrite field_assign_same. reflexivity.
        -- intros k Hk. now apply field_assign_other.
      * eexists. split; [reflexivity|]. split; [exact G|reflexivity].
    + eexists. split; [reflexivity|]. split; [|reflexivity].
      now apply falsy_not_above.
Qed.

End GroqLimit.

Lemma groq_max_tokens_limit_witness :
  exists converted forwarded,
    convertRequest (P := Reference.platform)
      (obj [ ("model", str "llama-3.3-70b"); ("max_tokens", num 100000) ])
      "anthropic" "openai" (Some caching_request) (Some "groq") = Ok converted
    /\ field converted "max_tokens" = num 16384
    /\ finalRequestBody (P := Reference.platform)
         (obj [ ("model", str "llama-3.3-70b"); ("max_tokens", num 100000) ])
         "groq" caching_request = Ok forwarded
    /\ js_gt_num (P := Reference.platform) (field forwarded "max_tokens") 16384 = false.
Proof.
  eexists.
  destruct (groq_max_tokens_limit (P := Reference.platform)
              [ ("model", str "llama-3.3-70b"); ("max_tokens", num 100000) ]
              "anthropic" caching_request _ eq_refl eq_refl)
    as [_ [forwarded [H1 [H2 _]]]].
  exists forwarded. split; [reflexivity|]. split; [vm_compute; reflexivity|].
  split; [exact H1|exact H2].
Defined.

(** ** The way of a response through the IR and back *)

Section ResponseRoundTrip.
Context {P : Platform}.

(** X25. An Anthropic-shaped response with one text block survives the
    way through the IR: converted to the IR and from there back to the
    Anthropic shape it is the response it was, with its id, model, text,
    stop_reason and token counts, provided the id, the model and the
    stop_reason are not empty.  On the way the IR holds the sum of the two
    counts as [total_tokens]. *)
Theorem anthropic_response_round_trip (id model text stop_reason : string)
    (input_tokens output_tokens : float) (w : world)
    (Hid : id <> "")
    (Hmodel : model <> "")
    (Hstop : stop_reason <> "")
    (Hinput : plain_count input_tokens)
    (Houtput : plain_count output_tokens) :
  exists standard,
    convertResponse
      (anthropic_message id model text stop_reason input_tokens output_tokens)
      "anthropic" "openai" w
    = (tick w, Ok standard)
    /\ field (field standard "usage") "total_tokens" = num (input_tokens + output_tokens)
    /\ responseFromStandardFormat standard "anthropic"
       = Ok (anthropic_message id model text stop_reason input_tokens output_tokens).
Proof.
  assert (T : forall s, s <> "" -> truthy (str s) = true).
  { intros s H. apply String.eqb_neq in H. cbn [truthy str]. now rewrite H. }
  assert (J : forall s d, s <> "" -> js_or (str s) d = str s).
  { intros s d H. apply js_or_truthy, T, H. }
  assert (Jt : js_or (str text) (str "") = str text).
  { unfold js_or. cbn [truthy str]. destruct (text =? "") eqn:E; [|reflexivity].
    apply String.eqb_eq in E. now subst. }
  unfold plain_count in Hinput, Houtput.
  eexists. split; [|split].
  - unfold convertResponse, responseToStandardFormat, bindIO, Date_now_call, retIO, lift.
    cbn [String.eqb Ascii.eqb Bool.eqb orb]. unfold anthropic_message.
    cbn [prop nullish obj field lookup String.eqb Ascii.eqb Bool.eqb opt_prop opt_index item
         nth assign responseFromStandardFormat orb].
    reflexivity.
  - cbn [prop nullish obj field lookup String.eqb Ascii.eqb Bool.eqb opt_prop opt_index item
         nth assign].
    rewrite Hinput, Houtput. reflexivity.
  - unfold responseFromStandardFormat. cbn [String.eqb Ascii.eqb Bool.eqb orb].
    cbn [prop nullish obj field lookup String.eqb Ascii.eqb Bool.eqb opt_prop opt_index item
         nth assign index bindR].
    rewrite !(J id), !(J model), !(J stop_reason) by assumption.
    rewrite Hinput, Houtput, !Jt. reflexivity.
Qed.

End ResponseRoundTrip.

Lemma anthropic_response_round_trip_witness :
  exists standard,
    convertResponse (P := Reference.platform)
      (anthropic_message "msg_01" "claude-3-opus" "Hi" "end_turn" 10 5)
      "anthropic" "openai" start
    = (tick start, Ok standard)
    /\ field (field standard "usage") "total_tokens" = num 15
    /\ responseFromStandardFormat (P := Reference.platform) standard "anthropic"
       = Ok (anthropic_message "msg_01" "claude-3-opus" "Hi" "end_turn" 10 5).
Proof.
  destruct (anthropic_response_round_trip (P := Reference.platform)
              "msg_01" "claude-3-opus" "Hi" "end_turn" 10 5 start)
    as [standard [H1 [H2 H3]]]; try discriminate; try reflexivity.
  exists standard. split; [exact H1|]. split; [|exact H3].
  rewrite H2. reflexivity.
Defined.

(** ** Adding cache control twice *)

Lemma is_text_object (part : value) : is_text part = true -> exists fs, part = VObj fs.
Proof.
  unfold is_text. destruct part as [| |b|n|s|xs|fs]; simpl; try discriminate.
  eauto.
Qed.

Lemma annotate_fixed (message message' : value) :
  is_user message = true ->
  annotate message = Ok message' ->
  annotate message' = Ok message' /\ is_user message' = true.
Proof.
  intros Hu H. destruct (is_user_object _ Hu) as [fs ->].
  assert (Hrole : forall v, is_user (obj (assign "content" v fs)) = true).
  { intros v. unfold is_user. rewrite field_assign_other by discriminate. exact Hu. }
  unfold annotate in H. cbn [own_props] in H.
  destruct (field (VObj fs) "content") as [| |b|n|s|parts|cs] eqn:E; cbn [typeof_string] in H;
    try (apply Ok_inj in H; subst message'; split; [|exact Hu];
         unfold annotate; rewrite E; reflexivity).
  - apply Ok_inj in H. subst message'. split; [|apply Hrole].
    unfold annotate. rewrite field_assign_same. cbn [typeof_string rev app bindR].
    cbn [prop nullish obj field lookup String.eqb Ascii.eqb Bool.eqb bindR is_str str
         own_props assign app rev].
    now rewrite assign_assign.
  - destruct (rev parts) as [|last front] eqn:R.
    + cbn [bindR] in H. apply Ok_inj in H. subst message'. split; [|apply Hrole].
      unfold annotate. rewrite field_assign_same. cbn [typeof_string]. rewrite R.
      cbn [bindR own_props obj]. now rewrite assign_assign.
    + destruct (prop last "type") as [type|e] eqn:T; [|discriminate].
      cbn [bindR] in H. destruct (is_str type "text") eqn:X.
      * cbn [bindR] in H. apply Ok_inj in H. subst message'. split; [|apply Hrole].
        assert (Hlast : is_text last = true).
        { unfold prop in T. destruct (nullish last); [discriminate|].
          apply Ok_inj in T. unfold is_text. now rewrite T. }
        destruct (is_text_object _ Hlast) as [lf ->]. cbn [own_props].
        unfold annotate. rewrite field_assign_same. cbn [typeof_string].
        rewrite rev_unit, rev_involutive.
        cbn [prop nullish obj bindR]. rewrite field_assign_other by discriminate.
        unfold is_text in Hlast. change (VObj lf) with (obj lf) in Hlast.
        rewrite Hlast. cbn [bindR own_props obj].
        now rewrite !assign_assign.
      * cbn [bindR] in H. apply Ok_inj in H. subst message'. split; [|apply Hrole].
        unfold annotate. rewrite field_assign_same. cbn [typeof_string]. rewrite R, T.
        cbn [bindR]. rewrite X. cbn [bindR own_props obj]. now rewrite assign_assign.
Qed.

Lemma annotate_last_user_fixed (backwards annotated : list value) :
  annotate_last_user backwards = Ok annotated ->
  annotate_last_user annotated = Ok annotated.
Proof.
  revert annotated. induction backwards as [|message earlier IH]; intros annotated H.
  - apply Ok_inj in H. now subst.
  - cbn [annotate_last_user] in H.
    destruct (prop message "role") as [role|e] eqn:R; [|discriminate].
    cbn [bindR] in H. destruct (is_str role "user") eqn:U.
    + destruct (annotate message) as [message'|e] eqn:A; [|discriminate].
      cbn [bindR] in H. apply Ok_inj in H. subst annotated.
      assert (Hu : is_user message = true).
      { unfold prop in R. destruct (nullish message); [discriminate|].
        apply Ok_inj in R. unfold is_user. now rewrite R. }
      destruct (annotate_fixed _ _ Hu A) as [A' Hu'].
      now rewrite (annotate_last_user_hit _ _ Hu'), A'.
    + destruct (annotate_last_user earlier) as [earlier'|e]; [|discriminate].
      cbn [bindR] in H. apply Ok_inj in H. subst annotated.
      cbn [annotate_last_user]. rewrite R. cbn [bindR]. rewrite U.
      now rewrite (IH earlier' eq_refl).
Qed.

(** X26. Adding the cache control annotation is idempotent: what
    [addCacheControlToMessages] returns, it returns unchanged when it is
    applied again, so a message is not annotated twice. *)
Theorem addCacheControlToMessages_idempotent (messages annotated : value)
    (Hannotated : addCacheControlToMessages messages = Ok annotated) :
  addCacheControlToMessages annotated = Ok annotated.
Proof.
  unfold addCacheControlToMessages in Hannotated.
  destruct (negb (truthy messages) || length_is_zero messages) eqn:E.
  - apply Ok_inj in Hannotated. subst annotated.
    unfold addCacheControlToMessages. now rewrite E.
  - destruct (spread_array messages) as [modifiedMessages|e]; [|discriminate].
    cbn [bindR] in Hannotated.
    destruct (annotate_last_user (rev modifiedMessages)) as [backwards|e] eqn:A;
      [|discriminate].
    cbn [bindR] in Hannotated. apply Ok_inj in Hannotated. subst annotated.
    unfold addCacheControlToMessages.
    destruct (rev backwards) as [|m ms] eqn:R; [reflexivity|].
    cbn [truthy negb length_is_zero orb spread_array bindR].
    rewrite <- R, rev_involutive, (annotate_last_user_fixed _ _ A). reflexivity.
Qed.

Lemma addCacheControlToMessages_idempotent_witness :
  exists annotated,
    addCacheControlToMessages (VArr two_turns) = Ok annotated
    /\ addCacheControlToMessages annotated = Ok annotated.
Proof.
  eexists. split; [reflexivity|].
  apply (addCacheControlToMessages_idempotent (VArr two_turns)). reflexivity.
Defined.

(** ** What a conversion reads *)

Section ConversionReads.
Context {P : Platform}.

Lemma fromStandardFormat_openai_reads (standard standard' : value)
    (originalRequest : option Request) (platform : option string) :
  nullish standard = nullish standard' ->
  same_request_fields standard standard' ->
  fromStandardFormat standard "openai" originalRequest platform
  = fromStandardFormat standard' "openai" originalRequest platform.
Proof.
  intros Hn H. unfold same_request_fields, request_fields in H.
  inversion H as [|? ? H1 H']; subst. inversion H' as [|? ? H2 H'']; subst.
  inversion H'' as [|? ? H3 H''']; subst. inversion H''' as [|? ? H4 H'''']; subst.
  inversion H'''' as [|? ? H5 _]; subst.
  unfold fromStandardFormat. cbn [String.eqb Ascii.eqb Bool.eqb orb].
  unfold prop. rewrite Hn, H1, H2, H3, H4, H5. reflexivity.
Qed.

(** X27. The system prompt of an Anthropic-shaped request does not reach
    an OpenAI-shaped platform.  Converted for the OpenAI shape (for
    OpenAI, OpenRouter or Groq), two requests that agree on [model],
    [messages], [max_tokens], [temperature] and [stream] give the same
    result; the top-level [system] of the client is read into the IR and
    not written out, neither as a field nor as a message. *)
Theorem openai_request_ignores_system (request request' : value)
    (originalRequest : option Request) (platform : option string)
    (Hrequest : nullish request = false)
    (Hrequest' : nullish request' = false)
    (Hsame : same_request_fields request request') :
  convertRequest request "anthropic" "openai" originalRequest platform
  = convertRequest request' "anthropic" "openai" originalRequest platform.
Proof.
  unfold convertRequest, toStandardFormat.
  rewrite !prop_defined by assumption. cbn [bindR String.eqb Ascii.eqb Bool.eqb orb].
  unfold same_request_fields, request_fields in Hsame.
  inversion Hsame as [|? ? H1 H']; subst. inversion H' as [|? ? H2 H'']; subst.
  inversion H'' as [|? ? H3 H''']; subst. inversion H''' as [|? ? H4 H'''']; subst.
  inversion H'''' as [|? ? H5 _]; subst.
  rewrite H1, H2, H3, H4, H5.
  destruct (truthy (field request "system")); destruct (truthy (field request' "system"));
    cbn [bindR]; apply fromStandardFormat_openai_reads; try reflexivity;
    repeat constructor.
Qed.

(** X28. Of the content of an Anthropic-shaped response only the text of
    the first block reaches the client: two responses with the same [id],
    [model], [stop_reason] and [usage] and the same text in their first
    content block are converted alike, for every target format and at
    every reading of the clock, so further text blocks and tool calls are
    dropped. *)
Theorem anthropic_response_first_block_only (response response' : value)
    (targetFormat : string) (w : world)
    (Hresponse : nullish response = false)
    (Hresponse' : nullish response' = false)
    (Hsame : same_first_text response response') :
  convertResponse response "anthropic" targetFormat w
  = convertResponse response' "anthropic" targetFormat w.
Proof.
  destruct Hsame as [H Hblock].
  inversion H as [|? ? H1 H']; subst. inversion H' as [|? ? H2 H'']; subst.
  inversion H'' as [|? ? H3 H''']; subst. inversion H''' as [|? ? H4 _]; subst.
  unfold convertResponse, responseToStandardFormat, bindIO, lift, retIO.
  cbn [String.eqb Ascii.eqb Bool.eqb orb].
  destruct (Date_now_call w) as [w1 [now|e]]; [|reflexivity].
  rewrite !prop_defined by assumption.
  rewrite H1, H2, H3, H4, Hblock. reflexivity.
Qed.

End ConversionReads.

Lemma openai_request_ignores_system_witness :
  convertRequest (P := Reference.platform) system_prompt_request "anthropic" "openai"
    None (Some "openai")
  = convertRequest (P := Reference.platform) no_system_prompt_request "anthropic" "openai"
      None (Some "openai").
Proof.
  apply (openai_request_ignores_system (P := Reference.platform)); try reflexivity.
  repeat constructor.
Defined.

Lemma anthropic_response_first_block_only_witness :
  convertResponse (P := Reference.platform) tool_use_response "anthropic" "openai" start
  = convertResponse (P := Reference.platform)
      (obj [ ("id", str "msg_01");
             ("model", str "claude-3-opus");
             ("content", VArr [ obj [ ("type", str "text"); ("text", str "Hi") ] ]);
             ("stop_reason", str "tool_use") ])
      "anthropic" "openai" start.
Proof.
  apply (anthropic_response_first_block_only (P := Reference.platform)); try reflexivity.
  split; [repeat constructor|reflexivity].
Defined.

(** ** Messages on the way to an OpenAI-shaped platform *)

Section MessagesUnconverted.
Context {P : Platform}.

(** X29. Between the OpenAI and the Anthropic shape the messages are not
    converted at all.  For every request that is not null, converted from
    either shape for an OpenAI-shaped platform other than OpenRouter, the
    conversion returns, and the [messages] that go out are the [messages]
    that came in (the empty list when there were none): content blocks of
    the Anthropic shape, images and tool results among them, are passed on
    as they are.  The model is the client's, or the empty string. *)
Theorem messages_pass_unconverted (request : value) (sourceFormat : string)
    (originalRequest : option Request) (platform : option string)
    (Hrequest : nullish request = false)
    (Hformat : sourceFormat = "openai" \/ sourceFormat = "anthropic")
    (Hplatform : platform_is platform "openrouter" = false) :
  exists out,
    convertRequest request sourceFormat "openai" originalRequest platform = Ok out
    /\ field out "messages" = js_or (field request "messages") (VArr [])
    /\ field out "model" = js_or (field request "model") (str "").
Proof.
  unfold convertRequest, toStandardFormat.
  rewrite prop_defined by exact Hrequest. cbn [bindR].
  assert (E : forall standard,
             nullish standard = false ->
             exists out,
               fromStandardFormat standard "openai" originalRequest platform = Ok out
               /\ field out "messages" = field standard "messages"
               /\ field out "model" = field standard "model").
  { intros standard Hn. unfold fromStandardFormat.
    cbn [String.eqb Ascii.eqb Bool.eqb orb]. rewrite prop_defined by exact Hn.
    cbn [bindR]. rewrite Hplatform.
    destruct (platform_is platform "groq"); cbn [bindR]; eexists;
      (split; [reflexivity|split; reflexivity]). }
  destruct Hformat as [-> | ->]; cbn [String.eqb Ascii.eqb Bool.eqb orb].
  - cbn [bindR].
    match goal with
    | |- exists out, fromStandardFormat ?s _ _ _ = _ /\ _ =>
        destruct (E s eq_refl) as [out [H1 [H2 H3]]]
    end.
    exists out. split; [exact H1|]. split; [rewrite H2|rewrite H3]; reflexivity.
  - destruct (truthy (field request "system")); cbn [bindR];
      match goal with
      | |- exists out, fromStandardFormat ?s _ _ _ = _ /\ _ =>
          destruct (E s eq_refl) as [out [H1 [H2 H3]]]
      end;
      exists out; (split; [exact H1|]); (split; [rewrite H2|rewrite H3]); reflexivity.
Qed.

End MessagesUnconverted.

Lemma messages_pass_unconverted_witness :
  exists out,
    convertRequest (P := Reference.platform) image_block_request "anthropic" "openai"
      None (Some "openai") = Ok out
    /\ field out "messages" = field image_block_request "messages".
Proof.
  destruct (messages_pass_unconverted (P := Reference.platform) image_block_request
              "anthropic" None (Some "openai") eq_refl (or_intror eq_refl) eq_refl)
    as [out [H1 [H2 _]]].
  exists out. split; [exact H1|]. rewrite H2. reflexivity.
Defined.

(** ** The path of a request *)

Lemma split_on_not_nil (sep : ascii) (s : string) : split_on sep s <> [].
Proof.
  destruct s as [|c r]; cbn [split_on]; [discriminate|].
  destruct (Ascii.eqb c sep); [discriminate|].
  destruct (split_on sep r); discriminate.
Qed.

Lemma split_on_separator (sep : ascii) (a b : string) :
  split_on sep (a ++ String sep b) = (split_on sep a ++ split_on sep b)%list.
Proof.
  induction a as [|x r IH].
  - cbn [append split_on app]. now rewrite Ascii.eqb_refl.
  - change (String x r ++ String sep b) with (String x (r ++ String sep b)).
    cbn [split_on]. rewrite IH. destruct (Ascii.eqb x sep); [reflexivity|].
    pose proof (split_on_not_nil sep r) as N.
    destruct (split_on sep r) as [|l ls]; [contradiction|]. reflexivity.
Qed.

Lemma lookup_In (k : string) (v : value) (fs : props) :
  lookup k fs = Some v -> In k (map fst fs).
Proof.
  induction fs as [|[k' v'] r IH]; cbn [lookup map fst In]; [discriminate|].
  destruct (k' =? k) eqn:E; [|auto].
  intros _. left. now apply String.eqb_eq.
Qed.

Section Paths.
Context {P : Platform}.

(** X30. The routing reads the segments of the path and nothing else:
    empty segments do not count, so a doubled slash is a single one and a
    slash at the end is none.  A request that is routed has one of the
    three client formats, and its platform is one of the five of the
    table, or a name that objects inherit (such as "constructor"), which
    the check of the platform lets through. *)
Theorem route_reads_segments (a b pathname platform clientFormat : string) :
  route (a ++ "//" ++ b) = route (a ++ "/" ++ b)
  /\ route (a ++ "/") = route a
  /\ (route pathname = Routed platform clientFormat ->
      In clientFormat [ "openai"; "anthropic"; "gemini" ]
      /\ (In platform [ "openai"; "anthropic"; "gemini"; "openrouter"; "groq" ]
          \/ inherited platform = true)).
Proof.
  split; [|split].
  - unfold route.
    change (a ++ "//" ++ b) with (a ++ String "/" (String "/" b)).
    change (a ++ "/" ++ b) with (a ++ String "/" b).
    rewrite !split_on_separator.
    change (String "/" b) with ("" ++ String "/" b). rewrite split_on_separator.
    rewrite !filter_app. reflexivity.
  - unfold route. change (a ++ "/") with (a ++ String "/" "").
    rewrite split_on_separator, filter_app. cbn [split_on filter String.eqb negb].
    now rewrite app_nil_r.
  - unfold route.
    destruct (List.length _ <? 2)%nat; [discriminate|].
    destruct (_ && _); [discriminate|].
    destruct (known_platform _) eqn:K; [|discriminate]. cbn [negb].
    destruct (existsb _ _) eqn:F; [|discriminate]. cbn [negb].
    intros H.
    assert (Hp : String_toLowerCase
                   (nth 0 (filter (fun part => negb (part =? ""))
                             (split_on "/" pathname)) "") = platform) by congruence.
    assert (Hf : String_toLowerCase
                   (nth 1 (filter (fun part => negb (part =? ""))
                             (split_on "/" pathname)) "") = clientFormat) by congruence.
    rewrite Hp in K. rewrite Hf in F. split.
    + apply existsb_exists in F. destruct F as [x [Hx E]].
      apply String.eqb_eq in E. now subst.
    + unfold known_platform in K.
      destruct (lookup platform API_FORMATS) as [config|] eqn:L; [left|right; exact K].
      exact (lookup_In _ _ _ L).
Qed.

End Paths.

Lemma route_reads_segments_witness :
  route (P := Reference.platform) ("/OpenRouter" ++ "//" ++ "anthropic/v1/messages/")
  = Routed "openrouter" "anthropic"
  /\ route (P := Reference.platform) "/constructor/openai" = Routed "constructor" "openai"
  /\ In "openai" [ "openai"; "anthropic"; "gemini" ]
  /\ (In "constructor" [ "openai"; "anthropic"; "gemini"; "openrouter"; "groq" ]
      \/ inherited "constructor" = true).
Proof.
  pose proof (route_reads_segments (P := Reference.platform)
                "/OpenRouter" "anthropic/v1/messages/" "/constructor/openai"
                "constructor" "openai") as [H1 [_ H3]].
  assert (R : route (P := Reference.platform) "/constructor/openai"
              = Routed "constructor" "openai") by (vm_compute; reflexivity).
  split; [|split; [exact R|exact (H3 R)]].
  rewrite H1. vm_compute; reflexivity.
Defined.
